(** * Cloudlab-Workflow: the Powder experiment controller and the SSH session

    A shallow embedding of [src/powder/experiment.py] (class
    [PowderExperiment]) and [src/powder/ssh.py] (class [SSHConnection]),
    with the properties of the specification stated over it.

    Conventions of the embedding:
    - Python objects mutated in place ([self]) live in an explicit store
      that is threaded through a state-and-exception monad;
    - calls that leave the process (XML-RPC requests, [time.sleep], the
      [pexpect] child) are answered by an abstract environment and are
      recorded, in order, in a trace of events;
    - a Python exception is the [Raise] outcome of a computation, and keeps
      the store as it was when the exception was raised. *)

From stdpp Require Import gmap strings list fin_maps.

#[local] Set Warnings "-register-all".
#[local] Open Scope string_scope.

(** ** Python exceptions and outcomes *)

Inductive exn : Type :=
| AttributeError
| TypeError
| ValueError (msg : string)
| FileNotFoundError (msg : string)
| ConnectionRefusedError (msg : string)
| ConnectionError (msg : string)
| ExceptionPexpect.

Inductive result (A : Type) : Type :=
| Ok (a : A)
| Raise (e : exn).
Arguments Ok {A} a.
Arguments Raise {A} e.

(** ** Computations: state passing with exceptions

    [W] is the store (the object [self], the environment and the trace). *)

Definition M (W A : Type) : Type := W -> result A * W.

Definition ret {W A} (a : A) : M W A := fun w => (Ok a, w).

Definition bind {W A B} (m : M W A) (k : A -> M W B) : M W B :=
  fun w =>
    match m w with
    | (Ok a, w') => k a w'
    | (Raise e, w') => (Raise e, w')
    end.

Definition raise {W A} (e : exn) : M W A := fun w => (Raise e, w).

(** [try: m  except <class>: h], where [caught] tells the exceptions of the
    class; the others go on to the caller. *)
Definition try_except {W A} (m : M W A) (caught : exn -> bool) (h : exn -> M W A)
  : M W A :=
  fun w =>
    match m w with
    | (Ok a, w') => (Ok a, w')
    | (Raise e, w') => if caught e then h e w' else (Raise e, w')
    end.

(** [except Exception]: every exception of the model. *)
Definition any_exception (e : exn) : bool := true.

(** [except pexpect.exceptions.ExceptionPexpect] *)
Definition pexpect_exception (e : exn) : bool :=
  match e with ExceptionPexpect => true | _ => false end.

#[global] Instance M_ret {W} : MRet (M W) := @ret W.
#[global] Instance M_bind {W} : MBind (M W) := fun A B k m => bind m k.

(** ** Text: the [str] methods the controller relies on *)

Module PyStr.

(** [str.isspace] on one character (code points below 256): tab to
    carriage return, the four separators 0x1c-0x1f, space, NEL, NBSP. *)
Definition is_space (c : Ascii.ascii) : bool :=
  let n := Ascii.N_of_ascii c in
  ((9 <=? n) && (n <=? 13) || (28 <=? n) && (n <=? 32)
   || (n =? 133) || (n =? 160))%N.

Fixpoint lstrip (s : string) : string :=
  match s with
  | EmptyString => EmptyString
  | String c s' => if is_space c then lstrip s' else s
  end.

Definition is_empty (s : string) : bool :=
  match s with EmptyString => true | String _ _ => false end.

Fixpoint rstrip (s : string) : string :=
  match s with
  | EmptyString => EmptyString
  | String c s' =>
      let r := rstrip s' in
      if is_space c && is_empty r then EmptyString else String c r
  end.

(** [s.strip()] *)
Definition strip (s : string) : string := rstrip (lstrip s).

(** [s.startswith(p)] *)
Definition startswith (s p : string) : bool := String.prefix p s.

(** The last character of a text is not a space (false on the empty
    text). *)
Fixpoint ends_solid (s : string) : bool :=
  match s with
  | EmptyString => false
  | String c EmptyString => negb (is_space c)
  | String _ s' => ends_solid s'
  end.

(** The first character of a text is not a space. *)
Definition starts_solid (s : string) : bool :=
  match s with
  | EmptyString => false
  | String c _ => negb (is_space c)
  end.

(** [needle in hay] *)
Fixpoint contains (needle hay : string) : bool :=
  String.prefix needle hay
  || match hay with
     | EmptyString => false
     | String _ hay' => contains needle hay'
     end.

End PyStr.

(** ** Parsed documents

    [xmltodict.parse] and [json.loads] hand the controller trees built from
    [None], strings, lists and string-keyed dictionaries. *)

Inductive pyval : Type :=
| PNone
| PStr (s : string)
| PList (l : list pyval)
| PDict (d : gmap string pyval).

(** Python truthiness ([if not v]). *)
Definition truthy (v : pyval) : bool :=
  match v with
  | PNone => false
  | PStr s => negb (PyStr.is_empty s)
  | PList l => negb (Nat.eqb (length l) 0)
  | PDict d => negb (Nat.eqb (size d) 0)
  end.

(** [d.get(k)]: the value under [k], [None] when the key is absent. *)
Definition py_get (k : string) (d : gmap string pyval) : pyval :=
  default PNone (d !! k).

(** ** Nodes *)

Record Node : Type := mkNode {
  client_id : string;
  ip_address : pyval;
  hostname : pyval
}.

(** ** The manifest parser ([PowderExperiment._parse_manifests]) *)

Module Manifest.

(** [isinstance(h, dict) and h.get('@ipv4')] *)
Definition is_ipv4_host (h : pyval) : bool :=
  match h with
  | PDict d => truthy (py_get "@ipv4" d)
  | _ => false
  end.

(** The body of the inner [for j, node_entry in enumerate(nodes_data)]
    loop, lines 264-298.  [Ok] is a normal end of the iteration (an entry
    stored, or a [continue]); [Raise] is an exception leaving the loop. *)
Definition parse_node_entry (node_entry : pyval) (nodes : gmap string Node)
  : result (gmap string Node) :=
  match node_entry with
  | PDict e =>
      let cid := py_get "@client_id" e in
      let host_data := py_get "host" e in
      let host_dict :=
        match host_data with
        | PList hs => default PNone (List.find is_ipv4_host hs)
        | PDict _ => host_data
        | _ => PNone
        end in
      if negb (truthy cid) then Ok nodes
      else if negb (truthy host_dict) then Ok nodes
      else
        match host_dict with
        | PDict h =>
            let name := py_get "@name" h in
            let ipv4 := py_get "@ipv4" h in
            if negb (truthy name) || negb (truthy ipv4) then Ok nodes
            else
              match cid with
              | PStr s => Ok (<[s := mkNode s ipv4 name]> nodes)
              | _ => Raise TypeError (* unhashable dictionary key *)
              end
        | _ => Raise AttributeError
        end
  | _ => Ok nodes
  end.

(** The inner loop: entries in order; an exception stops it and keeps the
    entries stored so far. *)
Fixpoint parse_node_entries (entries : list pyval) (nodes : gmap string Node)
  : result unit * gmap string Node :=
  match entries with
  | [] => (Ok tt, nodes)
  | e :: rest =>
      match parse_node_entry e nodes with
      | Ok nodes' => parse_node_entries rest nodes'
      | Raise x => (Raise x, nodes)
      end
  end.

(** The [try] block run for one manifest, lines 244-298. *)
Definition parse_manifest_body (manifest : pyval) (nodes : gmap string Node)
  : result unit * gmap string Node :=
  match manifest with
  | PDict m =>
      let rspec_data := py_get "rspec" m in
      if negb (truthy rspec_data) then (Ok tt, nodes)
      else
        match rspec_data with
        | PDict r =>
            let nodes_data := py_get "node" r in
            if negb (truthy nodes_data) then (Ok tt, nodes)
            else
              let nodes_list :=
                match nodes_data with
                | PList l => l
                | _ => [nodes_data]
                end in
              parse_node_entries nodes_list nodes
        | _ => (Raise AttributeError, nodes)
        end
  | _ => (Raise AttributeError, nodes)
  end.

(** One iteration of the outer loop: the [except Exception] clause logs
    and goes on to the next manifest. *)
Definition parse_manifest (nodes : gmap string Node) (manifest : pyval)
  : gmap string Node :=
  snd (parse_manifest_body manifest nodes).

(** The outer loop, started from the registry it is given. *)
Definition parse_all (manifests : list pyval) (nodes : gmap string Node)
  : gmap string Node :=
  foldl parse_manifest nodes manifests.

(** *** The registry as the specification words it (section 4.3)

    Locate the root element and its node collection, a single child
    counting as a one-element sequence. *)
Definition node_entries (document : pyval) : list pyval :=
  match document with
  | PDict m =>
      match py_get "rspec" m with
      | PDict r =>
          match py_get "node" r with
          | PList l => l
          | PNone => []
          | single => if truthy single then [single] else []
          end
      | _ => []
      end
  | _ => []
  end.

(** The host descriptor of an entry: a single element, or the first entry
    of a collection that exposes an IPv4 address. *)
Definition host_descriptor (entry : gmap string pyval)
  : option (gmap string pyval) :=
  match py_get "host" entry with
  | PDict h => Some h
  | PList hs =>
      match List.find is_ipv4_host hs with
      | Some (PDict h) => Some h
      | _ => None
      end
  | _ => None
  end.

(** An entry is valid when it carries a client identifier and a host
    descriptor with both a hostname and an IPv4 address; it then gives
    one node. *)
Definition valid_node (entry : pyval) : option (string * Node) :=
  match entry with
  | PDict e =>
      match py_get "@client_id" e, host_descriptor e with
      | PStr cid, Some h =>
          if truthy (PStr cid) && truthy (py_get "@name" h)
             && truthy (py_get "@ipv4" h)
          then Some (cid, mkNode cid (py_get "@ipv4" h) (py_get "@name" h))
          else None
      | _, _ => None
      end
  | _ => None
  end.

(** The valid nodes of a list of documents, in document order. *)
Definition valid_nodes (documents : list pyval) : list (string * Node) :=
  omap valid_node (concat (map node_entries documents)).

(** The mapping from client identifier to node; a later entry with the
    same identifier replaces an earlier one. *)
Definition store (m : gmap string Node) (kv : string * Node) : gmap string Node :=
  <[kv.1 := kv.2]> m.
Definition registry_of (entries : list (string * Node)) : gmap string Node :=
  foldl store ∅ entries.

(** Client identifiers are attribute texts: what [xmltodict] produces for
    an attribute is a string, never a list or a dictionary. *)
Definition text_client_id (entry : pyval) : Prop :=
  match entry with
  | PDict e =>
      match py_get "@client_id" e with
      | PList _ | PDict _ => False
      | _ => True
      end
  | _ => True
  end.

End Manifest.

(** ** The provisioning controller ([PowderExperiment]) *)

Module Experiment.

(** Experiment status codes, lines 22-29. *)
Inductive Status : Type :=
| EXPERIMENT_NOT_STARTED
| EXPERIMENT_PROVISIONING
| EXPERIMENT_PROVISIONED
| EXPERIMENT_READY
| EXPERIMENT_FAILED
| EXPERIMENT_NULL
| EXPERIMENT_UNKNOWN.

#[global] Instance Status_eq_dec : EqDecision Status.
Proof. solve_decision. Defined.

Definition status_code (s : Status) : Z :=
  match s with
  | EXPERIMENT_NOT_STARTED => 0
  | EXPERIMENT_PROVISIONING => 1
  | EXPERIMENT_PROVISIONED => 2
  | EXPERIMENT_READY => 3
  | EXPERIMENT_FAILED => 4
  | EXPERIMENT_NULL => 5
  | EXPERIMENT_UNKNOWN => 6
  end.

Definition POLL_INTERVAL_S : nat := 20.
Definition PROVISION_TIMEOUT_S : nat := 1800.
Definition MAX_NAME_LENGTH : nat := 16.

(** [self._poll_count_max], set once by [__init__] (line 59). *)
Definition _poll_count_max : nat := PROVISION_TIMEOUT_S / POLL_INTERVAL_S.

(** Modelled from the spec: the module [powder/rpc.py] is not among the
    sources.  Section 6 says that result codes distinguish at least
    success, bad arguments and a generic error; every other code is
    [RESPONSE_OTHER]. *)
Inductive rcode : Type :=
| RESPONSE_SUCCESS
| RESPONSE_BADARGS
| RESPONSE_ERROR
| RESPONSE_OTHER (code : Z).

#[global] Instance rcode_eq_dec : EqDecision rcode.
Proof. solve_decision. Defined.

(** The payload returned next to the result code: a dictionary that may
    hold an ['output'] text, or [None]. *)
Definition payload : Type := option (gmap string string).

(** [response.get('output', dflt)] on a dictionary. *)
Definition get_output (d : gmap string string) (dflt : string) : string :=
  default dflt (d !! "output").

Inductive rpc_method : Type :=
| StartExperiment
| TerminateExperiment
| GetExperimentManifests
| GetExperimentStatus.

#[global] Instance rpc_method_eq_dec : EqDecision rpc_method.
Proof. solve_decision. Defined.

(** What the controller does to the outside, in order. *)
Inductive event : Type :=
| Slept (seconds : nat)
| Called (m : rpc_method) (rval : rcode) (response : payload).

Record PowderExperiment : Type := mkExperiment {
  experiment_name : string;
  project_name : string;
  profile_name : string;
  status : Status;
  nodes : gmap string Node;
  _manifests : option (list pyval)
}.

Definition with_status (v : Status) (e : PowderExperiment) : PowderExperiment :=
  mkExperiment (experiment_name e) (project_name e) (profile_name e)
               v (nodes e) (_manifests e).
Definition with_nodes (v : gmap string Node) (e : PowderExperiment)
  : PowderExperiment :=
  mkExperiment (experiment_name e) (project_name e) (profile_name e)
               (status e) v (_manifests e).
Definition with_manifests (v : option (list pyval)) (e : PowderExperiment)
  : PowderExperiment :=
  mkExperiment (experiment_name e) (project_name e) (profile_name e)
               (status e) (nodes e) v.

(** [not self.nodes] *)
Definition no_nodes (e : PowderExperiment) : bool := Nat.eqb (size (nodes e)) 0.

Definition dquote : string := String (Ascii.ascii_of_nat 34) EmptyString.

(** [PowderExperiment.__init__], lines 36-60. *)
Definition __init__ (experiment_name project_name profile_name : string)
  : result PowderExperiment :=
  if Nat.ltb MAX_NAME_LENGTH (String.length experiment_name) then
    Raise (ValueError ("Experiment name " +:+ dquote +:+ experiment_name +:+ dquote
                       +:+ " exceeds max length (16)"))
  else
    Ok (mkExperiment experiment_name project_name profile_name
                     EXPERIMENT_NOT_STARTED ∅ None).

(** [PowderExperiment._parse_manifests], lines 229-305: nothing happens
    without manifests; otherwise the registry is reset and refilled. *)
Definition parse_manifests (e : PowderExperiment) : PowderExperiment :=
  match _manifests e with
  | None => e
  | Some [] => e
  | Some ms => with_nodes (Manifest.parse_all ms ∅) e
  end.

Section Controller.

(** The control plane: an environment with a state of its own that
    answers the four requests of [powder.rpc].  [decode_manifests]
    stands for [json.loads] followed by [xmltodict.parse] on every
    value; [None] is any exception raised on the way. *)
Context {CP : Type}.
Variable start_experiment : string -> string -> string -> CP -> rcode * payload * CP.
Variable terminate_experiment : string -> string -> CP -> rcode * payload * CP.
Variable get_experiment_manifests : string -> string -> CP -> rcode * payload * CP.
Variable get_experiment_status : string -> string -> CP -> rcode * payload * CP.
Variable decode_manifests : string -> option (list pyval).

Record world : Type := mkWorld {
  self : PowderExperiment;
  plane : CP;
  trace : list event
}.

Definition get_self : M world PowderExperiment := fun w => (Ok (self w), w).
Definition modify_self (f : PowderExperiment -> PowderExperiment)
  : M world unit :=
  fun w => (Ok tt, mkWorld (f (self w)) (plane w) (trace w)).
(** [time.sleep(seconds)] *)
Definition sleep (seconds : nat) : M world unit :=
  fun w => (Ok tt, mkWorld (self w) (plane w) (trace w ++ [Slept seconds])).
(** One request to the control plane. *)
Definition call (m : rpc_method) (f : CP -> rcode * payload * CP)
  : M world (rcode * payload) :=
  fun w =>
    let '(rval, response, p') := f (plane w) in
    (Ok (rval, response),
     mkWorld (self w) p' (trace w ++ [Called m rval response])).

(** [self._get_manifests()], lines 197-227. *)
Definition _get_manifests : M world unit :=
  s ← get_self;
  '(rval, response) ← call GetExperimentManifests
      (get_experiment_manifests (project_name s) (experiment_name s));
  if decide (rval = RESPONSE_SUCCESS) then
    (* any exception inside the [try] leaves [None] *)
    modify_self (with_manifests
      (match response with
       | Some d =>
           match d !! "output" with
           | Some out => decode_manifests out
           | None => None
           end
       | None => None
       end))
  else
    match response with
    | None => raise AttributeError (* [response.get] in the log call *)
    | Some _ => modify_self (with_manifests None)
    end.

(** [self._parse_manifests()] as a computation. *)
Definition _parse_manifests : M world unit := modify_self parse_manifests.

(** The chained call [self._get_manifests()._parse_manifests()]. *)
Definition load_manifests : M world unit :=
  _get_manifests;;
  _parse_manifests.

(** The test of lines 319-320. *)
Definition no_such_experiment (rval : rcode) (response : payload) : bool :=
  bool_decide (rval = RESPONSE_BADARGS)
  || (bool_decide (rval = RESPONSE_ERROR)
      && match response with
         | Some d =>
             negb (Nat.eqb (size d) 0)
             && PyStr.contains "No such experiment" (get_output d "")
         | None => false
         end).

(** [self._get_status()], lines 308-383. *)
Definition _get_status : M world unit :=
  s ← get_self;
  '(rval, response) ← call GetExperimentStatus
      (get_experiment_status (project_name s) (experiment_name s));
  if no_such_experiment rval response then
    if decide (status s <> EXPERIMENT_NULL) then
      modify_self (fun e =>
        with_manifests None (with_nodes ∅ (with_status EXPERIMENT_NULL e)))
    else mret tt
  else if decide (rval <> RESPONSE_SUCCESS) then
    if decide (status s <> EXPERIMENT_UNKNOWN) then
      modify_self (with_status EXPERIMENT_UNKNOWN)
    else mret tt
  else
    match response with
    | None => raise AttributeError (* [response.get] on [None] *)
    | Some d =>
        let output := PyStr.strip (get_output d "") in
        let previous_status := status s in
        new_status ←
          (if PyStr.startswith output "Status: ready" then
             if bool_decide (previous_status <> EXPERIMENT_READY) || no_nodes s
             then
               try_except
                 (load_manifests;;
                  s' ← get_self;
                  mret (if no_nodes s' then EXPERIMENT_FAILED
                        else EXPERIMENT_READY))
                 any_exception (fun _ => mret EXPERIMENT_FAILED)
             else mret EXPERIMENT_READY
           else if PyStr.startswith output "Status: provisioning" then
             mret EXPERIMENT_PROVISIONING
           else if PyStr.startswith output "Status: provisioned" then
             mret EXPERIMENT_PROVISIONED
           else if PyStr.startswith output "Status: failed" then
             mret EXPERIMENT_FAILED
           else if PyStr.contains "UUID:" output
                   || PyStr.contains "creating image" output
                   || PyStr.contains "booting" output then
             mret EXPERIMENT_PROVISIONING
           else mret EXPERIMENT_UNKNOWN);
        if decide (previous_status <> new_status) then
          modify_self (with_status new_status)
        else mret tt
    end.

(** [self.check_status()], lines 62-73. *)
Definition check_status : M world Status :=
  _get_status;;
  s ← get_self;
  mret (status s).

(** [self.terminate()], lines 176-195. *)
Definition terminate : M world Status :=
  s ← get_self;
  '(rval, response) ← call TerminateExperiment
      (terminate_experiment (project_name s) (experiment_name s));
  (if decide (rval = RESPONSE_SUCCESS) then
     modify_self (fun e =>
       with_manifests None (with_nodes ∅ (with_status EXPERIMENT_NULL e)))
   else mret tt);;
  s' ← get_self;
  mret (status s').

(** The block written out at lines 92-101 and again at lines 155-164:
    a READY experiment without nodes gets one more manifest load, and
    is marked FAILED when that leaves the registry empty or raises. *)
Definition reload_missing_nodes : M world unit :=
  s ← get_self;
  if no_nodes s then
    try_except
      (load_manifests;;
       s' ← get_self;
       if no_nodes s' then modify_self (with_status EXPERIMENT_FAILED)
       else mret tt)
      any_exception (fun _ => modify_self (with_status EXPERIMENT_FAILED))
  else mret tt.

(** The states in which the loop of line 145 keeps polling. *)
Definition polling_states : list Status :=
  [EXPERIMENT_PROVISIONING; EXPERIMENT_PROVISIONED;
   EXPERIMENT_NOT_STARTED; EXPERIMENT_UNKNOWN].

(** The polling loop, lines 143-149.  [remaining] is
    [self._poll_count_max - poll_count], so that [poll_count <
    self._poll_count_max] reads [remaining <> 0] and [poll_count += 1]
    takes one off. *)
Fixpoint polling_loop (remaining : nat) : M world unit :=
  s ← get_self;
  if bool_decide (status s ∈ polling_states) then
    match remaining with
    | O => mret tt
    | S remaining' =>
        sleep POLL_INTERVAL_S;;
        _get_status;;
        polling_loop remaining'
    end
  else mret tt.

(** The final status evaluation, lines 151-171. *)
Definition final_status_evaluation : M world unit :=
  s ← get_self;
  if decide (status s = EXPERIMENT_READY) then reload_missing_nodes
  else if decide (status s = EXPERIMENT_FAILED) then mret tt
  else if bool_decide (status s ∉ [EXPERIMENT_FAILED; EXPERIMENT_NULL]) then
    modify_self (with_status EXPERIMENT_FAILED)
  else mret tt.

(** Lines 141-174: poll, evaluate, return [self.status]. *)
Definition wait_for_ready : M world Status :=
  polling_loop _poll_count_max;;
  final_status_evaluation;;
  s ← get_self;
  mret (status s).

(** Lines 121-174: the start request, unless the experiment is being
    provisioned already, and then the wait. *)
Definition start_then_wait : M world Status :=
  s ← get_self;
  if bool_decide
       (status s ∉ [EXPERIMENT_PROVISIONING; EXPERIMENT_PROVISIONED])
  then
    '(rval, response) ← call StartExperiment
        (start_experiment (experiment_name s) (project_name s)
                          (profile_name s));
    if decide (rval <> RESPONSE_SUCCESS) then
      modify_self (with_status EXPERIMENT_FAILED);;
      s' ← get_self;
      mret (status s')
    else
      sleep 5;;
      _get_status;;
      s' ← get_self;
      if decide (status s' = EXPERIMENT_FAILED) then mret (status s')
      else wait_for_ready
  else wait_for_ready.

(** [self.start_and_wait()], lines 75-174. *)
Definition start_and_wait : M world Status :=
  current_status ← check_status;
  match current_status with
  | EXPERIMENT_READY =>
      reload_missing_nodes;;
      s ← get_self;
      mret (status s)
  | EXPERIMENT_FAILED =>
      terminate;;
      start_then_wait
  | _ => start_then_wait
  end.

End Controller.

(** *** Observations on traces *)

(** The poll iterations: each one sleeps [POLL_INTERVAL_S] first. *)
Definition is_poll (e : event) : bool :=
  match e with
  | Slept n => Nat.eqb n POLL_INTERVAL_S
  | Called _ _ _ => false
  end.
Definition polls (tr : list event) : nat := length (List.filter is_poll tr).

(** The seconds slept in all. *)
Definition seconds (e : event) : nat :=
  match e with
  | Slept n => n
  | Called _ _ _ => 0
  end.
Definition slept (tr : list event) : nat := sum_list_with seconds tr.

(** Nothing was slept between two traces. *)
Definition quiet (tr tr' : list event) : Prop :=
  polls tr' = polls tr /\ slept tr' = slept tr.

(** The requests of one kind. *)
Definition is_call (m : rpc_method) (e : event) : bool :=
  match e with
  | Called m' _ _ => bool_decide (m' = m)
  | Slept _ => false
  end.
Definition calls (m : rpc_method) (tr : list event) : nat :=
  length (List.filter (is_call m) tr).

(** The answer to the latest status request. *)
Definition last_status (tr : list event) : option (rcode * payload) :=
  foldl (fun acc e =>
           match e with
           | Called GetExperimentStatus rval response => Some (rval, response)
           | _ => acc
           end) None tr.

(** A status answer that [_get_status] reads as ready. *)
Definition ready_answer (rval : rcode) (response : payload) : bool :=
  bool_decide (rval = RESPONSE_SUCCESS)
  && match response with
     | Some d => PyStr.startswith (PyStr.strip (get_output d "")) "Status: ready"
     | None => false
     end.

(** The manifests that a successful manifest request caches. *)
Definition cached_manifests (decode_manifests : string -> option (list pyval))
    (response : payload) : option (list pyval) :=
  match response with
  | Some d =>
      match d !! "output" with
      | Some out => decode_manifests out
      | None => None
      end
  | None => None
  end.

(** The state a status line other than a ready one stands for, as
    section 4.2 words it: the fixed prefixes first, then the markers of
    a provisioning still under way, [Unknown] for anything else. *)
Definition line_status (output : string) : Status :=
  if PyStr.startswith output "Status: ready" then EXPERIMENT_READY
  else if PyStr.startswith output "Status: provisioning" then EXPERIMENT_PROVISIONING
  else if PyStr.startswith output "Status: provisioned" then EXPERIMENT_PROVISIONED
  else if PyStr.startswith output "Status: failed" then EXPERIMENT_FAILED
  else if PyStr.contains "UUID:" output
          || PyStr.contains "creating image" output
          || PyStr.contains "booting" output then EXPERIMENT_PROVISIONING
  else EXPERIMENT_UNKNOWN.

(** The local state after a successful terminate or a not-found answer. *)
Definition cleared (e : PowderExperiment) : PowderExperiment :=
  with_manifests None (with_nodes ∅ (with_status EXPERIMENT_NULL e)).

(** The states [start_and_wait] can return. *)
Definition settled (st : Status) : Prop :=
  st ∈ [EXPERIMENT_READY; EXPERIMENT_FAILED; EXPERIMENT_NULL].

(** What holds of the registry between two method calls. *)
Definition consistent (e : PowderExperiment) : Prop :=
  (status e = EXPERIMENT_NOT_STARTED \/ status e = EXPERIMENT_NULL ->
   nodes e = ∅ /\ _manifests e = None)
  /\ (status e = EXPERIMENT_READY -> nodes e <> ∅).

(** A control plane whose manifests hold no valid node: whatever a
    successful manifest request caches parses to an empty registry. *)
Definition zero_node_manifests {CP : Type}
    (get_experiment_manifests : string -> string -> CP -> rcode * payload * CP)
    (decode_manifests : string -> option (list pyval)) : Prop :=
  forall project name p response p' documents,
    get_experiment_manifests project name p = (RESPONSE_SUCCESS, response, p') ->
    cached_manifests decode_manifests response = Some documents ->
    Manifest.parse_all documents ∅ = ∅.

(** A store without nodes whose state is not [Ready], and is [Failed]
    when the latest status answer read as ready. *)
Definition unready {CP : Type} (w : @world CP) : Prop :=
  nodes (self w) = ∅
  /\ status (self w) <> EXPERIMENT_READY
  /\ forall rval response,
       last_status (trace w) = Some (rval, response) ->
       ready_answer rval response = true ->
       status (self w) = EXPERIMENT_FAILED.

(** *** Reachable controllers

    A controller is built by [__init__] and then driven through its
    public methods, against any control plane. *)
Inductive operation : Type :=
| CheckStatus
| StartAndWait
| Terminate.

Definition run {CP : Type}
    (start_experiment : string -> string -> string -> CP -> rcode * payload * CP)
    (terminate_experiment get_experiment_manifests get_experiment_status
       : string -> string -> CP -> rcode * payload * CP)
    (decode_manifests : string -> option (list pyval))
    (op : operation) (w : world) : result Status * world :=
  match op with
  | CheckStatus =>
      check_status get_experiment_manifests get_experiment_status
                   decode_manifests w
  | StartAndWait =>
      start_and_wait start_experiment terminate_experiment
                     get_experiment_manifests get_experiment_status
                     decode_manifests w
  | Terminate => terminate terminate_experiment w
  end.

Inductive reachable : PowderExperiment -> Prop :=
| reachable_init name project profile e :
    __init__ name project profile = Ok e -> reachable e
| reachable_step (CP : Type) start_experiment terminate_experiment
      get_experiment_manifests get_experiment_status decode_manifests
      op (w : @world CP) :
    reachable (self w) ->
    reachable (self (run start_experiment terminate_experiment
                         get_experiment_manifests get_experiment_status
                         decode_manifests op w).2).

End Experiment.

(** ** The remote session ([SSHConnection]) *)

Module SSH.

(** The [pexpect] child process as the session sees it: [closed] is false
    from [spawn] on and is set by [close] only. *)
Record child : Type := mkChild { closed : bool }.

Inductive pattern : Type :=
| Regex (re : string)
| EOF
| TIMEOUT.

(** What the session does to the outside, in order. *)
Inductive event : Type :=
| Spawned (command : string)
| Expected (patterns : list pattern) (timeout : nat)
| SentLine (line : string)
| Closed
| Slept (seconds : nat).

#[global] Instance pattern_eq_dec : EqDecision pattern.
Proof. solve_decision. Defined.
#[global] Instance event_eq_dec : EqDecision event.
Proof. solve_decision. Defined.

Record SSHConnection : Type := mkSSH {
  prompt : string;
  ip_address : string;
  username : string;
  password : option string;
  cert_path : string;
  ssh : option child
}.

Definition with_ssh (v : option child) (c : SSHConnection) : SSHConnection :=
  mkSSH (prompt c) (ip_address c) (username c) (password c) (cert_path c) v.

Definition DEFAULT_PROMPT : string := "\$".

(** Truthiness of an optional text ([if username:], [if self.password:]). *)
Definition given (o : option string) : bool :=
  match o with
  | Some s => negb (PyStr.is_empty s)
  | None => false
  end.

(** [SSHConnection.__init__], lines 20-57.  [environ] is [os.environ] and
    [path_exists] is [os.path.exists]. *)
Definition __init__ (environ : gmap string string) (path_exists : string -> bool)
    (ip_address : string) (username : option string) (prompt : string)
  : result SSHConnection :=
  match (if given username then username
         else environ !! "USER") with
  | None =>
      Raise (ValueError "Username not provided and USER environment variable not set")
  | Some user =>
      let password := environ !! "KEYPWORD" in
      let cert_path := environ !! "CERT" in
      if negb (given cert_path) then
        Raise (ValueError "CERT environment variable pointing to SSH key is required")
      else
        let path := default "" cert_path in
        if negb (path_exists path) then
          Raise (FileNotFoundError ("SSH key file not found: " +:+ path))
        else Ok (mkSSH prompt ip_address user password path None)
  end.

(** What one call of [expect] gives: the index of the pattern that
    matched, or an [ExceptionPexpect] (end of stream or timeout when
    these are not among the patterns, or any other failure of the
    library). *)
Inductive expect_outcome : Type :=
| Matched (index : nat)
| Failed.

Definition max_retries : nat := 4.

Section Session.

(** The terminal: an environment with a state of its own that answers
    [pexpect.spawn] (does the process start?) and [expect]. *)
Context {PX : Type}.
Variable px_spawn : string -> PX -> bool * PX.
Variable px_expect : list pattern -> nat -> PX -> expect_outcome * PX.

Record world : Type := mkWorld {
  self : SSHConnection;
  terminal : PX;
  trace : list event
}.

Definition get_self : M world SSHConnection := fun w => (Ok (self w), w).
Definition emit (e : event) : M world unit :=
  fun w => (Ok tt, mkWorld (self w) (terminal w) (trace w ++ [e])).

(** [self.ssh = pexpect.spawn(command, ...)] *)
Definition spawn (command : string) : M world unit :=
  fun w =>
    let '(started, t') := px_spawn command (terminal w) in
    if started then
      (Ok tt, mkWorld (with_ssh (Some (mkChild false)) (self w)) t'
                      (trace w ++ [Spawned command]))
    else
      (Raise ExceptionPexpect,
       mkWorld (self w) t' (trace w ++ [Spawned command])).

(** [self.ssh.expect(patterns, timeout=...)] *)
Definition expect (patterns : list pattern) (timeout : nat) : M world nat :=
  fun w =>
    let '(o, t') := px_expect patterns timeout (terminal w) in
    let w' := mkWorld (self w) t' (trace w ++ [Expected patterns timeout]) in
    match o with
    | Matched i => (Ok i, w')
    | Failed => (Raise ExceptionPexpect, w')
    end.

(** [self.ssh.sendline(line)] *)
Definition sendline (line : string) : M world unit := emit (SentLine line).

(** [self.ssh.close(force=True)] *)
Definition close_force : M world unit :=
  fun w =>
    (Ok tt, mkWorld (with_ssh (Some (mkChild true)) (self w)) (terminal w)
                    (trace w ++ [Closed])).

(** [if self.ssh and not self.ssh.closed: self.ssh.close(force=True)] *)
Definition close_if_open : M world unit :=
  s ← get_self;
  match ssh s with
  | Some c => if closed c then mret tt else close_force
  | None => mret tt
  end.

(** [time.sleep(seconds)] *)
Definition sleep (seconds : nat) : M world unit := emit (Slept seconds).

(** How the body of the [try] block ends when it does not raise:
    [return self], or the end of the block (on to the retry logic). *)
Inductive attempt_end : Type :=
| Returned
| FellThrough.

Definition expected_patterns (s : SSHConnection) : list pattern :=
  [Regex (prompt s);
   Regex "[Pp]assword:";
   Regex "Enter passphrase for key.*:";
   Regex "[Pp]ermission denied";
   Regex "Are you sure you want to continue connecting \(yes/no(/\[fingerprint\])?\)\?";
   EOF;
   TIMEOUT].

Definition ssh_command (s : SSHConnection) : string :=
  "ssh -i " +:+ cert_path s +:+ " -o StrictHostKeyChecking=no "
  +:+ "-o UserKnownHostsFile=/dev/null " +:+ username s +:+ "@" +:+ ip_address s.

(** The body of the [try] block, lines 86-178. *)
Definition attempt : M world attempt_end :=
  s ← get_self;
  spawn (ssh_command s);;
  i ← expect (expected_patterns s) 25;
  match i with
  | 0 => mret Returned
  | 1 =>
      close_force;;
      raise (ValueError "SSH requested user password, unexpected for key authentication.")
  | 2 =>
      if given (password s) then
        sendline (default "" (password s));;
        j ← expect [Regex (prompt s); Regex "[Pp]ermission denied"] 15;
        match j with
        | 0 => mret Returned
        | _ =>
            close_force;;
            raise (ValueError "Incorrect SSH key passphrase or other permission issue.")
        end
      else
        close_force;;
        raise (ValueError "Encrypted SSH key requires KEYPWORD environment variable.")
  | 3 =>
      close_force;;
      raise (ConnectionRefusedError "SSH Permission Denied (publickey)")
  | 4 =>
      sendline "yes";;
      k ← expect (expected_patterns s) 15;
      match k with
      | 0 => mret Returned
      | 1 => raise (ValueError "SSH requested user password after host key confirmation.")
      | 2 =>
          if given (password s) then
            sendline (default "" (password s));;
            l ← expect [Regex (prompt s); Regex "[Pp]ermission denied"] 15;
            match l with
            | 0 => mret Returned
            | _ => raise (ValueError "Passphrase authentication failed after host key confirmation.")
            end
          else
            raise (ValueError "Encrypted key requires KEYPWORD after host key confirmation.")
      | 3 => raise (ConnectionRefusedError "Permission denied after host key confirmation.")
      | _ => close_if_open;; mret FellThrough
      end
  | 5 => close_if_open;; mret FellThrough
  | 6 => close_if_open;; mret FellThrough
  | _ => mret FellThrough
  end.

(** The [while retry_count < max_retries] loop, lines 84-191, and what
    follows it.  [remaining] is [max_retries - retry_count]: the loop
    test reads [remaining <> 0]. *)
Fixpoint open_loop (remaining retry_count : nat) : M world unit :=
  match remaining with
  | O =>
      s ← get_self;
      raise (ConnectionError ("Could not connect via SSH to " +:+ ip_address s
                              +:+ " after multiple retries"))
  | S remaining' =>
      e ← try_except attempt pexpect_exception
            (fun _ => close_if_open;; mret FellThrough);
      match e with
      | Returned => mret tt
      | FellThrough =>
          let retry_count := retry_count + 1 in
          (if Nat.ltb retry_count max_retries then sleep (2 ^ retry_count)
           else mret tt);;
          open_loop remaining' retry_count
      end
  end.

(** [SSHConnection.open], lines 59-195. *)
Definition open : M world unit := open_loop max_retries 0.

End Session.

(** *** Transient failures

    The events of one attempt that ends at the initial prompt wait with
    an end of stream or a timeout. *)
Definition failed_attempt (s : SSHConnection) : list event :=
  [Spawned (ssh_command s); Expected (expected_patterns s) 25; Closed].

(** The events of [k] such attempts in a row, the first one made with the
    given [retry_count], and the pauses after them. *)
Fixpoint failed_attempts (s : SSHConnection) (retry_count k : nat) : list event :=
  match k with
  | O => []
  | S k' =>
      failed_attempt s
      ++ (if Nat.ltb (retry_count + 1) max_retries
          then [Slept (2 ^ (retry_count + 1))] else [])
      ++ failed_attempts s (retry_count + 1) k'
  end.

(** From terminal state [t], the next [k] connection attempts each start
    a process and meet end of stream (5) or a timeout (6) at the initial
    prompt wait; [t'] is the terminal after them. *)
Fixpoint fails_transiently {PX : Type} (px_spawn : string -> PX -> bool * PX)
    (px_expect : list pattern -> nat -> PX -> expect_outcome * PX)
    (s : SSHConnection) (k : nat) (t t' : PX) : Prop :=
  match k with
  | O => t' = t
  | S k' =>
      exists t1 i t2,
        px_spawn (ssh_command s) t = (true, t1)
        /\ px_expect (expected_patterns s) 25 t1 = (Matched i, t2)
        /\ (i = 5 \/ i = 6)
        /\ fails_transiently px_spawn px_expect s k' t2 t'
  end.

(** The session object after [k] such attempts: the child of the last
    one has been closed. *)
Definition after_failures (k : nat) (s : SSHConnection) : SSHConnection :=
  match k with
  | O => s
  | S _ => with_ssh (Some (mkChild true)) s
  end.

Definition is_spawn (e : event) : bool :=
  match e with Spawned _ => true | _ => false end.
Definition is_close (e : event) : bool :=
  match e with Closed => true | _ => false end.
(** The connection attempts in a trace. *)
Definition attempts (tr : list event) : nat := length (List.filter is_spawn tr).
(** The forced terminations in a trace. *)
Definition closes (tr : list event) : nat := length (List.filter is_close tr).
(** The pauses in a trace, in order. *)
Definition pauses (tr : list event) : list nat :=
  omap (fun e => match e with Slept n => Some n | _ => None end) tr.

(** Construction followed by [open()], as the callers do (init_node.py,
    lines 52-54 and 91-92): the terminal, and the trace from the start. *)
Definition connect {PX : Type} (px_spawn : string -> PX -> bool * PX)
    (px_expect : list pattern -> nat -> PX -> expect_outcome * PX)
    (environ : gmap string string) (path_exists : string -> bool)
    (ip_address : string) (username : option string) (t : PX)
  : result unit * list event :=
  match __init__ environ path_exists ip_address username DEFAULT_PROMPT with
  | Raise e => (Raise e, [])
  | Ok s =>
      let '(r, w) := open px_spawn px_expect (mkWorld s t []) in
      (r, trace w)
  end.

End SSH.

(** ** Concrete environments

    A control plane and a terminal that answer from a script, and a few
    manifest documents; the statements below are run on them. *)

Module Scripted.

Import Experiment.

(** The answers the control plane still has to give, per request.  When
    a script is used up the request fails the way a transport fault does:
    a code outside the three known ones and no payload. *)
Record script : Type := mkScript {
  starts : list (rcode * payload);
  terminates : list (rcode * payload);
  manifests : list (rcode * payload);
  statuses : list (rcode * payload)
}.

Definition fault : rcode * payload := (RESPONSE_OTHER (-1), None).

Definition next (answers : list (rcode * payload))
  : rcode * payload * list (rcode * payload) :=
  match answers with
  | [] => (fault, [])
  | a :: rest => (a, rest)
  end.

Definition start_experiment (_ _ _ : string) (c : script)
  : rcode * payload * script :=
  let '(a, rest) := next (starts c) in
  (a, mkScript rest (terminates c) (manifests c) (statuses c)).
Definition terminate_experiment (_ _ : string) (c : script)
  : rcode * payload * script :=
  let '(a, rest) := next (terminates c) in
  (a, mkScript (starts c) rest (manifests c) (statuses c)).
Definition get_experiment_manifests (_ _ : string) (c : script)
  : rcode * payload * script :=
  let '(a, rest) := next (manifests c) in
  (a, mkScript (starts c) (terminates c) rest (statuses c)).
Definition get_experiment_status (_ _ : string) (c : script)
  : rcode * payload * script :=
  let '(a, rest) := next (statuses c) in
  (a, mkScript (starts c) (terminates c) (manifests c) rest).

(** A payload with the given output text. *)
Definition output (text : string) : payload := Some {[ "output" := text ]}.
Definition success (text : string) : rcode * payload :=
  (RESPONSE_SUCCESS, output text).

Definition host (name ipv4 : string) : pyval :=
  PDict {[ "@name" := PStr name; "@ipv4" := PStr ipv4 ]}.
Definition node (cid name ipv4 : string) : pyval :=
  PDict {[ "@client_id" := PStr cid; "host" := host name ipv4 ]}.
Definition document (entries : list pyval) : pyval :=
  PDict {[ "rspec" := PDict {[ "node" := PList entries ]} ]}.

Definition node0 : pyval := node "node-0" "n0.example.net" "10.0.0.1".
Definition node1 : pyval := node "node-1" "n1.example.net" "10.0.0.2".
(** A node entry without [client_id]. *)
Definition anonymous : pyval := PDict {[ "host" := host "n2.example.net" "10.0.0.3" ]}.

(** The manifest outputs are named rather than spelled as JSON. *)
Definition decode_manifests (out : string) : option (list pyval) :=
  if String.eqb out "one" then Some [document [node0]]
  else if String.eqb out "two" then Some [document [node0]; document [node1]]
  else if String.eqb out "mixed" then Some [document [anonymous; node1]]
  else if String.eqb out "hollow" then Some [PDict ∅]
  else if String.eqb out "nothing" then Some []
  else None.

(** A fresh controller. *)
Definition fresh : PowderExperiment :=
  mkExperiment "exp" "proj" "prof" EXPERIMENT_NOT_STARTED ∅ None.

Definition check_status : M (@world script) Status :=
  Experiment.check_status get_experiment_manifests get_experiment_status
                          decode_manifests.
Definition _get_status : M (@world script) unit :=
  Experiment._get_status get_experiment_manifests get_experiment_status
                         decode_manifests.
Definition start_and_wait : M (@world script) Status :=
  Experiment.start_and_wait start_experiment terminate_experiment
    get_experiment_manifests get_experiment_status decode_manifests.
Definition terminate : M (@world script) Status :=
  Experiment.terminate terminate_experiment.
Definition polling_loop (remaining : nat) : M (@world script) unit :=
  Experiment.polling_loop get_experiment_manifests get_experiment_status
                          decode_manifests remaining.
Definition wait_for_ready : M (@world script) Status :=
  Experiment.wait_for_ready get_experiment_manifests get_experiment_status
                            decode_manifests.

(** A controller in front of a control plane, nothing observed yet. *)
Definition world_of (e : PowderExperiment) (c : script) : @world script :=
  mkWorld e c [].

(** The store after one public method. *)
Definition step (op : operation) (w : @world script) : @world script :=
  (run start_experiment terminate_experiment get_experiment_manifests
       get_experiment_status decode_manifests op w).2.

(** A controller that saw the experiment ready with one node ... *)
Definition ready_once : @world script :=
  step CheckStatus
       (world_of fresh (mkScript [] [] [success "one"] [success "Status: ready"])).
(** ... and the same controller once the experiment is reported back in
    provisioning. *)
Definition regressing : @world script :=
  world_of (self ready_once)
           (mkScript [] [] [] [success "Status: provisioning"]).
Definition regressed : @world script := step CheckStatus regressing.

(** A fresh controller and an experiment that stays in provisioning for
    ninety polls. *)
Definition stalled : @world script :=
  world_of fresh
           (mkScript [] [] [] (replicate 90 (success "Status: provisioning"))).
(** The status line of the scenario of section 4.2. *)
Definition uuid_line : @world script :=
  world_of fresh
           (mkScript [] [] [] [success "Status: provisioning, UUID: abc"]).
(** An experiment reported ready whose manifest holds no node. *)
Definition hollow_ready : @world script :=
  world_of fresh (mkScript [] [] [success "hollow"] [success "Status: ready"]).
(** A status line with a blank in front. *)
Definition padded_failed : @world script :=
  world_of fresh (mkScript [] [] [] [success " Status: failed"]).
(** The regressed controller when the experiment is reported ready again,
    with a manifest that holds no node, and with a manifest request that
    fails. *)
Definition hollow_again : @world script :=
  world_of (self regressed)
           (mkScript [] [] [success "hollow"] [success "Status: ready"]).
Definition lost_manifests : @world script :=
  world_of (self regressed)
           (mkScript [] [] [(RESPONSE_ERROR, output "busy")]
                     [success "Status: ready"]).
(** The regressed controller, which still holds its node, when the
    experiment is reported ready again with manifests that hold no
    document. *)
Definition stale_ready : @world script :=
  world_of (self regressed)
           (mkScript [] [] [success "nothing"] [success "Status: ready"]).
(** The ready controller in front of a control plane that accepts a
    terminate request, and of one that answers nothing. *)
Definition terminable : @world script :=
  world_of (self ready_once) (mkScript [] [success "terminated"] [] []).
Definition unreachable_plane : @world script :=
  world_of (self ready_once) (mkScript [] [] [] []).
(** The ready controller with an empty list of cached manifests, and with
    a document of one entry without [client_id] and one well-formed
    entry. *)
Definition emptied_cache : PowderExperiment :=
  with_manifests (Some []) (self ready_once).
Definition mixed_cache : PowderExperiment :=
  with_manifests (Some [document [anonymous; node1]]) (self ready_once).

(** A decoder for which every manifest output is one document without
    nodes, and a start against it. *)
Definition hollow_manifests (_ : string) : option (list pyval) := Some [PDict ∅].
Definition hollow_start : @world script :=
  world_of fresh
           (mkScript [success "started"] [] [success "manifests"]
                     [fault; success "Status: ready"]).

(** A terminal whose [expect] answers from a list, and times out once the
    list is used up; every process starts. *)
Definition px_spawn (_ : string) (t : list SSH.expect_outcome)
  : bool * list SSH.expect_outcome := (true, t).
Definition px_expect (_ : list SSH.pattern) (_ : nat)
    (t : list SSH.expect_outcome)
  : SSH.expect_outcome * list SSH.expect_outcome :=
  match t with
  | [] => (SSH.Matched 6, [])
  | o :: rest => (o, rest)
  end.

Definition session : SSH.SSHConnection :=
  SSH.mkSSH SSH.DEFAULT_PROMPT "10.0.0.1" "alice" None "/keys/id_rsa" None.

Definition at_terminal (t : list SSH.expect_outcome) : SSH.world :=
  SSH.mkWorld session t [].
Definition open (t : list SSH.expect_outcome) : result unit * SSH.world :=
  SSH.open px_spawn px_expect (at_terminal t).

End Scripted.

(** ** The open session: commands, closing, file copies
    ([SSHConnection.command], [close], [copy_to], [copy_from], [_run_scp]) *)

Module Shell.

Import SSH.

(** The exceptions raised by [command] and by the code of [init_node.py]
    that [exn] does not list. *)
Inductive error : Type :=
| Exn (e : exn)
| ConnectionAbortedError (msg : string)
| TimeoutError (msg : string)
| IndexError.

Inductive outcome (A : Type) : Type :=
| Returns (a : A)
| Throws (e : error).
Arguments Returns {A} a.
Arguments Throws {A} e.

(** [self.ssh and not self.ssh.closed] *)
Definition is_open (s : SSHConnection) : bool :=
  match ssh s with
  | Some c => negb (closed c)
  | None => false
  end.

(** [except (pexpect.exceptions.ExceptionPexpect, OSError)]: of the
    exceptions of the model, [FileNotFoundError], [ConnectionError] and
    [ConnectionRefusedError] are subclasses of [OSError]. *)
Definition pexpect_or_os_error (e : exn) : bool :=
  match e with
  | ExceptionPexpect | FileNotFoundError _ | ConnectionRefusedError _
  | ConnectionError _ => true
  | _ => false
  end.

(** What the wait of [close] gives.  Besides what [pexpect] itself gives
    (a match, or one of its exceptions), that wait may end in an
    exception of another kind: the child is read as utf-8 (line 87), and
    output that does not decode raises [UnicodeDecodeError], a
    [ValueError]. *)
Inductive wait_outcome : Type :=
| Pexpect (o : expect_outcome)
| Another (e : exn).

Section Child.

(** The terminal also gives the text read before the last match
    ([self.ssh.before]), and answers the wait of [close]. *)
Context {PX : Type}.
Variable px_expect : list pattern -> nat -> PX -> expect_outcome * PX.
Variable px_before : PX -> string.
Variable px_wait : list pattern -> nat -> PX -> wait_outcome * PX.

(** [SSHConnection.command], lines 198-250.  The result is [None] when
    the function ends without a [return]. *)
Definition command (commandline : string) (expectedline : option string)
    (timeout : nat) : @world PX -> outcome (option string) * @world PX :=
  fun w =>
    let s := self w in
    if negb (is_open s) then
      (Throws (Exn (ConnectionError "SSH connection is not open.")), w)
    else
      let effective_expectedline := default (prompt s) expectedline in
      match (sendline commandline;;
             expect px_expect [Regex effective_expectedline; EOF; TIMEOUT]
                    timeout) w with
      | (Raise e, w') => (Throws (Exn e), w') (* logged and raised again *)
      | (Ok i, w') =>
          let output_before := PyStr.strip (px_before (terminal w')) in
          (match i with
           | 0 => Returns (Some output_before)
           | 1 => Throws (ConnectionAbortedError
                    "SSH connection closed unexpectedly during command execution.")
           | 2 => Throws (TimeoutError
                    ("Timeout waiting for '" +:+ effective_expectedline
                     +:+ "' after command execution."))
           | _ => Returns None
           end, w')
      end.

(** [self.ssh.closed = True] *)
Definition set_closed : M (@world PX) unit :=
  fun w =>
    match ssh (self w) with
    | Some _ =>
        (Ok tt, mkWorld (with_ssh (Some (mkChild true)) (self w)) (terminal w)
                        (trace w))
    | None => (Raise AttributeError, w)
    end.

(** [if not self.ssh.closed: self.ssh.close(force=True)] *)
Definition close_unless_closed : M (@world PX) unit :=
  s ← get_self;
  match ssh s with
  | Some c => if closed c then mret tt else close_force
  | None => raise AttributeError
  end.

(** [self.ssh.expect(patterns, timeout=timeout)], with every exception
    it may raise. *)
Definition wait (patterns : list pattern) (timeout : nat) : M (@world PX) nat :=
  fun w =>
    let '(o, t') := px_wait patterns timeout (terminal w) in
    let w' := mkWorld (self w) t' (trace w ++ [Expected patterns timeout]) in
    match o with
    | Pexpect (Matched i) => (Ok i, w')
    | Pexpect Failed => (Raise ExceptionPexpect, w')
    | Another e => (Raise e, w')
    end.

(** [SSHConnection.close], lines 347-376.  The [except] clause takes
    the exceptions of [pexpect] and [OSError]; any other exception of
    the wait leaves [close], and the child as it is. *)
Definition close (wait_s : nat) : M (@world PX) bool :=
  s ← get_self;
  (if is_open s then
     try_except
       (sendline "exit";;
        wait [EOF; TIMEOUT] wait_s;;
        close_unless_closed)
       pexpect_or_os_error
       (fun _ => close_if_open;; set_closed)
   else mret tt);;
  mret true.

End Child.

(** *** File copies *)

(** What [pexpect.run(..., withexitstatus=True)] gives: the output and
    the exit status ([None] when the process has none), or an
    exception, of which [pexpect.exceptions.TIMEOUT] is told apart. *)
Inductive run_outcome : Type :=
| Exited (output : string) (exit_status : option Z)
| TimedOut
| Errored.

(** One call of [pexpect.run]: the command, the [events] and the
    timeout. *)
Record run_call : Type := mkRun {
  run_command : string;
  run_events : list (string * string);
  run_timeout : nat
}.

Definition newline : string := String (Ascii.ascii_of_nat 10) EmptyString.

(** The [events] of lines 311-314. *)
Definition scp_events (s : SSHConnection) : list (string * string) :=
  if given (password s) then
    [("Enter passphrase for key.*:", default "" (password s) +:+ newline);
     ("[Pp]assword:", default "" (password s) +:+ newline)]
  else [].

Definition scp_to_command (s : SSHConnection) (local_path remote_path : string)
  : string :=
  "scp -i " +:+ cert_path s +:+ " -o StrictHostKeyChecking=no "
  +:+ "-o UserKnownHostsFile=/dev/null " +:+ local_path +:+ " "
  +:+ username s +:+ "@" +:+ ip_address s +:+ ":" +:+ remote_path.

Definition scp_from_command (s : SSHConnection) (remote_path local_path : string)
  : string :=
  "scp -i " +:+ cert_path s +:+ " -o StrictHostKeyChecking=no "
  +:+ "-o UserKnownHostsFile=/dev/null "
  +:+ username s +:+ "@" +:+ ip_address s +:+ ":" +:+ remote_path
  +:+ " " +:+ local_path.

Section Transfer.

(** The machine the copies are run from: it answers [pexpect.run], and
    the calls made are recorded in order. *)
Context {PX : Type}.
Variable px_run : string -> list (string * string) -> nat -> PX -> run_outcome * PX.

Record station : Type := mkStation {
  machine : PX;
  ran : list run_call
}.

(** [SSHConnection._run_scp], lines 297-345. *)
Definition _run_scp (s : SSHConnection) (scp_command : string) : M station bool :=
  fun st =>
    let events := scp_events s in
    let '(o, m') := px_run scp_command events 180 (machine st) in
    let st' := mkStation m' (ran st ++ [mkRun scp_command events 180]) in
    match o with
    | Exited output exit_status =>
        if decide (exit_status = Some 0%Z) then (Ok true, st')
        else (Ok false, st')
    | TimedOut => (Ok false, st')
    | Errored => (Ok false, st')
    end.

(** [SSHConnection.copy_to], lines 252-276. *)
Definition copy_to (path_exists : string -> bool) (s : SSHConnection)
    (local_path remote_path : string) : M station bool :=
  if negb (path_exists local_path) then
    raise (FileNotFoundError ("Local file '" +:+ local_path +:+ "' not found."))
  else _run_scp s (scp_to_command s local_path remote_path).

(** [SSHConnection.copy_from], lines 278-295. *)
Definition copy_from (s : SSHConnection) (remote_path local_path : string)
  : M station bool :=
  _run_scp s (scp_from_command s remote_path local_path).

End Transfer.

(** *** Observations on traces *)

(** The lines sent to the child, in order. *)
Definition sent (tr : list event) : list string :=
  omap (fun e => match e with SentLine l => Some l | _ => None end) tr.

(** The waits made, in order. *)
Definition waits (tr : list event) : list (list pattern * nat) :=
  omap (fun e => match e with Expected ps n => Some (ps, n) | _ => None end) tr.

(** The seconds slept in all. *)
Definition paused (tr : list event) : nat := sum_list (pauses tr).

(** A terminal whose [expect] answers with an index of the list it is
    given, as [pexpect] does. *)
Definition answers_in_range {PX : Type}
    (px_expect : list pattern -> nat -> PX -> expect_outcome * PX) : Prop :=
  forall patterns timeout t i t',
    px_expect patterns timeout t = (Matched i, t') -> i < length patterns.

End Shell.

(** ** The node initialisation script ([init_node.py]) *)

Module InitNode.

Import SSH Shell.

(** Exit codes, lines 38-42. *)
Definition EXIT_SUCCESS : Z := 0.
Definition EXIT_SSH_ERROR : Z := 1.
Definition EXIT_CMD_ERROR : Z := 2.
Definition EXIT_ARG_ERROR : Z := 3.

Definition startup_script_path (profile_name : string) : string :=
  "/local/repository/" +:+ profile_name +:+ "/scripts/startup.sh".
Definition check_cmd (profile_name : string) : string :=
  "test -f " +:+ startup_script_path profile_name.
Definition startup_cmd (profile_name : string) : string :=
  "cd /local/repository/" +:+ profile_name
  +:+ " && nohup ./scripts/startup.sh > /local/logs/startup.log 2>&1 &".

Section Script.

(** The terminal also gives the exit status of the child
    ([ssh_conn.ssh.exitstatus]), [None] when it has none.  The waits
    of [open] and [command] are inside the [try] block, whose
    [except Exception] clause turns whatever they raise into
    [EXIT_SSH_ERROR]; the wait of [close] is outside it. *)
Context {PX : Type}.
Variable px_spawn : string -> PX -> bool * PX.
Variable px_expect : list pattern -> nat -> PX -> expect_outcome * PX.
Variable px_before : PX -> string.
Variable px_wait : list pattern -> nat -> PX -> wait_outcome * PX.
Variable px_exitstatus : PX -> option Z.

(** The [finally] clause of both functions: [if ssh_conn:
    ssh_conn.close()], after which the value computed is returned, or
    the exception of [close] goes on to the caller in its place. *)
Definition finally_close (code : Z) (w : @world PX) : result Z * @world PX :=
  match close px_wait 1 w with
  | (Ok _, w') => (Ok code, w')
  | (Raise e, w') => (Raise e, w')
  end.

(** The body of the [try] block of [check_hostname], lines 51-65, from
    [ssh_conn.open()] on: the exit code it returns, [EXIT_SSH_ERROR]
    from either [except] clause. *)
Definition check_hostname_body (w : @world PX) : Z * @world PX :=
  match open px_spawn px_expect w with
  | (Raise _, w1) => (EXIT_SSH_ERROR, w1)
  | (Ok _, w1) =>
      match command px_expect px_before "hostname -f" None 30 w1 with
      | (Throws _, w2) => (EXIT_SSH_ERROR, w2)
      | (Returns None, w2) =>
          (EXIT_SSH_ERROR, w2) (* [None.strip()]: AttributeError *)
      | (Returns (Some hostname_output), w2) =>
          (* [hostname_output.strip().splitlines()[-1]]: the list of
             lines is empty exactly when the text is *)
          if PyStr.is_empty (PyStr.strip hostname_output)
          then (EXIT_SSH_ERROR, w2) (* IndexError *)
          else (EXIT_SUCCESS, w2)
      end
  end.

(** [check_hostname], lines 44-77.  When the constructor raises,
    [ssh_conn] is still [None] and nothing is closed: there is no
    session, and the terminal is the one given. *)
Definition check_hostname (environ : gmap string string)
    (path_exists : string -> bool) (ip_address : string)
    (username : option string) (t : PX) : result Z * option (@world PX) :=
  match __init__ environ path_exists ip_address username DEFAULT_PROMPT with
  | Raise _ => (Ok EXIT_SSH_ERROR, None)
  | Ok s =>
      let '(code, w) := check_hostname_body (mkWorld s t []) in
      let '(r, w') := finally_close code w in
      (r, Some w')
  end.

(** The body of the [try] block of [initialize_node], lines 89-125,
    from [ssh_conn.open()] on. *)
Definition initialize_node_body (profile_name : string) (w : @world PX)
  : Z * @world PX :=
  match open px_spawn px_expect w with
  | (Raise _, w1) => (EXIT_SSH_ERROR, w1)
  | (Ok _, w1) =>
      match command px_expect px_before (check_cmd profile_name) None 30 w1 with
      | (Throws _, w2) => (EXIT_SSH_ERROR, w2)
      | (Returns _, w2) =>
          if decide (px_exitstatus (terminal w2) <> Some 0%Z)
          then (EXIT_CMD_ERROR, w2)
          else
            match command px_expect px_before (startup_cmd profile_name)
                          None 60 w2 with
            | (Throws _, w3) => (EXIT_SSH_ERROR, w3)
            | (Returns _, w3) =>
                if decide (px_exitstatus (terminal w3) <> Some 0%Z)
                then (EXIT_CMD_ERROR, w3)
                else (EXIT_SUCCESS, w3)
            end
      end
  end.

(** [initialize_node], lines 79-136. *)
Definition initialize_node (environ : gmap string string)
    (path_exists : string -> bool) (ip_address profile_name : string)
    (username : option string) (t : PX) : result Z * option (@world PX) :=
  match __init__ environ path_exists ip_address username DEFAULT_PROMPT with
  | Raise _ => (Ok EXIT_SSH_ERROR, None)
  | Ok s =>
      let '(code, w) := initialize_node_body profile_name (mkWorld s t []) in
      let '(r, w') := finally_close code w in
      (r, Some w')
  end.

End Script.

End InitNode.

(** ** Further observations on the controller *)

Module Registry.

(** An entry of the registry that a caller can use: it is filed under
    the client identifier of its node, which is not empty, and its node
    has an address and a hostname. *)
Definition usable (k : string) (n : Node) : Prop :=
  client_id n = k
  /\ PyStr.is_empty k = false
  /\ truthy (ip_address n) = true
  /\ truthy (hostname n) = true.

Definition well_formed (m : gmap string Node) : Prop := map_Forall usable m.

End Registry.

Module Requests.

Import Experiment.

(** The requests added between two traces: for each kind, none is
    taken away and at most [budget] of them are added. *)
Definition within (budget : rpc_method -> nat) (tr tr' : list event) : Prop :=
  forall m, calls m tr <= calls m tr' /\ calls m tr' <= calls m tr + budget m.

(** At most [statuses] status requests and [manifests] manifest
    requests, and no other. *)
Definition queries (statuses manifests : nat) (m : rpc_method) : nat :=
  match m with
  | GetExperimentStatus => statuses
  | GetExperimentManifests => manifests
  | _ => 0
  end.

(** The requests [start_and_wait] may make: one start request, one
    terminate request, a status request for the first check, one after
    the start and one per poll, and a manifest request for each of them
    and one for the final evaluation. *)
Definition start_and_wait_budget (m : rpc_method) : nat :=
  match m with
  | StartExperiment => 1
  | TerminateExperiment => 1
  | GetExperimentStatus => 2 + _poll_count_max
  | GetExperimentManifests => 3 + _poll_count_max
  end.

End Requests.

(** ** Scripted terminals for the session and for [init_node.py] *)

Module ScriptedShell.

Import SSH Shell.

(** A terminal whose [expect] answers from a list of indexes, the way
    [pexpect] does: an index outside the list of patterns, or a script
    that is used up, raises.  The text before a match and the exit
    status of the child are fixed; every process starts. *)
Record console : Type := mkConsole {
  answers : list nat;
  screen : string;
  exit_code : option Z
}.

Definition px_spawn (_ : string) (c : console) : bool * console := (true, c).
Definition px_expect (patterns : list pattern) (_ : nat) (c : console)
  : expect_outcome * console :=
  match answers c with
  | [] => (Failed, c)
  | i :: rest =>
      (if decide (i < length patterns) then Matched i else Failed,
       mkConsole rest (screen c) (exit_code c))
  end.
Definition px_before (c : console) : string := screen c.
Definition px_exitstatus (c : console) : option Z := exit_code c.
(** The wait of [close] on a terminal whose output decodes, and on one
    whose output does not. *)
Definition px_wait (patterns : list pattern) (timeout : nat) (c : console)
  : wait_outcome * console :=
  let '(o, c') := px_expect patterns timeout c in (Pexpect o, c').
Definition px_wait_garbled (_ : list pattern) (_ : nat) (c : console)
  : wait_outcome * console :=
  (Another (ValueError "'utf-8' codec can't decode byte 0xff"), c).

(** An environment with a key and a user, and a file system where the
    key exists. *)
Definition environ : gmap string string :=
  {[ "CERT" := "/keys/id_rsa"; "USER" := "alice" ]}.
Definition path_exists (_ : string) : bool := true.

(** A node that shows the prompt at login and after each command, while
    the child, still running, has no exit status. *)
Definition running : console := mkConsole [0; 0; 0] " " None.
(** A node that never answers. *)
Definition silent : console := mkConsole [] "" None.

(** The session [__init__] builds in this environment, in front of a
    terminal, and the two functions of the script on it. *)
Definition session : SSHConnection :=
  mkSSH DEFAULT_PROMPT "10.0.0.1" "alice" None "/keys/id_rsa" None.
(** The same session with a passphrase configured. *)
Definition keyed : SSHConnection :=
  mkSSH DEFAULT_PROMPT "10.0.0.1" "alice" (Some "secret") "/keys/id_rsa" None.
Definition at_console (c : console) : @world console := mkWorld session c [].
Definition open (c : console) : result unit * @world console :=
  SSH.open px_spawn px_expect (at_console c).
Definition check_hostname (c : console) : result Z * option (@world console) :=
  InitNode.check_hostname px_spawn px_expect px_before px_wait environ
                          path_exists "10.0.0.1" None c.
Definition initialize_node (profile_name : string) (c : console)
  : result Z * option (@world console) :=
  InitNode.initialize_node px_spawn px_expect px_before px_wait px_exitstatus
                           environ path_exists "10.0.0.1" profile_name None c.
(** The same on a terminal whose output does not decode when [close]
    waits. *)
Definition initialize_node_garbled (profile_name : string) (c : console)
  : result Z * option (@world console) :=
  InitNode.initialize_node px_spawn px_expect px_before px_wait_garbled
                           px_exitstatus environ path_exists "10.0.0.1"
                           profile_name None c.

End ScriptedShell.

(** * Verification *)

#[local] Open Scope list_scope.

Module PyStrFacts.
Import PyStr.

Lemma prefix_cons a p b s :
  String.prefix (String a p) (String b s) = true <-> a = b /\ String.prefix p s = true.
Proof.
  cbn [String.prefix]. destruct (Ascii.ascii_dec a b) as [->|Hne]; [tauto|].
  split; [done|]. by intros [? _].
Qed.

(** Two prefixes of one text: one is a prefix of the other. *)
Lemma prefix_comparable s : forall p q,
  String.prefix p s = true -> String.prefix q s = true ->
  String.prefix p q = true \/ String.prefix q p = true.
Proof.
  induction s as [|c s IH]; intros [|a p] [|b q] Hp Hq; cbn in Hp, Hq; try done;
    try (by left); try (by right).
  apply prefix_cons in Hp as [-> Hp]. apply prefix_cons in Hq as [-> Hq].
  destruct (IH p q Hp Hq) as [H|H]; [left|right]; by apply prefix_cons.
Qed.

Lemma startswith_exclusive s p q :
  String.prefix p q = false -> String.prefix q p = false ->
  startswith s p = true -> startswith s q = false.
Proof.
  unfold startswith. intros Hpq Hqp Hp.
  destruct (String.prefix q s) eqn:Hq; [|done].
  destruct (prefix_comparable s p q Hp Hq); congruence.
Qed.

Lemma append_cons c p t : String c p +:+ t = String c (p +:+ t).
Proof. reflexivity. Qed.

Lemma append_nil t : "" +:+ t = t.
Proof. reflexivity. Qed.

Lemma rstrip_solid p : ends_solid p = true ->
  forall t, exists u, rstrip (p +:+ t) = p +:+ u.
Proof.
  induction p as [|c p IH]; [done|]. intros Hp t.
  destruct p as [|c' p'].
  - cbn in Hp. apply negb_true_iff in Hp.
    rewrite !append_cons, !append_nil. cbn [rstrip]. rewrite Hp.
    by exists (rstrip t).
  - destruct (IH Hp t) as [u Hu].
    rewrite (append_cons c). cbn [rstrip]. rewrite Hu.
    rewrite (append_cons c'). cbn [is_empty].
    rewrite andb_false_r. exists u. by rewrite !append_cons.
Qed.

Lemma prefix_append p s :
  String.prefix p s = true <-> exists t, s = p +:+ t.
Proof.
  revert s. induction p as [|a p IH]; intros s.
  - split; [intros _; by exists s|intros _; by destruct s].
  - destruct s as [|b s].
    + split; [done|]. intros [t Ht]. by rewrite append_cons in Ht.
    + rewrite prefix_cons, IH. split.
      * intros [-> [t ->]]. by exists t.
      * intros [t Ht]. rewrite append_cons in Ht. simplify_eq. eauto.
Qed.

(** Trimming keeps a prefix that neither starts nor ends with a space. *)
Lemma startswith_strip s p :
  starts_solid p = true -> ends_solid p = true ->
  startswith s p = true -> startswith (strip s) p = true.
Proof.
  unfold startswith, strip. intros Hs He Hp.
  apply prefix_append in Hp as [t ->].
  destruct p as [|c p]; [done|]. cbn in Hs. apply negb_true_iff in Hs.
  rewrite append_cons. cbn [lstrip]. rewrite Hs.
  destruct (rstrip_solid (String c p) He t) as [u Hu].
  rewrite <- append_cons, Hu. apply prefix_append. eauto.
Qed.
End PyStrFacts.

Module ManifestFacts.
Import Manifest.


Lemma find_ipv4_host hs h :
  List.find is_ipv4_host hs = Some h ->
  exists d, h = PDict d /\ truthy (py_get "@ipv4" d) = true.
Proof.
  intros Hf. apply find_some in Hf as [_ Hh].
  destruct h; try done. eauto.
Qed.

(** One entry: stored when valid, skipped otherwise. *)
Lemma parse_node_entry_valid entry nodes :
  text_client_id entry ->
  parse_node_entry entry nodes
  = Ok (match valid_node entry with
        | Some kv => store nodes kv
        | None => nodes
        end).
Proof.
  destruct entry as [| | |e]; try done.
  unfold text_client_id, parse_node_entry, valid_node, host_descriptor.
  intros Htext.
  destruct (py_get "@client_id" e) as [|cid| |] eqn:Hcid; try done.
  destruct (truthy (PStr cid)) eqn:Hc; cbn [negb andb];
    [|by repeat case_match].
  destruct (py_get "host" e) as [|s|hs|h] eqn:Hhost; cbn [truthy negb]; try done.
  - destruct (List.find is_ipv4_host hs) as [h|] eqn:Hfind; [|done].
    destruct (find_ipv4_host _ _ Hfind) as (d & -> & Hip).
    assert (Hsize : (size d =? 0)%nat = false).
    { apply Nat.eqb_neq. intros Hsize%map_size_empty_iff. subst d.
      unfold py_get in Hip. by rewrite lookup_empty in Hip. }
    simpl. rewrite Hsize, Hip. simpl.
    by destruct (truthy (py_get "@name" d)).
  - simpl. destruct (size h =? 0)%nat eqn:Hsize; simpl.
    { apply Nat.eqb_eq, map_size_empty_iff in Hsize. subst h.
      unfold py_get. by rewrite !lookup_empty. }
    by destruct (truthy (py_get "@name" h)), (truthy (py_get "@ipv4" h)).
Qed.

Lemma parse_node_entries_valid entries : forall nodes,
  Forall text_client_id entries ->
  parse_node_entries entries nodes
  = (Ok tt, foldl store nodes (omap valid_node entries)).
Proof.
  induction entries as [|entry entries IH]; intros nodes Htext; [done|].
  apply Forall_cons in Htext as [Hentry Htext].
  cbn [parse_node_entries omap list_omap]. rewrite (parse_node_entry_valid _ _ Hentry).
  rewrite (IH _ Htext). by destruct (valid_node entry).
Qed.

Lemma parse_manifest_valid manifest nodes :
  Forall text_client_id (node_entries manifest) ->
  parse_manifest nodes manifest
  = foldl store nodes (omap valid_node (node_entries manifest)).
Proof.
  unfold parse_manifest, parse_manifest_body, node_entries.
  destruct manifest as [| | |m]; try done.
  destruct (py_get "rspec" m) as [|s|l|r] eqn:Hrspec; cbn [truthy];
    try (by repeat case_match).
  destruct (size r =? 0)%nat eqn:Hsize; cbn [negb].
  { apply Nat.eqb_eq, map_size_empty_iff in Hsize. subst r.
    unfold py_get at 2. by rewrite lookup_empty. }
  destruct (py_get "node" r) as [|s|l|d] eqn:Hnode; cbn [truthy negb]; try done.
  - intros _. destruct (PyStr.is_empty s); done.
  - intros Htext. destruct l as [|x l]; [done|]. cbn [length Nat.eqb negb].
    by rewrite (parse_node_entries_valid _ _ Htext).
  - intros Htext. destruct (size d =? 0)%nat; cbn [negb]; [done|].
    cbn [negb] in Htext. by rewrite (parse_node_entries_valid _ _ Htext).
Qed.

Lemma parse_all_valid manifests : forall nodes,
  Forall text_client_id (concat (map node_entries manifests)) ->
  parse_all manifests nodes = foldl store nodes (valid_nodes manifests).
Proof.
  unfold parse_all, valid_nodes.
  induction manifests as [|m ms IH]; intros nodes Htext; [done|].
  cbn [map concat foldl] in *. apply Forall_app in Htext as [Hm Hms].
  rewrite (parse_manifest_valid _ _ Hm), (IH _ Hms).
  by rewrite omap_app, foldl_app.
Qed.

Lemma store_lookup entries : forall (m : gmap string Node) k,
  is_Some (foldl store m entries !! k)
  <-> is_Some (m !! k) \/ exists n, (k, n) ∈ entries.
Proof.
  induction entries as [|[k' n'] entries IH]; intros m k; cbn [foldl].
  - split; [by left|]. intros [?|[n Hn]]; [done|]. by apply elem_of_nil in Hn.
  - rewrite IH. unfold store at 1. cbn [fst snd]. rewrite lookup_insert_is_Some'.
    split.
    + intros [[->|?]|[n Hn]]; [right; exists n'; left|by left|right; exists n; by right].
    + intros [?|[n Hn]]; [left; by right|].
      apply elem_of_cons in Hn as [Heq|Hn]; [simplify_eq; left; by left|].
      right. by exists n.
Qed.
End ManifestFacts.

Module ExperimentFacts.
Import Experiment.

Ltac unfold_m :=
  unfold mbind, M_bind, bind, mret, M_ret, ret, raise, try_except,
         call, get_self, modify_self, sleep, any_exception in *.

Lemma with_status_same e : with_status (status e) e = e.
Proof. by destruct e. Qed.

Lemma with_status_id e v : status e = v -> with_status v e = e.
Proof. intros <-. apply with_status_same. Qed.

Lemma parse_manifests_status e : status (parse_manifests e) = status e.
Proof. unfold parse_manifests. by repeat case_match. Qed.

Lemma no_nodes_true e : no_nodes e = true <-> nodes e = ∅.
Proof.
  unfold no_nodes. rewrite Nat.eqb_eq. apply map_size_empty_iff.
Qed.

Lemma no_nodes_false e : no_nodes e = false <-> nodes e <> ∅.
Proof.
  rewrite <- no_nodes_true. destruct (no_nodes e); naive_solver.
Qed.

Lemma polls_app tr1 tr2 : polls (tr1 ++ tr2) = polls tr1 + polls tr2.
Proof. unfold polls. by rewrite List.filter_app, length_app. Qed.

Lemma slept_app tr1 tr2 : slept (tr1 ++ tr2) = slept tr1 + slept tr2.
Proof. unfold slept. by rewrite sum_list_with_app. Qed.

Lemma calls_app m tr1 tr2 : calls m (tr1 ++ tr2) = calls m tr1 + calls m tr2.
Proof. unfold calls. by rewrite List.filter_app, length_app. Qed.

Lemma last_status_snoc tr e :
  last_status (tr ++ [e]) =
    match e with
    | Called GetExperimentStatus rval response => Some (rval, response)
    | _ => last_status tr
    end.
Proof. unfold last_status. by rewrite foldl_app. Qed.

Lemma settled_ready : settled EXPERIMENT_READY.
Proof. unfold settled. rewrite !elem_of_cons. tauto. Qed.
Lemma settled_failed : settled EXPERIMENT_FAILED.
Proof. unfold settled. rewrite !elem_of_cons. tauto. Qed.
Lemma settled_null : settled EXPERIMENT_NULL.
Proof. unfold settled. rewrite !elem_of_cons. tauto. Qed.

Lemma line_status_not_ready output :
  PyStr.startswith output "Status: ready" = false ->
  line_status output ∈ [EXPERIMENT_PROVISIONING; EXPERIMENT_PROVISIONED;
                        EXPERIMENT_FAILED; EXPERIMENT_UNKNOWN].
Proof.
  intros H. unfold line_status. rewrite H. rewrite !elem_of_cons.
  repeat case_match; tauto.
Qed.


Section Facts.
Context {CP : Type}.
Variable start_experiment : string -> string -> string -> CP -> rcode * payload * CP.
Variable terminate_experiment : string -> string -> CP -> rcode * payload * CP.
Variable get_experiment_manifests : string -> string -> CP -> rcode * payload * CP.
Variable get_experiment_status : string -> string -> CP -> rcode * payload * CP.
Variable decode_manifests : string -> option (list pyval).

Abbreviation load_manifests :=
  (load_manifests get_experiment_manifests decode_manifests).
Abbreviation _get_status :=
  (_get_status get_experiment_manifests get_experiment_status decode_manifests).

Lemma load_manifests_run (w : @world CP) :
  let '(rval, response, p') :=
    get_experiment_manifests (project_name (self w)) (experiment_name (self w)) (plane w) in
  let tr' := trace w ++ [Called GetExperimentManifests rval response] in
  load_manifests w =
    if decide (rval = RESPONSE_SUCCESS) then
      (Ok tt, mkWorld (parse_manifests
                         (with_manifests (cached_manifests decode_manifests response)
                                         (self w))) p' tr')
    else
      match response with
      | None => (Raise AttributeError, mkWorld (self w) p' tr')
      | Some _ => (Ok tt, mkWorld (with_manifests None (self w)) p' tr')
      end.
Proof.
  unfold Experiment.load_manifests, _get_manifests, _parse_manifests. unfold_m. simpl.
  destruct (get_experiment_manifests _ _ _) as [[rval response] p'].
  destruct (decide _); simpl; [done|].
  destruct response; done.
Qed.

Lemma load_manifests_status (w : @world CP) :
  status (self (load_manifests w).2) = status (self w).
Proof.
  pose proof (load_manifests_run w) as H.
  destruct (get_experiment_manifests _ _ _) as [[rval response] p'].
  rewrite H. clear H.
  destruct (decide _); [|by destruct response].
  cbn [snd self]. by rewrite parse_manifests_status.
Qed.

Lemma mret_run {A} (a : A) (w : @world CP) :
  (mret a : M world A) w = (Ok a, w).
Proof. reflexivity. Qed.

(** Lines 376-381: the assignment is skipped when nothing changes. *)
Lemma update_if_changed (prev new : Status) (w : @world CP) :
  status (self w) = prev ->
  (if decide (prev <> new) then modify_self (with_status new) else mret tt) w
  = (Ok tt, mkWorld (with_status new (self w)) (plane w) (trace w)).
Proof.
  intros Hprev. destruct (decide (prev <> new)) as [Hne|Heq]; [done|].
  apply dec_stable in Heq. subst.
  rewrite with_status_same. by destruct w.
Qed.

(** [_get_status] in one equation. *)
Lemma get_status_run (w : @world CP) :
  let e := self w in
  let '(rval, response, p1) :=
    get_experiment_status (project_name e) (experiment_name e) (plane w) in
  let tr1 := trace w ++ [Called GetExperimentStatus rval response] in
  let w1 := mkWorld e p1 tr1 in
  _get_status w =
    if no_such_experiment rval response then
      (Ok tt, mkWorld (if decide (status e = EXPERIMENT_NULL) then e else cleared e) p1 tr1)
    else if decide (rval = RESPONSE_SUCCESS) then
      match response with
      | None => (Raise AttributeError, w1)
      | Some d =>
          let output := PyStr.strip (get_output d "") in
          if PyStr.startswith output "Status: ready"
             && (bool_decide (status e <> EXPERIMENT_READY) || no_nodes e)
          then
            let '(r2, w2) := load_manifests w1 in
            (Ok tt,
             mkWorld (with_status
                        (match r2 with
                         | Ok _ => if no_nodes (self w2) then EXPERIMENT_FAILED
                                   else EXPERIMENT_READY
                         | Raise _ => EXPERIMENT_FAILED
                         end) (self w2))
                     (plane w2) (trace w2))
          else (Ok tt, mkWorld (with_status (line_status output) e) p1 tr1)
      end
    else (Ok tt, mkWorld (with_status EXPERIMENT_UNKNOWN e) p1 tr1).
Proof.
  unfold Experiment._get_status.
  unfold mbind, M_bind, bind, call, get_self. cbn [self plane trace].
  destruct (get_experiment_status _ _ _) as [[rval response] p1].
  cbn [self plane trace].
  destruct (no_such_experiment rval response).
  { destruct (decide (status (self w) <> _)), (decide (status (self w) = _));
      done. }
  destruct (decide (rval <> _)), (decide (rval = _)); try done.
  { by rewrite update_if_changed. }
  destruct response as [d|]; [|done].
  set (output := PyStr.strip (get_output d "")).
  unfold line_status.
  destruct (PyStr.startswith output "Status: ready").
  - destruct (bool_decide (status (self w) <> EXPERIMENT_READY) || no_nodes (self w)) eqn:Hneed;
      cbn [andb].
    + unfold try_except, bind, mret, M_ret, ret, get_self.
      match goal with
      | |- context [Experiment.load_manifests _ _ ?w1] =>
          pose proof (load_manifests_status w1) as Hst;
          destruct (load_manifests w1) as [r2 w2]
      end.
      cbn [self snd] in Hst.
      destruct r2 as [[]|x]; cbn [any_exception];
        by rewrite update_if_changed.
    + apply orb_false_iff in Hneed as [Hr _].
      apply bool_decide_eq_false in Hr. apply dec_stable in Hr.
      rewrite mret_run. rewrite update_if_changed by done.
      cbn [self plane trace]. by rewrite (with_status_id _ _ Hr).
  - cbn [andb].
    destruct (PyStr.startswith output "Status: provisioning");
      [|destruct (PyStr.startswith output "Status: provisioned");
        [|destruct (PyStr.startswith output "Status: failed");
          [|destruct (_ || _ || _)]]];
      rewrite mret_run; by rewrite update_if_changed.
Qed.

Abbreviation terminate := (terminate terminate_experiment).
Abbreviation reload_missing_nodes :=
  (reload_missing_nodes get_experiment_manifests decode_manifests).
Abbreviation polling_loop :=
  (polling_loop get_experiment_manifests get_experiment_status decode_manifests).
Abbreviation final_status_evaluation :=
  (final_status_evaluation get_experiment_manifests decode_manifests).
Abbreviation wait_for_ready :=
  (wait_for_ready get_experiment_manifests get_experiment_status decode_manifests).
Abbreviation check_status :=
  (check_status get_experiment_manifests get_experiment_status decode_manifests).
Abbreviation start_then_wait :=
  (start_then_wait start_experiment get_experiment_manifests
                   get_experiment_status decode_manifests).
Abbreviation start_and_wait :=
  (start_and_wait start_experiment terminate_experiment get_experiment_manifests
                  get_experiment_status decode_manifests).

(** *** What the operations add to the trace *)

Lemma load_manifests_trace (w : @world CP) :
  exists rval response,
    trace (load_manifests w).2
    = trace w ++ [Called GetExperimentManifests rval response].
Proof.
  pose proof (load_manifests_run w) as H.
  destruct (get_experiment_manifests _ _ _) as [[rval response] p'].
  exists rval, response. rewrite H.
  destruct (decide _); [done|]. by destruct response.
Qed.

Lemma get_status_trace (w : @world CP) :
  let '(rval, response, _) :=
    get_experiment_status (project_name (self w)) (experiment_name (self w))
                          (plane w) in
  exists extra,
    trace (_get_status w).2
    = trace w ++ Called GetExperimentStatus rval response :: extra
    /\ (extra = [] \/ exists rv rs, extra = [Called GetExperimentManifests rv rs]).
Proof.
  pose proof (get_status_run w) as H. cbv zeta in H.
  destruct (get_experiment_status _ _ _) as [[rval response] p1].
  rewrite H. clear H.
  destruct (no_such_experiment _ _); [exists []; eauto|].
  destruct (decide _); [|exists []; eauto].
  destruct response as [d|]; [|exists []; eauto].
  cbv zeta. destruct (_ && _); [|exists []; eauto].
  match goal with
  | |- context [Experiment.load_manifests _ _ ?w1] =>
      destruct (load_manifests_trace w1) as (rv & rs & Ht);
      destruct (load_manifests w1) as [r2 w2]
  end.
  cbn [snd trace] in *. exists [Called GetExperimentManifests rv rs].
  rewrite Ht, <- app_assoc. eauto.
Qed.

Lemma quiet_refl tr : quiet tr tr.
Proof. done. Qed.

Lemma quiet_trans tr1 tr2 tr3 : quiet tr1 tr2 -> quiet tr2 tr3 -> quiet tr1 tr3.
Proof. unfold quiet. intros [] []. split; congruence. Qed.

Lemma quiet_call tr m rval response : quiet tr (tr ++ [Called m rval response]).
Proof. unfold quiet. rewrite polls_app, slept_app. cbn. lia. Qed.

Lemma load_manifests_quiet (w : @world CP) :
  quiet (trace w) (trace (load_manifests w).2).
Proof.
  destruct (load_manifests_trace w) as (rv & rs & ->). apply quiet_call.
Qed.

Lemma get_status_quiet (w : @world CP) :
  quiet (trace w) (trace (_get_status w).2).
Proof.
  pose proof (get_status_trace w) as H.
  destruct (get_experiment_status _ _ _) as [[rval response] p1].
  destruct H as (extra & -> & Hx).
  unfold quiet. rewrite polls_app, slept_app.
  destruct Hx as [->|(? & ? & ->)]; cbn; lia.
Qed.

Lemma get_status_last (w : @world CP) :
  let '(rval, response, _) :=
    get_experiment_status (project_name (self w)) (experiment_name (self w))
                          (plane w) in
  last_status (trace (_get_status w).2) = Some (rval, response).
Proof.
  pose proof (get_status_trace w) as H.
  destruct (get_experiment_status _ _ _) as [[rval response] p1].
  destruct H as (extra & -> & Hx).
  destruct Hx as [->|(rv & rs & ->)].
  - by rewrite last_status_snoc.
  - change (trace w ++ [Called GetExperimentStatus rval response;
                        Called GetExperimentManifests rv rs])
      with (trace w ++ [Called GetExperimentStatus rval response]
                    ++ [Called GetExperimentManifests rv rs]).
    rewrite app_assoc, !last_status_snoc. done.
Qed.

Lemma bind_run {A B} (m : M (@world CP) A) (k : A -> M world B) w :
  (m ≫= k) w = match m w with
               | (Ok a, w') => k a w'
               | (Raise e, w') => (Raise e, w')
               end.
Proof. reflexivity. Qed.

(** [reload_missing_nodes] in one equation. *)
Lemma reload_run (w : @world CP) :
  reload_missing_nodes w =
    if no_nodes (self w) then
      let '(r2, w2) := load_manifests w in
      (Ok tt,
       mkWorld (match r2 with
                | Ok _ => if no_nodes (self w2)
                          then with_status EXPERIMENT_FAILED (self w2)
                          else self w2
                | Raise _ => with_status EXPERIMENT_FAILED (self w2)
                end) (plane w2) (trace w2))
    else (Ok tt, w).
Proof.
  unfold Experiment.reload_missing_nodes.
  unfold mbind, M_bind, bind, get_self, try_except. cbn [self].
  destruct (no_nodes (self w)); [|done].
  destruct (load_manifests w) as [[[]|x] w2]; cbn [self any_exception].
  - destruct (no_nodes (self w2)); [done|]. by destruct w2.
  - done.
Qed.

(** [final_status_evaluation] in one equation. *)
Lemma final_run (w : @world CP) :
  final_status_evaluation w =
    if decide (status (self w) = EXPERIMENT_READY) then reload_missing_nodes w
    else if decide (status (self w) = EXPERIMENT_FAILED
                    \/ status (self w) = EXPERIMENT_NULL) then (Ok tt, w)
    else (Ok tt, mkWorld (with_status EXPERIMENT_FAILED (self w)) (plane w) (trace w)).
Proof.
  unfold Experiment.final_status_evaluation.
  unfold mbind, M_bind, bind, get_self. cbn [self].
  destruct (decide (status (self w) = EXPERIMENT_READY)); [done|].
  destruct (status (self w)); done.
Qed.

Lemma terminate_run (w : @world CP) :
  let e := self w in
  let '(rval, response, p') :=
    terminate_experiment (project_name e) (experiment_name e) (plane w) in
  let tr' := trace w ++ [Called TerminateExperiment rval response] in
  terminate w =
    if decide (rval = RESPONSE_SUCCESS)
    then (Ok EXPERIMENT_NULL, mkWorld (cleared e) p' tr')
    else (Ok (status e), mkWorld e p' tr').
Proof.
  unfold Experiment.terminate.
  unfold mbind, M_bind, bind, call, get_self, modify_self, mret, M_ret, ret.
  cbn [self plane trace].
  destruct (terminate_experiment _ _ _) as [[rval response] p'].
  by destruct (decide _).
Qed.

Lemma reload_quiet (w : @world CP) :
  quiet (trace w) (trace (reload_missing_nodes w).2).
Proof.
  rewrite reload_run. destruct (no_nodes _); [|apply quiet_refl].
  pose proof (load_manifests_quiet w) as H.
  by destruct (load_manifests w) as [r2 w2].
Qed.

Lemma final_quiet (w : @world CP) :
  quiet (trace w) (trace (final_status_evaluation w).2).
Proof.
  rewrite final_run. repeat case_decide; try apply quiet_refl. apply reload_quiet.
Qed.

Lemma terminate_quiet (w : @world CP) :
  quiet (trace w) (trace (terminate w).2).
Proof.
  pose proof (terminate_run w) as H. cbv zeta in H.
  destruct (terminate_experiment _ _ _) as [[rval response] p'].
  rewrite H. case_decide; apply quiet_call.
Qed.

Lemma reload_ok (w : @world CP) : (reload_missing_nodes w).1 = Ok tt.
Proof.
  rewrite reload_run. destruct (no_nodes _); [|done].
  by destruct (load_manifests w).
Qed.

Lemma final_ok (w : @world CP) : (final_status_evaluation w).1 = Ok tt.
Proof.
  rewrite final_run. repeat case_decide; try done. apply reload_ok.
Qed.

Lemma reload_status (w : @world CP) :
  status (self (reload_missing_nodes w).2) = status (self w)
  \/ status (self (reload_missing_nodes w).2) = EXPERIMENT_FAILED.
Proof.
  rewrite reload_run. destruct (no_nodes _); [|by left].
  pose proof (load_manifests_status w) as H.
  destruct (load_manifests w) as [[[]|x] w2]; cbn [snd self] in *.
  - destruct (no_nodes _); [by right|by left].
  - by right.
Qed.

(** One turn of the polling loop. *)
Lemma polling_loop_run n (w : @world CP) :
  polling_loop n w =
    if bool_decide (status (self w) ∈ polling_states) then
      match n with
      | O => (Ok tt, w)
      | S n' =>
          match _get_status (mkWorld (self w) (plane w)
                                     (trace w ++ [Slept POLL_INTERVAL_S])) with
          | (Ok _, w2) => polling_loop n' w2
          | (Raise e, w2) => (Raise e, w2)
          end
      end
    else (Ok tt, w).
Proof.
  destruct n; cbn [Experiment.polling_loop]; rewrite bind_run;
    unfold get_self at 1; cbn [self]; by case_bool_decide.
Qed.

(** The polling loop: at most [n] polls of [POLL_INTERVAL_S] seconds, and
    all of them when it ends in a polling state. *)
Lemma polling_loop_bound n : forall (w : @world CP),
  polls (trace (polling_loop n w).2) <= polls (trace w) + n
  /\ slept (trace (polling_loop n w).2) <= slept (trace w) + n * POLL_INTERVAL_S
  /\ ((polling_loop n w).1 = Ok tt ->
      status (self (polling_loop n w).2) ∈ polling_states ->
      polls (trace (polling_loop n w).2) = polls (trace w) + n).
Proof.
  induction n as [|n IH]; intros w; rewrite polling_loop_run.
  - case_bool_decide; cbn [fst snd]; repeat split; intros; lia.
  - case_bool_decide as Hin; [|cbn [fst snd]; repeat split; intros; try lia; done].
    match goal with
    | |- context [Experiment._get_status _ _ _ ?w1] =>
        pose proof (get_status_quiet w1) as [Hp Hs];
        destruct (_get_status w1) as [[[]|x] w2]
    end; cbn [snd trace] in Hp, Hs;
      rewrite polls_app in Hp; rewrite slept_app in Hs; cbn in Hp, Hs.
    + specialize (IH w2). destruct IH as (IH1 & IH2 & IH3).
      repeat split; [lia|unfold POLL_INTERVAL_S in *; lia|].
      intros Hr Hst. rewrite (IH3 Hr Hst). lia.
    + cbn [fst snd]. repeat split; [lia|unfold POLL_INTERVAL_S in *; lia|done].
Qed.

Lemma wait_for_ready_run (w : @world CP) :
  wait_for_ready w =
    match polling_loop _poll_count_max w with
    | (Ok _, w1) => (Ok (status (self (final_status_evaluation w1).2)),
                     (final_status_evaluation w1).2)
    | (Raise e, w1) => (Raise e, w1)
    end.
Proof.
  unfold Experiment.wait_for_ready. rewrite bind_run.
  destruct (polling_loop _ w) as [[[]|x] w1]; [|done].
  rewrite bind_run. pose proof (final_ok w1) as H.
  destruct (final_status_evaluation w1) as [r2 w2]. cbn [fst snd] in *. by subst.
Qed.

Lemma terminate_ok (w : @world CP) :
  (terminate w).1 = Ok (status (self (terminate w).2)).
Proof.
  pose proof (terminate_run w) as H. cbv zeta in H.
  destruct (terminate_experiment _ _ _) as [[rval response] p'].
  rewrite H. by case_decide.
Qed.

(** [start_then_wait] in one equation. *)
Lemma start_then_wait_run (w1 : @world CP) :
  start_then_wait w1 =
    if bool_decide (status (self w1)
                    ∉ [EXPERIMENT_PROVISIONING; EXPERIMENT_PROVISIONED])
    then
      let '(rval, response, p2) :=
        start_experiment (experiment_name (self w1)) (project_name (self w1))
                         (profile_name (self w1)) (plane w1) in
      let tr2 := trace w1 ++ [Called StartExperiment rval response] in
      if decide (rval = RESPONSE_SUCCESS) then
        match _get_status (mkWorld (self w1) p2 (tr2 ++ [Slept 5])) with
        | (Ok _, w4) =>
            if decide (status (self w4) = EXPERIMENT_FAILED)
            then (Ok EXPERIMENT_FAILED, w4)
            else wait_for_ready w4
        | (Raise e, w4) => (Raise e, w4)
        end
      else (Ok EXPERIMENT_FAILED,
            mkWorld (with_status EXPERIMENT_FAILED (self w1)) p2 tr2)
    else wait_for_ready w1.
Proof.
  unfold Experiment.start_then_wait.
  rewrite bind_run. unfold get_self at 1. cbn [self].
  case_bool_decide; [|done].
  rewrite bind_run. unfold call at 1. cbn [self plane trace].
  destruct (start_experiment _ _ _ _) as [[rval response] p2].
  destruct (decide (rval <> _)), (decide (rval = _)); try done.
  rewrite !bind_run. unfold sleep at 1. cbn [self plane trace].
  rewrite bind_run.
  destruct (_get_status _) as [[[]|x] w4]; [|done].
  rewrite bind_run. unfold get_self at 1. cbn [self].
  case_decide as Hst; [|done]. by rewrite mret_run, Hst.
Qed.

(** [start_and_wait] in one equation. *)
Lemma start_and_wait_run (w : @world CP) :
  start_and_wait w =
    match _get_status w with
    | (Raise e, w0) => (Raise e, w0)
    | (Ok _, w0) =>
        if decide (status (self w0) = EXPERIMENT_READY) then
          (Ok (status (self (reload_missing_nodes w0).2)),
           (reload_missing_nodes w0).2)
        else if decide (status (self w0) = EXPERIMENT_FAILED) then
          start_then_wait (terminate w0).2
        else start_then_wait w0
    end.
Proof.
  unfold Experiment.start_and_wait, Experiment.check_status.
  rewrite !bind_run.
  destruct (_get_status w) as [[[]|x] w0]; [|done].
  rewrite bind_run. unfold get_self at 1. rewrite mret_run.
  destruct (status (self w0)) eqn:Est; cbn [self]; repeat case_decide; try done.
  - rewrite bind_run. pose proof (reload_ok w0) as Hok.
    destruct (reload_missing_nodes w0) as [r1 w1]. cbn [fst snd] in *. subst.
    by rewrite bind_run.
  - rewrite !bind_run. pose proof (terminate_ok w0) as Hok.
    destruct (terminate w0) as [r1 w1]. cbn [fst snd] in *. by subst.
Qed.

(** *** The bounded wait *)

Lemma final_settled (w : @world CP) :
  settled (status (self (final_status_evaluation w).2)).
Proof.
  rewrite final_run.
  destruct (decide (status (self w) = EXPERIMENT_READY)) as [Hr|Hr].
  - destruct (reload_status w) as [-> | ->];
      [rewrite Hr; apply settled_ready|apply settled_failed].
  - destruct (decide _) as [[Hf|Hf]|Hf]; cbn [snd self status with_status];
      [rewrite Hf; apply settled_failed|rewrite Hf; apply settled_null
      |apply settled_failed].
Qed.

Lemma wait_for_ready_bound (w : @world CP) :
  polls (trace (wait_for_ready w).2) <= polls (trace w) + _poll_count_max
  /\ slept (trace (wait_for_ready w).2)
     <= slept (trace w) + _poll_count_max * POLL_INTERVAL_S
  /\ (forall st, (wait_for_ready w).1 = Ok st ->
       st = status (self (wait_for_ready w).2) /\ settled st).
Proof.
  rewrite wait_for_ready_run.
  destruct (polling_loop_bound _poll_count_max w) as (Hp & Hs & _).
  destruct (polling_loop _ w) as [[[]|x] w1]; cbn [fst snd] in *.
  - destruct (final_quiet w1) as [Hp' Hs'].
    split; [lia|]. split; [lia|]. intros st Hst. simplify_eq.
    split; [done|apply final_settled].
  - split; [lia|]. split; [lia|]. done.
Qed.

Lemma start_then_wait_bound (w : @world CP) :
  polls (trace (start_then_wait w).2) <= polls (trace w) + _poll_count_max
  /\ slept (trace (start_then_wait w).2)
     <= slept (trace w) + 5 + _poll_count_max * POLL_INTERVAL_S
  /\ (forall st, (start_then_wait w).1 = Ok st ->
       st = status (self (start_then_wait w).2) /\ settled st).
Proof.
  rewrite start_then_wait_run.
  case_bool_decide.
  2:{ destruct (wait_for_ready_bound w) as (? & ? & ?).
      split; [lia|]. split; [lia|]. done. }
  destruct (start_experiment _ _ _ _) as [[rval response] p2]. cbv zeta.
  case_decide.
  - match goal with
    | |- context [Experiment._get_status _ _ _ ?w3] =>
        pose proof (get_status_quiet w3) as [Hp Hs];
        destruct (_get_status w3) as [[[]|x] w4]
    end; cbn [snd trace] in Hp, Hs;
      rewrite !polls_app in Hp; rewrite !slept_app in Hs; cbn in Hp, Hs.
    + case_decide as Hf.
      * cbn [fst snd]. split; [lia|]. split; [lia|].
        intros st Hst. simplify_eq. split; [done|apply settled_failed].
      * destruct (wait_for_ready_bound w4) as (? & ? & ?).
        split; [lia|]. split; [lia|]. done.
    + cbn [fst snd]. split; [lia|]. split; [lia|]. done.
  - cbn [fst snd trace self status with_status].
    rewrite polls_app, slept_app. cbn.
    split; [lia|]. split; [lia|].
    intros st Hst. simplify_eq. split; [done|apply settled_failed].
Qed.

(** [start_and_wait]: the polls, the seconds slept and the result. *)
Lemma start_and_wait_main (w : @world CP) :
  polls (trace (start_and_wait w).2) <= polls (trace w) + _poll_count_max
  /\ slept (trace (start_and_wait w).2)
     <= slept (trace w) + 5 + _poll_count_max * POLL_INTERVAL_S
  /\ (forall st, (start_and_wait w).1 = Ok st ->
       st = status (self (start_and_wait w).2) /\ settled st).
Proof.
  rewrite start_and_wait_run.
  destruct (get_status_quiet w) as [Hp Hs].
  destruct (_get_status w) as [[[]|x] w0]; cbn [snd] in Hp, Hs.
  2:{ cbn [fst snd]. split; [lia|]. split; [lia|]. done. }
  case_decide as Hr.
  - destruct (reload_quiet w0) as [Hp' Hs']. cbn [fst snd].
    split; [lia|]. split; [lia|]. intros st Hst. simplify_eq. split; [done|].
    destruct (reload_status w0) as [-> | ->];
      [rewrite Hr; apply settled_ready|apply settled_failed].
  - case_decide as Hf.
    + destruct (terminate_quiet w0) as [Hp' Hs'].
      destruct (start_then_wait_bound (terminate w0).2) as (? & ? & ?).
      split; [lia|]. split; [lia|]. done.
    + destruct (start_then_wait_bound w0) as (? & ? & ?).
      split; [lia|]. split; [lia|]. done.
Qed.


(** *** The registry between two method calls *)

Lemma consistent_other e :
  status e <> EXPERIMENT_NOT_STARTED -> status e <> EXPERIMENT_NULL ->
  status e <> EXPERIMENT_READY -> consistent e.
Proof. intros H1 H2 H3. split; [intros [?|?]; done|done]. Qed.

Lemma consistent_cleared e : consistent (cleared e).
Proof. split; [done|]. cbn. done. Qed.

Lemma consistent_ready e :
  no_nodes e = false -> consistent (with_status EXPERIMENT_READY e).
Proof.
  intros Hn. split; [intros [?|?]; done|]. intros _. by apply no_nodes_false.
Qed.

Lemma get_status_consistent (w : @world CP) :
  consistent (self w) -> consistent (self (_get_status w).2).
Proof.
  intros Hc. pose proof (get_status_run w) as H. cbv zeta in H.
  destruct (get_experiment_status _ _ _) as [[rval response] p1].
  rewrite H. clear H.
  destruct (no_such_experiment _ _).
  { cbn [snd self]. case_decide; [done|apply consistent_cleared]. }
  destruct (decide _); [|by apply consistent_other].
  destruct response as [d|]; [|done]. cbv zeta.
  destruct (PyStr.startswith _ "Status: ready") eqn:Hready.
  - destruct (bool_decide _ || no_nodes _) eqn:Hneed; cbn [andb].
    + destruct (load_manifests _) as [[[]|x] w2]; cbn [snd self].
      * destruct (no_nodes (self w2)) eqn:Hn;
          [by apply consistent_other|by apply consistent_ready].
      * by apply consistent_other.
    + cbn [snd self]. apply orb_false_iff in Hneed as [_ Hn].
      unfold line_status. rewrite Hready. by apply consistent_ready.
  - cbn [andb snd self].
    pose proof (line_status_not_ready _ Hready) as Hl.
    rewrite !elem_of_cons in Hl.
    apply consistent_other; cbn [status with_status];
      destruct Hl as [->|[->|[->|[->|Hl]]]]; try done;
      by apply elem_of_nil in Hl.
Qed.

Lemma terminate_consistent (w : @world CP) :
  consistent (self w) -> consistent (self (terminate w).2).
Proof.
  intros Hc. pose proof (terminate_run w) as H. cbv zeta in H.
  destruct (terminate_experiment _ _ _) as [[rval response] p'].
  rewrite H. case_decide; [apply consistent_cleared|done].
Qed.

Lemma reload_consistent (w : @world CP) :
  status (self w) = EXPERIMENT_READY ->
  consistent (self (reload_missing_nodes w).2).
Proof.
  intros Hr. rewrite reload_run.
  destruct (no_nodes (self w)) eqn:Hn.
  - pose proof (load_manifests_status w) as Hst.
    destruct (load_manifests w) as [[[]|x] w2]; cbn [snd self] in *.
    + destruct (no_nodes (self w2)) eqn:Hn2; [by apply consistent_other|].
      rewrite <- (with_status_id (self w2) EXPERIMENT_READY) by congruence.
      by apply consistent_ready.
    + by apply consistent_other.
  - cbn [snd]. rewrite <- (with_status_id (self w) EXPERIMENT_READY) by done.
    by apply consistent_ready.
Qed.

Lemma polling_loop_consistent n : forall (w : @world CP),
  consistent (self w) -> consistent (self (polling_loop n w).2).
Proof.
  induction n as [|n IH]; intros w Hc; rewrite polling_loop_run;
    case_bool_decide; try done.
  match goal with
  | |- context [Experiment._get_status _ _ _ ?w1] =>
      pose proof (get_status_consistent w1 Hc) as Hc';
      destruct (_get_status w1) as [[[]|x] w2]
  end; cbn [snd] in *; [by apply IH|done].
Qed.

Lemma final_consistent (w : @world CP) :
  consistent (self w) -> consistent (self (final_status_evaluation w).2).
Proof.
  intros Hc. rewrite final_run.
  case_decide; [by apply reload_consistent|].
  case_decide; [done|]. by apply consistent_other.
Qed.

Lemma wait_for_ready_consistent (w : @world CP) :
  consistent (self w) -> consistent (self (wait_for_ready w).2).
Proof.
  intros Hc. rewrite wait_for_ready_run.
  pose proof (polling_loop_consistent _poll_count_max w Hc) as Hc'.
  destruct (polling_loop _ w) as [[[]|x] w1]; cbn [snd] in *; [|done].
  by apply final_consistent.
Qed.

Lemma start_then_wait_consistent (w : @world CP) :
  consistent (self w) -> consistent (self (start_then_wait w).2).
Proof.
  intros Hc. rewrite start_then_wait_run.
  case_bool_decide; [|by apply wait_for_ready_consistent].
  destruct (start_experiment _ _ _ _) as [[rval response] p2]. cbv zeta.
  case_decide; [|by apply consistent_other].
  match goal with
  | |- context [Experiment._get_status _ _ _ ?w3] =>
      pose proof (get_status_consistent w3 Hc) as Hc';
      destruct (_get_status w3) as [[[]|x] w4]
  end; cbn [snd] in *; [|done].
  case_decide; [done|by apply wait_for_ready_consistent].
Qed.

Lemma start_and_wait_consistent (w : @world CP) :
  consistent (self w) -> consistent (self (start_and_wait w).2).
Proof.
  intros Hc. rewrite start_and_wait_run.
  pose proof (get_status_consistent w Hc) as Hc'.
  destruct (_get_status w) as [[[]|x] w0]; cbn [snd] in *; [|done].
  case_decide; [by apply reload_consistent|].
  case_decide; [|by apply start_then_wait_consistent].
  by apply start_then_wait_consistent, terminate_consistent.
Qed.
End Facts.

Lemma reachable_consistent e : reachable e -> consistent e.
Proof.
  induction 1 as [name project profile e Hinit|CP st tm mf gs dec op w Hr IH].
  - unfold __init__ in Hinit. case_match; simplify_eq.
    split; [done|]. cbn. done.
  - destruct op; cbn [run].
    + unfold check_status. rewrite bind_run.
      destruct (_get_status mf gs dec w) as [[[]|x] w1] eqn:E; cbn [snd];
        replace w1 with (_get_status mf gs dec w).2 by (by rewrite E);
        by apply get_status_consistent.
    + by apply start_and_wait_consistent.
    + by apply terminate_consistent.
Qed.
End ExperimentFacts.

Module ExperimentClaims.
Import Experiment ExperimentFacts PyStrFacts ManifestFacts.

Ltac excl Hexcl Hp q :=
  match type of Hp with
  | PyStr.startswith _ ?p = true => rewrite (Hexcl p q eq_refl eq_refl Hp)
  end.

Section Claims.
Context {CP : Type}.
Variable start_experiment : string -> string -> string -> CP -> rcode * payload * CP.
Variable terminate_experiment : string -> string -> CP -> rcode * payload * CP.
Variable get_experiment_manifests : string -> string -> CP -> rcode * payload * CP.
Variable get_experiment_status : string -> string -> CP -> rcode * payload * CP.
Variable decode_manifests : string -> option (list pyval).

Abbreviation load_manifests :=
  (load_manifests get_experiment_manifests decode_manifests).
Abbreviation _get_status :=
  (_get_status get_experiment_manifests get_experiment_status decode_manifests).

Lemma no_such_experiment_spec rval response :
  no_such_experiment rval response = true
  <-> rval = RESPONSE_BADARGS
      \/ (rval = RESPONSE_ERROR
          /\ exists d, response = Some d
             /\ PyStr.contains "No such experiment" (get_output d "") = true).
Proof.
  unfold no_such_experiment.
  rewrite orb_true_iff, andb_true_iff, !bool_decide_eq_true.
  split; (intros [H|[H1 H2]]; [by left|right; split; [done|]]).
  - destruct response as [d|]; [|done].
    apply andb_true_iff in H2 as [_ H2]. eauto.
  - destruct H2 as (d & -> & H2). apply andb_true_iff. split; [|done].
    apply negb_true_iff, Nat.eqb_neq. intros Hsize.
    apply map_size_empty_iff in Hsize. subst d.
    unfold get_output in H2. rewrite lookup_empty in H2. done.
Qed.

Abbreviation terminate := (terminate terminate_experiment).
Abbreviation reload_missing_nodes :=
  (reload_missing_nodes get_experiment_manifests decode_manifests).
Abbreviation polling_loop :=
  (polling_loop get_experiment_manifests get_experiment_status decode_manifests).
Abbreviation final_status_evaluation :=
  (final_status_evaluation get_experiment_manifests decode_manifests).
Abbreviation wait_for_ready :=
  (wait_for_ready get_experiment_manifests get_experiment_status decode_manifests).
Abbreviation start_then_wait :=
  (start_then_wait start_experiment get_experiment_manifests
                   get_experiment_status decode_manifests).
Abbreviation start_and_wait :=
  (start_and_wait start_experiment terminate_experiment get_experiment_manifests
                  get_experiment_status decode_manifests).

(** *** Manifests without a valid node *)
Section ZeroNodes.
Hypothesis Hzero : zero_node_manifests get_experiment_manifests decode_manifests.

Lemma load_manifests_bare (w : @world CP) :
  nodes (self w) = ∅ -> nodes (self (load_manifests w).2) = ∅.
Proof.
  intros Hn.
  pose proof (load_manifests_run get_experiment_manifests decode_manifests w) as H.
  destruct (get_experiment_manifests _ _ _) as [[rval response] p'] eqn:Hcall.
  rewrite H. clear H.
  destruct (decide _) as [->|_]; [|by destruct response].
  cbn [snd self]. unfold parse_manifests. cbn [_manifests with_manifests].
  destruct (cached_manifests decode_manifests response) as [[|m ms]|] eqn:Hc;
    cbn [nodes with_nodes with_manifests]; try done.
  by apply (Hzero _ _ _ _ _ _ Hcall Hc).
Qed.

Lemma get_status_unready (w : @world CP) :
  nodes (self w) = ∅ -> (_get_status w).1 = Ok tt -> unready (_get_status w).2.
Proof.
  intros Hn Hok.
  pose proof (get_status_last get_experiment_manifests get_experiment_status
                decode_manifests w) as Hlast.
  pose proof (get_status_run get_experiment_manifests get_experiment_status
                decode_manifests w) as H.
  cbv zeta in H.
  destruct (get_experiment_status _ _ _) as [[rval response] p1].
  unfold unready. rewrite Hlast. clear Hlast. rewrite H in Hok |- *. clear H.
  assert (Hlater : forall e' : PowderExperiment,
            nodes e' = ∅ -> status e' <> EXPERIMENT_READY ->
            (ready_answer rval response = true -> status e' = EXPERIMENT_FAILED) ->
            nodes e' = ∅ /\ status e' <> EXPERIMENT_READY
            /\ (forall rv rs, Some (rval, response) = Some (rv, rs) ->
                 ready_answer rv rs = true -> status e' = EXPERIMENT_FAILED)).
  { intros e' ? ? Hf. repeat split; try done. intros rv rs ? ?. simplify_eq. auto. }
  destruct (no_such_experiment rval response) eqn:Hnf.
  { cbn [snd self]. apply Hlater.
    - by case_decide.
    - case_decide as Hs; [by rewrite Hs|done].
    - unfold ready_answer. intros [Hrv Hd]%andb_true_iff.
      apply bool_decide_eq_true in Hrv. subst rval.
      unfold no_such_experiment in Hnf. done. }
  destruct (decide (rval = RESPONSE_SUCCESS)) as [->|Hrv].
  2:{ cbn [snd self]. apply Hlater; try done.
      unfold ready_answer. intros [Hrv' _]%andb_true_iff.
      by apply bool_decide_eq_true in Hrv'. }
  destruct response as [d|]; [|done]. cbv zeta in Hok |- *.
  destruct (PyStr.startswith _ "Status: ready") eqn:Hr.
  - assert (Hneed : bool_decide (status (self w) <> EXPERIMENT_READY)
                    || no_nodes (self w) = true).
    { apply orb_true_iff. right. by apply no_nodes_true. }
    rewrite Hneed. cbn [andb].
    match goal with
    | |- context [Experiment.load_manifests _ _ ?w1] =>
        pose proof (load_manifests_bare w1 Hn) as Hb;
        destruct (load_manifests w1) as [r2 w2]
    end.
    cbn [snd self] in *. apply no_nodes_true in Hb as Hb'. rewrite Hb'.
    apply Hlater; cbn [nodes status with_status]; try done;
      by destruct r2.
  - cbn [andb snd self]. apply Hlater; cbn [nodes status with_status]; try done.
    + pose proof (line_status_not_ready _ Hr) as Hl.
      rewrite !elem_of_cons in Hl. intros Heq. clear Hok. rewrite Heq in Hl.
      destruct Hl as [?|[?|[?|[?|Hl]]]]; try done. by apply elem_of_nil in Hl.
    + unfold ready_answer. rewrite Hr. by rewrite andb_false_r.
Qed.

Lemma polling_loop_unready n : forall (w : @world CP),
  unready w -> (polling_loop n w).1 = Ok tt -> unready (polling_loop n w).2.
Proof.
  induction n as [|n IH]; intros w Hu; rewrite polling_loop_run;
    case_bool_decide; try done.
  destruct Hu as (Hn & _ & _).
  match goal with
  | |- context [Experiment._get_status _ _ _ ?w1] =>
      pose proof (get_status_unready w1 Hn) as Hu';
      destruct (_get_status w1) as [[[]|x] w2]
  end; cbn [fst snd] in *; [|done].
  intros Hok. apply IH; [by apply Hu'|done].
Qed.

Lemma final_unready (w : @world CP) :
  unready w -> unready (final_status_evaluation w).2.
Proof.
  intros (Hn & Hs & Hl). rewrite final_run.
  case_decide; [done|]. case_decide; [done|].
  cbn [snd]. split; [done|]. split; [done|]. done.
Qed.

Lemma wait_for_ready_unready (w : @world CP) st :
  unready w -> (wait_for_ready w).1 = Ok st -> unready (wait_for_ready w).2.
Proof.
  intros Hu. rewrite wait_for_ready_run.
  pose proof (polling_loop_unready _poll_count_max w Hu) as Hu'.
  destruct (polling_loop _ w) as [[[]|x] w1]; cbn [fst snd] in *; [|done].
  intros _. by apply final_unready, Hu'.
Qed.

Lemma start_then_wait_unready (w : @world CP) st :
  nodes (self w) = ∅ ->
  (status (self w) ∈ [EXPERIMENT_PROVISIONING; EXPERIMENT_PROVISIONED] ->
   unready w) ->
  (start_then_wait w).1 = Ok st -> unready (start_then_wait w).2.
Proof.
  intros Hn Hu. rewrite start_then_wait_run.
  case_bool_decide as Hin.
  2:{ by apply wait_for_ready_unready, Hu. }
  destruct (start_experiment _ _ _ _) as [[rval response] p2]. cbv zeta.
  case_decide.
  - match goal with
    | |- context [Experiment._get_status _ _ _ ?w3] =>
        pose proof (get_status_unready w3 Hn) as Hu';
        destruct (_get_status w3) as [[[]|x] w4]
    end; cbn [fst snd] in *; [|done].
    case_decide; [intros _; by apply Hu'|].
    by apply wait_for_ready_unready, Hu'.
  - intros _. cbn [snd]. split; [done|]. split; done.
Qed.

Lemma start_and_wait_unready (w : @world CP) st :
  nodes (self w) = ∅ ->
  (start_and_wait w).1 = Ok st -> unready (start_and_wait w).2.
Proof.
  intros Hn. rewrite start_and_wait_run.
  pose proof (get_status_unready w Hn) as Hu.
  destruct (_get_status w) as [[[]|x] w0]; cbn [fst snd] in *; [|done].
  specialize (Hu eq_refl).
  case_decide as Hr; [by destruct Hu as (_ & ? & _)|].
  case_decide as Hf.
  - pose proof (terminate_run terminate_experiment w0) as Ht. cbv zeta in Ht.
    destruct (terminate_experiment _ _ _) as [[rv rs] p'].
    rewrite Ht. clear Ht. destruct Hu as (Hn0 & _ & _).
    apply start_then_wait_unready.
    + by case_decide.
    + rewrite !elem_of_cons. case_decide; cbn [snd self status cleared with_status
        with_nodes with_manifests]; rewrite ?Hf;
        intros [?|[?|Hx]]; try done; by apply elem_of_nil in Hx.
  - apply start_then_wait_unready; [by destruct Hu|done].
Qed.
End ZeroNodes.

Lemma calls_single m m' rv rs :
  calls m [Called m' rv rs] = if bool_decide (m' = m) then 1 else 0.
Proof. unfold calls. cbn. by case_bool_decide. Qed.

Lemma payload_cases (response : payload) :
  response = None \/ exists d, response = Some d.
Proof. destruct response; eauto. Qed.

(** C6.  [terminate] sends exactly one terminate request and returns
    [self.status].  When the control plane answers success the state is
    Null, the registry is empty and no manifest is cached; on any other
    answer the controller is left exactly as it was, so the status
    returned is the one it had before. *)
Theorem terminate_effect (w : @world CP) rval response p' :
  terminate_experiment (project_name (self w)) (experiment_name (self w)) (plane w)
  = (rval, response, p') ->
  let r := (terminate w).1 in
  let w' := (terminate w).2 in
  trace w' = trace w ++ [Called TerminateExperiment rval response]
  /\ calls TerminateExperiment (trace w') = calls TerminateExperiment (trace w) + 1
  /\ plane w' = p'
  /\ r = Ok (status (self w'))
  /\ (rval = RESPONSE_SUCCESS ->
      status (self w') = EXPERIMENT_NULL /\ nodes (self w') = ∅
      /\ _manifests (self w') = None)
  /\ (rval <> RESPONSE_SUCCESS -> self w' = self w /\ r = Ok (status (self w))).
Proof.
  intros Hcall. cbv zeta.
  pose proof (terminate_run terminate_experiment w) as H. cbv zeta in H.
  rewrite Hcall in H. rewrite H. clear H.
  destruct (decide (rval = RESPONSE_SUCCESS)) as [Hrv|Hrv]; cbn [fst snd trace plane self];
    rewrite calls_app, calls_single, bool_decide_eq_true_2 by done;
    repeat split; done.
Qed.

(** C8 (amended).  Without cached manifests ([None] or an empty list)
    [_parse_manifests] leaves the controller as it is.  With a
    non-empty list whose client identifiers are attribute texts it
    never raises, and the registry it leaves is the mapping of the
    valid node entries of the documents (a client identifier and a host
    descriptor with a hostname and an IPv4 address), whatever the
    registry held before: parsing replaces, it does not merge.  A
    document with one entry without [client_id] and one well-formed
    entry gives a registry of size 1 holding the well-formed node. *)
Theorem parse_manifests_registry (e : PowderExperiment) :
  (_manifests e = None \/ _manifests e = Some [] -> parse_manifests e = e)
  /\ (forall ms,
        _manifests e = Some ms -> ms <> [] ->
        Forall Manifest.text_client_id (concat (map Manifest.node_entries ms)) ->
        nodes (parse_manifests e) = Manifest.registry_of (Manifest.valid_nodes ms)
        /\ (forall cid,
              is_Some (nodes (parse_manifests e) !! cid)
              <-> exists n, (cid, n) ∈ Manifest.valid_nodes ms)
        /\ (forall registry,
              nodes (parse_manifests (with_nodes registry e))
              = nodes (parse_manifests e))
        /\ status (parse_manifests e) = status e
        /\ _manifests (parse_manifests e) = Some ms)
  /\ (forall w : @world CP,
        _parse_manifests w
        = (Ok tt, mkWorld (parse_manifests (self w)) (plane w) (trace w)))
  /\ (let parsed :=
        parse_manifests
          (with_manifests
             (Some [Scripted.document [Scripted.anonymous; Scripted.node1]]) e) in
      nodes parsed
      = {[ "node-1" := mkNode "node-1" (PStr "10.0.0.2") (PStr "n1.example.net") ]}
      /\ size (nodes parsed) = 1).
Proof.
  split; [|split; [|split]].
  - unfold parse_manifests. by intros [-> | ->].
  - intros ms Hms Hne Htext.
    assert (Hparse : forall e0, _manifests e0 = Some ms ->
              parse_manifests e0 = with_nodes (Manifest.parse_all ms ∅) e0).
    { intros e0 H0. unfold parse_manifests. rewrite H0. by destruct ms. }
    rewrite (Hparse e Hms). cbn [nodes status _manifests with_nodes].
    rewrite (parse_all_valid _ _ Htext).
    split; [done|]. split; [|split; [|done]].
    + intros cid. rewrite store_lookup, lookup_empty.
      split; [intros [Hs|?]; [by apply is_Some_None in Hs|done]|by right].
    + intros registry. rewrite (Hparse (with_nodes registry e) Hms).
      cbn [nodes with_nodes]. by rewrite (parse_all_valid _ _ Htext).
  - done.
  - cbv zeta.
    assert (Hn : nodes (parse_manifests
                  (with_manifests
                     (Some [Scripted.document [Scripted.anonymous; Scripted.node1]]) e))
                 = {[ "node-1" := mkNode "node-1" (PStr "10.0.0.2")
                                         (PStr "n1.example.net") ]}).
    { unfold parse_manifests. cbn [_manifests with_manifests nodes with_nodes].
      vm_compute. reflexivity. }
    rewrite Hn. split; [reflexivity|]. apply map_size_singleton.
Qed.

Section OneQuery.
(** One status query: the answer of the control plane, and the store
    right after the request. *)
Variable w : @world CP.
Variables (rval : rcode) (response : payload) (p1 : CP).
Hypothesis Hcall :
  get_experiment_status (project_name (self w)) (experiment_name (self w))
                        (plane w) = (rval, response, p1).
Let tr1 := trace w ++ [Called GetExperimentStatus rval response].
Let w1 := mkWorld (self w) p1 tr1.

Lemma get_status_not_found :
  no_such_experiment rval response = true ->
  _get_status w =
    (Ok tt, mkWorld (if decide (status (self w) = EXPERIMENT_NULL)
                     then self w else cleared (self w)) p1 tr1).
Proof.
  intros Hnf.
  pose proof (get_status_run get_experiment_manifests get_experiment_status
                decode_manifests w) as H.
  cbv zeta in H. rewrite Hcall in H. by rewrite H, Hnf.
Qed.

Lemma get_status_error :
  no_such_experiment rval response = false -> rval <> RESPONSE_SUCCESS ->
  _get_status w = (Ok tt, mkWorld (with_status EXPERIMENT_UNKNOWN (self w)) p1 tr1).
Proof.
  intros Hnf Hrv.
  pose proof (get_status_run get_experiment_manifests get_experiment_status
                decode_manifests w) as H.
  cbv zeta in H. rewrite Hcall in H. rewrite H, Hnf.
  by destruct (decide (rval = RESPONSE_SUCCESS)).
Qed.

Lemma get_status_no_payload :
  rval = RESPONSE_SUCCESS -> response = None ->
  _get_status w = (Raise AttributeError, w1).
Proof.
  intros Hrv Hrs.
  pose proof (get_status_run get_experiment_manifests get_experiment_status
                decode_manifests w) as H.
  cbv zeta in H. rewrite Hcall in H. rewrite H. subst. done.
Qed.

Lemma get_status_line d :
  rval = RESPONSE_SUCCESS -> response = Some d ->
  PyStr.startswith (PyStr.strip (get_output d "")) "Status: ready" = false ->
  _get_status w =
    (Ok tt, mkWorld (with_status (line_status (PyStr.strip (get_output d "")))
                                 (self w)) p1 tr1).
Proof.
  intros Hrv Hrs Hr.
  pose proof (get_status_run get_experiment_manifests get_experiment_status
                decode_manifests w) as H.
  cbv zeta in H. rewrite Hcall in H. rewrite H. subst rval response.
  cbn [no_such_experiment bool_decide orb andb]. 
  assert (Hnf : no_such_experiment RESPONSE_SUCCESS (Some d) = false) by done.
  rewrite Hnf. destruct (decide (RESPONSE_SUCCESS = RESPONSE_SUCCESS)); [|done].
  by rewrite Hr.
Qed.

Lemma get_status_ready d :
  rval = RESPONSE_SUCCESS -> response = Some d ->
  PyStr.startswith (PyStr.strip (get_output d "")) "Status: ready" = true ->
  _get_status w =
    if bool_decide (status (self w) <> EXPERIMENT_READY) || no_nodes (self w) then
      let '(r2, w2) := load_manifests w1 in
      (Ok tt,
       mkWorld (with_status
                  (match r2 with
                   | Ok _ => if no_nodes (self w2) then EXPERIMENT_FAILED
                             else EXPERIMENT_READY
                   | Raise _ => EXPERIMENT_FAILED
                   end) (self w2))
               (plane w2) (trace w2))
    else (Ok tt, w1).
Proof.
  intros Hrv Hrs Hr.
  pose proof (get_status_run get_experiment_manifests get_experiment_status
                decode_manifests w) as H.
  cbv zeta in H. rewrite Hcall in H. rewrite H. subst rval response.
  assert (Hnf : no_such_experiment RESPONSE_SUCCESS (Some d) = false) by done.
  rewrite Hnf. destruct (decide (RESPONSE_SUCCESS = RESPONSE_SUCCESS)); [|done].
  rewrite Hr. cbn [andb].
  destruct (bool_decide _ || no_nodes _) eqn:Hneed; [done|].
  apply orb_false_iff in Hneed as [Hst _].
  apply bool_decide_eq_false in Hst. apply dec_stable in Hst.
  unfold line_status. rewrite Hr. by rewrite with_status_id.
Qed.

(** C2 (amended).  One status query of a reachable controller.  A
    bad-arguments code, or a generic error whose payload output holds
    the not-found marker, gives Null with the registry empty and no
    manifest cached; any other code but success gives Unknown.  On
    success the output is read with its surrounding blanks stripped:
    the prefixes 'Status: provisioning', 'Status: provisioned' and
    'Status: failed' give Provisioning, Provisioned and Failed; an
    output with none of the four prefixes gives Provisioning when it
    holds 'UUID:', 'creating image' or 'booting' and Unknown
    otherwise.  The prefix 'Status: ready' gives Ready when the
    controller was Ready with a node already; otherwise the
    manifests are loaded and the state is Ready only when the load
    did not raise and left a node, and Failed if not.  A prefix of
    the raw output is a prefix of the stripped one. *)
Theorem get_status_classification :
  reachable (self w) ->
  let e' := self (_get_status w).2 in
  (rval = RESPONSE_BADARGS
   \/ (rval = RESPONSE_ERROR
       /\ exists d, response = Some d
          /\ PyStr.contains "No such experiment" (get_output d "") = true) ->
   status e' = EXPERIMENT_NULL /\ nodes e' = ∅ /\ _manifests e' = None)
  /\ (no_such_experiment rval response = false ->
      rval <> RESPONSE_SUCCESS -> status e' = EXPERIMENT_UNKNOWN)
  /\ (forall d, rval = RESPONSE_SUCCESS -> response = Some d ->
      let output := PyStr.strip (get_output d "") in
      let unrecognized :=
        PyStr.startswith output "Status: ready" = false
        /\ PyStr.startswith output "Status: provisioning" = false
        /\ PyStr.startswith output "Status: provisioned" = false
        /\ PyStr.startswith output "Status: failed" = false in
      let marked :=
        PyStr.contains "UUID:" output || PyStr.contains "creating image" output
        || PyStr.contains "booting" output in
      (PyStr.startswith output "Status: ready" = true ->
       status e' =
         if bool_decide (status (self w) <> EXPERIMENT_READY) || no_nodes (self w)
         then
           match (load_manifests w1).1 with
           | Ok _ => if no_nodes e' then EXPERIMENT_FAILED else EXPERIMENT_READY
           | Raise _ => EXPERIMENT_FAILED
           end
         else EXPERIMENT_READY)
      /\ (PyStr.startswith output "Status: provisioning" = true ->
          status e' = EXPERIMENT_PROVISIONING)
      /\ (PyStr.startswith output "Status: provisioned" = true ->
          status e' = EXPERIMENT_PROVISIONED)
      /\ (PyStr.startswith output "Status: failed" = true ->
          status e' = EXPERIMENT_FAILED)
      /\ (unrecognized -> marked = true -> status e' = EXPERIMENT_PROVISIONING)
      /\ (unrecognized -> marked = false -> status e' = EXPERIMENT_UNKNOWN)
      /\ (forall p,
            p ∈ ["Status: ready"; "Status: provisioning"; "Status: provisioned";
                 "Status: failed"] ->
            PyStr.startswith (get_output d "") p = true ->
            PyStr.startswith output p = true)).
Proof.
  intros Hreach. apply reachable_consistent in Hreach as [Hc _].
  cbv zeta. split; [|split].
  - intros Hnf. apply no_such_experiment_spec in Hnf.
    rewrite (get_status_not_found Hnf). cbn [snd self].
    case_decide as Hn; [|done]. destruct Hc as [? ?]; [by right|done].
  - intros Hnf Hrv. by rewrite (get_status_error Hnf Hrv).
  - intros d Hrv Hrs.
    set (output := PyStr.strip (get_output d "")).
    assert (Hexcl : forall p q,
              String.prefix p q = false -> String.prefix q p = false ->
              PyStr.startswith output p = true -> PyStr.startswith output q = false).
    { intros p q. apply startswith_exclusive. }
    assert (Hline : forall st,
              PyStr.startswith output "Status: ready" = false ->
              line_status output = st -> status (self (_get_status w).2) = st).
    { intros st Hr <-. by rewrite (get_status_line d Hrv Hrs Hr). }
    repeat split.
    + intros Hr. rewrite (get_status_ready d Hrv Hrs Hr).
      destruct (bool_decide _ || no_nodes _) eqn:Hneed.
      * fold w1. destruct (load_manifests w1) as [[[]|x] w2];
          cbn [fst snd self status with_status]; [|done].
        unfold no_nodes. cbn [nodes with_status]. by destruct (_ =? _)%nat.
      * cbn [snd]. unfold w1. cbn [self].
        apply orb_false_iff in Hneed as [Hst _].
        apply bool_decide_eq_false in Hst. by apply dec_stable in Hst.
    + intros Hp. apply Hline.
      * match type of Hp with
        | PyStr.startswith _ ?p = true =>
            exact (Hexcl p "Status: ready" eq_refl eq_refl Hp)
        end.
      * unfold line_status. excl Hexcl Hp "Status: ready".
        by rewrite Hp.
    + intros Hp. apply Hline.
      * match type of Hp with
        | PyStr.startswith _ ?p = true =>
            exact (Hexcl p "Status: ready" eq_refl eq_refl Hp)
        end.
      * unfold line_status. excl Hexcl Hp "Status: ready".
        excl Hexcl Hp "Status: provisioning".
        by rewrite Hp.
    + intros Hp. apply Hline.
      * match type of Hp with
        | PyStr.startswith _ ?p = true =>
            exact (Hexcl p "Status: ready" eq_refl eq_refl Hp)
        end.
      * unfold line_status. excl Hexcl Hp "Status: ready".
        excl Hexcl Hp "Status: provisioning".
        excl Hexcl Hp "Status: provisioned".
        by rewrite Hp.
    + intros (H1 & H2 & H3 & H4) Hm. apply Hline; [done|].
      unfold line_status. by rewrite H1, H2, H3, H4, Hm.
    + intros (H1 & H2 & H3 & H4) Hm. apply Hline; [done|].
      unfold line_status. by rewrite H1, H2, H3, H4, Hm.
    + intros p Hp. rewrite !elem_of_cons in Hp.
      destruct Hp as [->|[->|[->|[->|Hp]]]]; [..|by apply elem_of_nil in Hp];
        by apply startswith_strip.
Qed.

(** C10 (amended).  One status query of a reachable controller.
    When the resulting state is Unknown the registry and the cached
    manifests are the ones from before; so they are after every
    answer that is neither a not-found one nor read as ready.  A
    not-found answer gives Null and clears both.  An answer read as
    ready leaves both as the manifest load leaves them when the
    controller was not Ready or had no node (the load may empty the
    registry or drop the cache), and untouched otherwise. *)
Theorem get_status_frame :
  reachable (self w) ->
  let e := self w in
  let e' := self (_get_status w).2 in
  (status e' = EXPERIMENT_UNKNOWN ->
   nodes e' = nodes e /\ _manifests e' = _manifests e)
  /\ (no_such_experiment rval response = false ->
      ready_answer rval response = false ->
      nodes e' = nodes e /\ _manifests e' = _manifests e)
  /\ (no_such_experiment rval response = true ->
      status e' = EXPERIMENT_NULL /\ nodes e' = ∅ /\ _manifests e' = None)
  /\ (ready_answer rval response = true ->
      if bool_decide (status e <> EXPERIMENT_READY) || no_nodes e then
        nodes e' = nodes (self (load_manifests w1).2)
        /\ _manifests e' = _manifests (self (load_manifests w1).2)
      else nodes e' = nodes e /\ _manifests e' = _manifests e).
Proof.
  intros Hreach. apply reachable_consistent in Hreach as [Hc _].
  cbv zeta.
  assert (Hready : ready_answer rval response = true ->
            no_such_experiment rval response = false
            /\ exists d, rval = RESPONSE_SUCCESS /\ response = Some d
               /\ PyStr.startswith (PyStr.strip (get_output d "")) "Status: ready"
                  = true).
  { unfold ready_answer. intros [Hrv Hd]%andb_true_iff.
    apply bool_decide_eq_true in Hrv.
    destruct (payload_cases response) as [Hrs|[d Hrs]]; rewrite Hrs in Hd; [done|].
    split; [by rewrite Hrv|eauto]. }
  assert (Hquiet : no_such_experiment rval response = false ->
            ready_answer rval response = false ->
            nodes (self (_get_status w).2) = nodes (self w)
            /\ _manifests (self (_get_status w).2) = _manifests (self w)).
  { intros Hnf Hra.
    destruct (decide (rval = RESPONSE_SUCCESS)) as [Hrv|Hrv];
      [|by rewrite (get_status_error Hnf Hrv)].
    destruct (payload_cases response) as [Hrs|[d Hrs]];
      [by rewrite (get_status_no_payload Hrv Hrs)|].
    unfold ready_answer in Hra. rewrite Hrv, Hrs in Hra.
    rewrite bool_decide_eq_true_2 in Hra by done. cbn [andb] in Hra.
    by rewrite (get_status_line d Hrv Hrs Hra). }
  assert (Hnull : no_such_experiment rval response = true ->
            status (self (_get_status w).2) = EXPERIMENT_NULL
            /\ nodes (self (_get_status w).2) = ∅
            /\ _manifests (self (_get_status w).2) = None).
  { intros Hnf. rewrite (get_status_not_found Hnf). cbn [snd self].
    case_decide as Hn; [|done]. destruct Hc as [? ?]; [by right|done]. }
  assert (Hload : ready_answer rval response = true ->
            if bool_decide (status (self w) <> EXPERIMENT_READY) || no_nodes (self w)
            then
              nodes (self (_get_status w).2) = nodes (self (load_manifests w1).2)
              /\ _manifests (self (_get_status w).2)
                 = _manifests (self (load_manifests w1).2)
              /\ status (self (_get_status w).2) <> EXPERIMENT_UNKNOWN
            else nodes (self (_get_status w).2) = nodes (self w)
                 /\ _manifests (self (_get_status w).2) = _manifests (self w)).
  { intros Hra. destruct (Hready Hra) as (_ & d & Hrv & Hrs & Hr).
    rewrite (get_status_ready d Hrv Hrs Hr).
    destruct (bool_decide _ || no_nodes _); [|done].
    fold w1. destruct (load_manifests w1) as [[[]|x] w2];
      cbn [snd self nodes _manifests status with_status]; [|done].
    by destruct (no_nodes (self w2)). }
  split; [|split; [exact Hquiet|split; [exact Hnull|]]].
  - intros Hu.
    destruct (no_such_experiment rval response) eqn:Hnf.
    { destruct (Hnull eq_refl) as [Hn _]. congruence. }
    destruct (ready_answer rval response) eqn:Hra; [|by apply Hquiet].
    specialize (Hload eq_refl).
    destruct (bool_decide _ || no_nodes _); [|done].
    by destruct Hload as (_ & _ & Hne).
  - intros Hra. specialize (Hload Hra).
    destruct (bool_decide _ || no_nodes _); [|done].
    by destruct Hload as (? & ? & _).
Qed.

(** C7 (amended).  In every reachable controller the registry is
    empty when the state is NotStarted or Null, and it is not empty
    when the state is Ready.  A status query that ends in
    Provisioning, Provisioned or Unknown, or in Failed on an answer
    not read as ready, keeps the registry it found, empty or not; one
    that ends in Null leaves it empty, and so does a [terminate]
    that ends in Null. *)
Theorem registry_invariant :
  (forall e, reachable e ->
     (status e = EXPERIMENT_NOT_STARTED \/ status e = EXPERIMENT_NULL ->
      nodes e = ∅)
     /\ (status e = EXPERIMENT_READY -> nodes e <> ∅))
  /\ (let e' := self (_get_status w).2 in
      (status e' ∈ [EXPERIMENT_PROVISIONING; EXPERIMENT_PROVISIONED;
                    EXPERIMENT_UNKNOWN] ->
       nodes e' = nodes (self w))
      /\ (ready_answer rval response = false ->
          status e' = EXPERIMENT_FAILED -> nodes e' = nodes (self w))
      /\ (reachable (self w) -> status e' = EXPERIMENT_NULL -> nodes e' = ∅))
  /\ (reachable (self w) ->
      status (self (terminate w).2) = EXPERIMENT_NULL ->
      nodes (self (terminate w).2) = ∅).
Proof.
  split; [|split].
  - intros e Hr. apply reachable_consistent in Hr as [H1 H2].
    split; [|done]. intros Hs. by apply H1.
  - cbv zeta.
    assert (Hcases :
      (nodes (self (_get_status w).2) = nodes (self w)
       /\ (ready_answer rval response = true ->
           status (self (_get_status w).2) = status (self w)))
      \/ status (self (_get_status w).2) = EXPERIMENT_NULL
      \/ (ready_answer rval response = true
          /\ (status (self (_get_status w).2) = EXPERIMENT_READY
              \/ status (self (_get_status w).2) = EXPERIMENT_FAILED))).
    { destruct (no_such_experiment rval response) eqn:Hnf.
      { rewrite (get_status_not_found Hnf). cbn [snd self].
        case_decide as Hn; [by right; left|by right; left]. }
      destruct (decide (rval = RESPONSE_SUCCESS)) as [Hrv|Hrv].
      2:{ left. rewrite (get_status_error Hnf Hrv). split; [done|].
          unfold ready_answer. intros [H _]%andb_true_iff.
          by apply bool_decide_eq_true in H. }
      destruct (payload_cases response) as [Hrs|[d Hrs]].
      { left. by rewrite (get_status_no_payload Hrv Hrs). }
      destruct (PyStr.startswith (PyStr.strip (get_output d "")) "Status: ready")
        eqn:Hr.
      2:{ left. rewrite (get_status_line d Hrv Hrs Hr). split; [done|].
          unfold ready_answer. rewrite Hrs, Hr. by rewrite andb_false_r. }
      assert (Hra : ready_answer rval response = true).
      { unfold ready_answer. rewrite Hrs, Hr, andb_true_r.
        by apply bool_decide_eq_true. }
      rewrite (get_status_ready d Hrv Hrs Hr).
      destruct (bool_decide _ || no_nodes _); [|by left].
      right; right. split; [done|].
      destruct (load_manifests _) as [[[]|x] w2];
        cbn [snd self status with_status]; [|by right].
      destruct (no_nodes (self w2)); [by right|by left]. }
    split; [|split].
    + rewrite !elem_of_cons. intros Hs.
      destruct Hcases as [[Hn _]|[Hn|[_ [Hn|Hn]]]]; [done|..];
        rewrite Hn in Hs; exfalso;
        destruct Hs as [Hs|[Hs|[Hs|Hs]]]; try done; by apply elem_of_nil in Hs.
    + intros Hra Hs.
      destruct Hcases as [[Hn _]|[Hn|[Hra' _]]]; [done|congruence|congruence].
    + intros Hreach Hs.
      assert (Hc : consistent (self (_get_status w).2)).
      { by apply get_status_consistent, reachable_consistent. }
      destruct Hc as [Hc _]. destruct Hc as [? ?]; [by right|done].
  - intros Hreach Hs.
    assert (Hc : consistent (self (terminate w).2)).
    { by apply terminate_consistent, reachable_consistent. }
    destruct Hc as [Hc _]. destruct Hc as [? ?]; [by right|done].
Qed.

End OneQuery.
End Claims.
End ExperimentClaims.

Module SSHFacts.
Import SSH.

Ltac unfold_ssh :=
  unfold mbind, M_bind, bind, mret, M_ret, ret, raise, try_except,
         spawn, expect, sendline, close_force, close_if_open, sleep, emit,
         get_self in *.

(** C9.  When the environment gives no key path ([CERT] unset or empty)
    or the path names no existing file, the constructor raises a
    [ValueError] or a [FileNotFoundError]; construction followed by
    [open()] then ends with that error and an empty trace, whatever the
    terminal: no process is spawned. *)
Theorem init_requires_key (environ : gmap string string)
    (path_exists : string -> bool) (ip : string) (user : option string)
    (prompt : string) :
  given (environ !! "CERT") = false
  \/ path_exists (default "" (environ !! "CERT")) = false ->
  (exists e, __init__ environ path_exists ip user prompt = Raise e
             /\ match e with
                | ValueError _ | FileNotFoundError _ => True
                | _ => False
                end)
  /\ forall (PX : Type) (px_spawn : string -> PX -> bool * PX)
       (px_expect : list pattern -> nat -> PX -> expect_outcome * PX) (t : PX),
       exists e, connect px_spawn px_expect environ path_exists ip user t
                 = (Raise e, []).
Proof.
  intros H.
  assert (exists e, (forall pr, __init__ environ path_exists ip user pr = Raise e)
                    /\ match e with
                       | ValueError _ | FileNotFoundError _ => True
                       | _ => False
                       end) as (e & He & Hclass).
  { unfold __init__.
    destruct (if given user then user else environ !! "USER") as [u|];
      [|eexists; split; [reflexivity|exact I]].
    destruct (given (environ !! "CERT")) eqn:G; simpl.
    - destruct H as [H|H]; [congruence|]. rewrite H. simpl.
      eexists; split; [reflexivity|exact I].
    - eexists; split; [reflexivity|exact I]. }
  split.
  - exists e. auto.
  - intros. exists e. unfold connect. rewrite He. reflexivity.
Qed.

Section Facts.
Context {PX : Type}.
Variable px_spawn : string -> PX -> bool * PX.
Variable px_expect : list pattern -> nat -> PX -> expect_outcome * PX.

Abbreviation attempt := (attempt px_spawn px_expect).
Abbreviation open_loop := (open_loop px_spawn px_expect).
Abbreviation open := (open px_spawn px_expect).

(** The attempts that end at the first wait. *)
Lemma attempt_first_wait (w : world) t1 i t2 :
  px_spawn (ssh_command (self w)) (terminal w) = (true, t1) ->
  px_expect (expected_patterns (self w)) 25 t1 = (Matched i, t2) ->
  let w' := mkWorld (with_ssh (Some (mkChild true)) (self w)) t2
                    (trace w ++ failed_attempt (self w)) in
  (i = 5 \/ i = 6 -> attempt w = (Ok FellThrough, w'))
  /\ (i = 1 -> attempt w =
        (Raise (ValueError "SSH requested user password, unexpected for key authentication."), w'))
  /\ (i = 3 -> attempt w =
        (Raise (ConnectionRefusedError "SSH Permission Denied (publickey)"), w')).
Proof.
  intros Hs He. unfold SSH.attempt. unfold_ssh. cbn [self terminal trace].
  rewrite Hs. cbn [self terminal trace].
  change (expected_patterns (with_ssh (Some (mkChild false)) (self w)))
    with (expected_patterns (self w)).
  rewrite He. unfold failed_attempt.
  repeat split.
  - intros [-> | ->]; repeat (unfold_ssh; cbn); rewrite <- !app_assoc; reflexivity.
  - intros ->; repeat (unfold_ssh; cbn); rewrite <- !app_assoc; reflexivity.
  - intros ->; repeat (unfold_ssh; cbn); rewrite <- !app_assoc; reflexivity.
Qed.

(** One attempt that fails transiently. *)
Lemma open_loop_transient (w : world) remaining retry_count t1 i t2 :
  px_spawn (ssh_command (self w)) (terminal w) = (true, t1) ->
  px_expect (expected_patterns (self w)) 25 t1 = (Matched i, t2) ->
  i = 5 \/ i = 6 ->
  open_loop (S remaining) retry_count w =
    open_loop remaining (retry_count + 1)
      (mkWorld (with_ssh (Some (mkChild true)) (self w)) t2
         (trace w ++ failed_attempt (self w)
            ++ (if Nat.ltb (retry_count + 1) max_retries
                then [Slept (2 ^ (retry_count + 1))] else []))).
Proof.
  intros Hs He Hi.
  destruct (attempt_first_wait w t1 i t2 Hs He) as (Hatt & _ & _).
  specialize (Hatt Hi).
  cbn [SSH.open_loop]. unfold mbind, M_bind, bind, try_except.
  rewrite Hatt.
  destruct (Nat.ltb (retry_count + 1) max_retries); cbn.
  - rewrite <- app_assoc. reflexivity.
  - reflexivity.
Qed.

(** An attempt that meets a password prompt or a denial ends [open]. *)
Lemma open_loop_fatal (w : world) remaining retry_count t1 i t2 e :
  px_spawn (ssh_command (self w)) (terminal w) = (true, t1) ->
  px_expect (expected_patterns (self w)) 25 t1 = (Matched i, t2) ->
  (i = 1 /\ e = ValueError "SSH requested user password, unexpected for key authentication."
   \/ i = 3 /\ e = ConnectionRefusedError "SSH Permission Denied (publickey)") ->
  open_loop (S remaining) retry_count w =
    (Raise e, mkWorld (with_ssh (Some (mkChild true)) (self w)) t2
                      (trace w ++ failed_attempt (self w))).
Proof.
  intros Hs He Hi.
  destruct (attempt_first_wait w t1 i t2 Hs He) as (_ & H1 & H3).
  cbn [SSH.open_loop]. unfold mbind, M_bind, bind, try_except.
  destruct Hi as [[-> ->] | [-> ->]].
  - rewrite H1 by reflexivity. reflexivity.
  - rewrite H3 by reflexivity. reflexivity.
Qed.

Lemma failed_attempts_app s n j k :
  failed_attempts s n (j + k)
  = failed_attempts s n j ++ failed_attempts s (n + j) k.
Proof.
  revert n. induction j as [|j IH]; intros n; cbn [failed_attempts Nat.add].
  - rewrite Nat.add_0_r. reflexivity.
  - rewrite IH. rewrite <- !app_assoc.
    replace (n + 1 + j) with (n + S j) by lia. reflexivity.
Qed.

Lemma fails_transiently_with_ssh v s k : forall t t',
  fails_transiently px_spawn px_expect (with_ssh v s) k t t'
  <-> fails_transiently px_spawn px_expect s k t t'.
Proof.
  induction k as [|k IH]; intros t t'; cbn [fails_transiently]; [done|].
  change (ssh_command (with_ssh v s)) with (ssh_command s).
  change (expected_patterns (with_ssh v s)) with (expected_patterns s).
  split; intros (t1 & i & t2 & Hs & He & Hi & Hrest);
    exists t1, i, t2; repeat split; try done; by apply IH.
Qed.

Lemma failed_attempts_with_ssh v s k : forall n,
  failed_attempts (with_ssh v s) n k = failed_attempts s n k.
Proof.
  induction k as [|k IH]; intros n; cbn [failed_attempts]; [done|].
  rewrite IH. reflexivity.
Qed.

(** [m] transient failures in a row, while attempts remain. *)
Lemma open_loop_failures m : forall (w : world) remaining retry_count t',
  fails_transiently px_spawn px_expect (self w) m (terminal w) t' ->
  open_loop (m + remaining) retry_count w =
    open_loop remaining (retry_count + m)
      (mkWorld (after_failures m (self w)) t'
               (trace w ++ failed_attempts (self w) retry_count m)).
Proof.
  induction m as [|m IH]; intros w remaining retry_count t' Hf.
  - cbn [fails_transiently] in Hf. subst t'.
    cbn [failed_attempts after_failures Nat.add].
    rewrite app_nil_r, Nat.add_0_r. destruct w; reflexivity.
  - cbn [fails_transiently] in Hf.
    destruct Hf as (t1 & i & t2 & Hs & He & Hi & Hrest).
    cbn [Nat.add]. rewrite (open_loop_transient w _ _ t1 i t2 Hs He Hi).
    rewrite IH with (t' := t');
      [|cbn [self terminal]; apply fails_transiently_with_ssh; exact Hrest].
    cbn [self terminal trace after_failures]. rewrite failed_attempts_with_ssh.
    replace (retry_count + 1 + m) with (retry_count + S m) by lia.
    f_equal. f_equal; [by destruct m|].
    cbn [failed_attempts]. rewrite <- !app_assoc. reflexivity.
Qed.

Lemma fails_transiently_le s j k : forall t t',
  fails_transiently px_spawn px_expect s (j + k) t t' ->
  exists t'', fails_transiently px_spawn px_expect s j t t''.
Proof.
  induction j as [|j IH]; intros t t' Hf; cbn [fails_transiently Nat.add] in *.
  - eauto.
  - destruct Hf as (t1 & i & t2 & Hs & He & Hi & Hrest).
    destruct (IH _ _ Hrest) as [t'' Ht''].
    exists t'', t1, i, t2. done.
Qed.

(** C4 (amended).  When the next [k] attempts fail transiently (end of
    stream or timeout at the first wait), [open] makes [min k 4] failing
    attempts, each one spawned and force-closed, with pauses of 2, 4 and
    8 seconds after the first three; it then goes on with attempt
    [min k 4 + 1] when [k < 4], and when [k >= 4] it raises a
    [ConnectionError] whose message names the target address. *)
Theorem open_transient_failures (k : nat) (w : world) (t' : PX) :
  fails_transiently px_spawn px_expect (self w) k (terminal w) t' ->
  let m := Nat.min k max_retries in
  let tr := failed_attempts (self w) 0 m in
  attempts tr = m
  /\ closes tr = m
  /\ pauses tr = take m [2; 4; 8]
  /\ (exists t'',
        open w = open_loop (max_retries - m) m
                   (mkWorld (after_failures m (self w)) t'' (trace w ++ tr)))
  /\ (max_retries <= k ->
      exists t'',
        open w =
          (Raise (ConnectionError ("Could not connect via SSH to "
                                   +:+ ip_address (self w)
                                   +:+ " after multiple retries")),
           mkWorld (after_failures m (self w)) t'' (trace w ++ tr))).
Proof.
  intros Hf m tr.
  assert (Hm : m <= max_retries) by (unfold m; lia).
  assert (Hfm : exists t'', fails_transiently px_spawn px_expect (self w) m
                              (terminal w) t'').
  { apply (fails_transiently_le _ m (k - m) _ t').
    replace (m + (k - m)) with k by (unfold m; lia). exact Hf. }
  destruct Hfm as [t'' Hfm].
  assert (Hopen : open w = open_loop (max_retries - m) m
             (mkWorld (after_failures m (self w)) t'' (trace w ++ tr))).
  { unfold SSH.open.
    replace max_retries with (m + (max_retries - m)) at 1 by lia.
    rewrite (open_loop_failures m w _ 0 t'' Hfm). reflexivity. }
  assert (Hcount : attempts tr = m /\ closes tr = m /\ pauses tr = take m [2; 4; 8]).
  { unfold tr. clearbody m. clear -Hm. unfold max_retries in Hm.
    destruct m as [|[|[|[|[|m]]]]]; try lia; cbn; done. }
  destruct Hcount as (Ha & Hc & Hp).
  repeat split; try done.
  - eauto.
  - intros Hk. exists t''. rewrite Hopen.
    replace m with max_retries by (unfold m; lia).
    rewrite Nat.sub_diag. reflexivity.
Qed.

(** The attempts that end at the wait after the host key was accepted. *)
Lemma attempt_host_key (w : world) t1 t2 k t3 :
  px_spawn (ssh_command (self w)) (terminal w) = (true, t1) ->
  px_expect (expected_patterns (self w)) 25 t1 = (Matched 4, t2) ->
  px_expect (expected_patterns (self w)) 15 t2 = (Matched k, t3) ->
  let w' := mkWorld (with_ssh (Some (mkChild false)) (self w)) t3
                    (trace w ++ [Spawned (ssh_command (self w));
                                 Expected (expected_patterns (self w)) 25;
                                 SentLine "yes";
                                 Expected (expected_patterns (self w)) 15]) in
  (k = 1 -> attempt w =
     (Raise (ValueError "SSH requested user password after host key confirmation."), w'))
  /\ (k = 3 -> attempt w =
        (Raise (ConnectionRefusedError "Permission denied after host key confirmation."), w')).
Proof.
  intros Hs He Hk. unfold SSH.attempt. unfold_ssh. cbn [self terminal trace].
  rewrite Hs. cbn [self terminal trace].
  change (expected_patterns (with_ssh (Some (mkChild false)) (self w)))
    with (expected_patterns (self w)).
  rewrite He. repeat (unfold_ssh; cbn [self terminal trace]).
  rewrite Hk.
  split; intros ->; repeat (unfold_ssh; cbn); rewrite <- !app_assoc; reflexivity.
Qed.

Lemma open_loop_raise (w w' : world) remaining retry_count e :
  attempt w = (Raise e, w') -> pexpect_exception e = false ->
  open_loop (S remaining) retry_count w = (Raise e, w').
Proof.
  intros Ha He. cbn [SSH.open_loop]. unfold mbind, M_bind, bind, try_except.
  by rewrite Ha, He.
Qed.

End Facts.
End SSHFacts.

Module Scenarios.
Import Experiment Scripted.

(** ** The controller on scripted control planes *)

Lemma reachable_fresh : reachable fresh.
Proof. by apply (reachable_init "exp" "proj" "prof"). Qed.

Lemma reachable_ready_once : reachable (self ready_once).
Proof.
  exact (reachable_step script start_experiment terminate_experiment
           get_experiment_manifests get_experiment_status decode_manifests
           CheckStatus
           (world_of fresh (mkScript [] [] [success "one"] [success "Status: ready"]))
           reachable_fresh).
Qed.

Lemma reachable_regressed : reachable (self regressed).
Proof.
  exact (reachable_step script start_experiment terminate_experiment
           get_experiment_manifests get_experiment_status decode_manifests
           CheckStatus regressing reachable_ready_once).
Qed.

Lemma ready_once_registry : size (nodes (self ready_once)) = 1.
Proof. vm_compute. reflexivity. Qed.

Lemma regressed_registry : size (nodes (self regressed)) = 1.
Proof. vm_compute. reflexivity. Qed.

Lemma sized_not_empty (m : gmap string Node) : size m = 1 -> m <> ∅.
Proof. intros Hsize Hm. rewrite Hm, map_size_empty in Hsize. discriminate Hsize. Qed.

Lemma hollow_manifests_zero :
  zero_node_manifests get_experiment_manifests hollow_manifests.
Proof.
  intros project name p response p' documents _ Hc.
  unfold cached_manifests in Hc.
  destruct response as [d|]; [|discriminate Hc].
  destruct (d !! "output"); [|discriminate Hc].
  unfold hollow_manifests in Hc. injection Hc as <-.
  vm_compute. reflexivity.
Qed.


(** C2, on the status line of section 4.2. *)
Lemma get_status_classification_witness :
  get_experiment_status (project_name (self uuid_line))
                        (experiment_name (self uuid_line)) (plane uuid_line)
  = (RESPONSE_SUCCESS, output "Status: provisioning, UUID: abc", mkScript [] [] [] [])
  /\ reachable (self uuid_line)
  /\ status (self (Scripted._get_status uuid_line).2) = EXPERIMENT_PROVISIONING.
Proof.
  assert (Hcall : get_experiment_status (project_name (self uuid_line))
                    (experiment_name (self uuid_line)) (plane uuid_line)
                  = (RESPONSE_SUCCESS, output "Status: provisioning, UUID: abc",
                     mkScript [] [] [] [])) by (vm_compute; reflexivity).
  split; [exact Hcall|]. split; [exact reachable_fresh|].
  pose proof (ExperimentClaims.get_status_classification get_experiment_manifests
                get_experiment_status decode_manifests uuid_line _ _ _ Hcall
                reachable_fresh) as H.
  cbv zeta in H. destruct H as (_ & _ & H).
  destruct (H {[ "output" := "Status: provisioning, UUID: abc" ]} eq_refl eq_refl)
    as (_ & Hp & _).
  unfold Scripted._get_status. apply Hp. vm_compute. reflexivity.
Defined.

(** C2: a success answer whose output starts with 'Status: ready' leaves
    the state Failed when the manifests hold no node; and an output with
    a blank in front, which starts with none of the four prefixes and
    holds no marker, is read as Failed, not Unknown. *)
Lemma get_status_classification_counterexample :
  (reachable (self hollow_ready)
   /\ get_experiment_status (project_name (self hollow_ready))
                            (experiment_name (self hollow_ready)) (plane hollow_ready)
      = (RESPONSE_SUCCESS, output "Status: ready",
         mkScript [] [] [success "hollow"] [])
   /\ PyStr.startswith "Status: ready" "Status: ready" = true
   /\ status (self (Scripted._get_status hollow_ready).2) = EXPERIMENT_FAILED)
  /\ (reachable (self padded_failed)
      /\ get_experiment_status (project_name (self padded_failed))
                               (experiment_name (self padded_failed))
                               (plane padded_failed)
         = (RESPONSE_SUCCESS, output " Status: failed", mkScript [] [] [] [])
      /\ PyStr.startswith " Status: failed" "Status: ready" = false
      /\ PyStr.startswith " Status: failed" "Status: provisioning" = false
      /\ PyStr.startswith " Status: failed" "Status: provisioned" = false
      /\ PyStr.startswith " Status: failed" "Status: failed" = false
      /\ PyStr.contains "UUID:" " Status: failed" = false
      /\ PyStr.contains "creating image" " Status: failed" = false
      /\ PyStr.contains "booting" " Status: failed" = false
      /\ status (self (Scripted._get_status padded_failed).2) = EXPERIMENT_FAILED).
Proof.
  split.
  - split; [exact reachable_fresh|].
    split; [vm_compute; reflexivity|]. split; [vm_compute; reflexivity|].
    vm_compute. reflexivity.
  - split; [exact reachable_fresh|].
    repeat (split; [vm_compute; reflexivity|]).
    vm_compute. reflexivity.
Qed.



(** C6, on a terminate request that succeeds and on one that does not. *)
Lemma terminate_effect_witness :
  (terminate_experiment (project_name (self terminable))
                        (experiment_name (self terminable)) (plane terminable)
   = (RESPONSE_SUCCESS, output "terminated", mkScript [] [] [] [])
   /\ status (self terminable) = EXPERIMENT_READY
   /\ (Scripted.terminate terminable).1 = Ok EXPERIMENT_NULL
   /\ nodes (self (Scripted.terminate terminable).2) = ∅
   /\ _manifests (self (Scripted.terminate terminable).2) = None)
  /\ (terminate_experiment (project_name (self unreachable_plane))
                           (experiment_name (self unreachable_plane))
                           (plane unreachable_plane)
      = (RESPONSE_OTHER (-1), None, mkScript [] [] [] [])
      /\ RESPONSE_OTHER (-1) <> RESPONSE_SUCCESS
      /\ self (Scripted.terminate unreachable_plane).2 = self unreachable_plane
      /\ (Scripted.terminate unreachable_plane).1 = Ok EXPERIMENT_READY).
Proof.
  assert (Hcall : terminate_experiment (project_name (self terminable))
                    (experiment_name (self terminable)) (plane terminable)
                  = (RESPONSE_SUCCESS, output "terminated", mkScript [] [] [] []))
    by (vm_compute; reflexivity).
  assert (Hfault : terminate_experiment (project_name (self unreachable_plane))
                     (experiment_name (self unreachable_plane))
                     (plane unreachable_plane)
                   = (RESPONSE_OTHER (-1), None, mkScript [] [] [] []))
    by (vm_compute; reflexivity).
  assert (Hst : status (self terminable) = EXPERIMENT_READY)
    by (vm_compute; reflexivity).
  assert (Hother : RESPONSE_OTHER (-1) <> RESPONSE_SUCCESS) by discriminate.
  unfold Scripted.terminate.
  pose proof (ExperimentClaims.terminate_effect terminate_experiment terminable
                _ _ _ Hcall) as H.
  pose proof (ExperimentClaims.terminate_effect terminate_experiment
                unreachable_plane _ _ _ Hfault) as H'.
  cbv zeta in H, H'.
  destruct H as (_ & _ & _ & Hr & Hok & _).
  destruct H' as (_ & _ & _ & _ & _ & Hkeep).
  destruct (Hok eq_refl) as (Hnull & Hnodes & Hman).
  destruct (Hkeep Hother) as (Hself & Hr').
  split.
  - split; [exact Hcall|]. split; [exact Hst|].
    split; [rewrite Hr, Hnull; reflexivity|]. split; [exact Hnodes|exact Hman].
  - split; [exact Hfault|]. split; [exact Hother|]. split; [exact Hself|].
    rewrite Hr'. unfold unreachable_plane, terminable in *.
    cbn [self world_of] in *. rewrite Hst. reflexivity.
Defined.

(** C7, on the ready controller when the experiment is reported back in
    provisioning: the registry is kept. *)
Lemma registry_invariant_witness :
  get_experiment_status (project_name (self regressing))
                        (experiment_name (self regressing)) (plane regressing)
  = (RESPONSE_SUCCESS, output "Status: provisioning", mkScript [] [] [] [])
  /\ reachable (self regressing)
  /\ status (self regressing) = EXPERIMENT_READY
  /\ nodes (self regressing) <> ∅
  /\ status (self (Scripted._get_status regressing).2) = EXPERIMENT_PROVISIONING
  /\ nodes (self (Scripted._get_status regressing).2) = nodes (self regressing).
Proof.
  assert (Hcall : get_experiment_status (project_name (self regressing))
                    (experiment_name (self regressing)) (plane regressing)
                  = (RESPONSE_SUCCESS, output "Status: provisioning",
                     mkScript [] [] [] [])) by (vm_compute; reflexivity).
  assert (Hst : status (self regressing) = EXPERIMENT_READY)
    by (vm_compute; reflexivity).
  assert (Hst' : status (self (Experiment._get_status get_experiment_manifests
                                 get_experiment_status decode_manifests
                                 regressing).2) = EXPERIMENT_PROVISIONING)
    by (vm_compute; reflexivity).
  pose proof (ExperimentClaims.registry_invariant terminate_experiment
                get_experiment_manifests get_experiment_status decode_manifests
                regressing _ _ _ Hcall) as H.
  cbv zeta in H. destruct H as (Hinv & (Hkeep & _) & _).
  destruct (Hinv (self regressing) reachable_ready_once) as [_ Hready].
  split; [exact Hcall|]. split; [exact reachable_ready_once|].
  split; [exact Hst|]. split; [exact (Hready Hst)|].
  unfold Scripted._get_status. split; [exact Hst'|].
  apply Hkeep. rewrite Hst'. apply elem_of_cons; left; reflexivity.
Defined.

(** C7: a reachable controller in Provisioning whose registry holds a
    node. *)
Lemma registry_invariant_counterexample :
  reachable (self regressed)
  /\ status (self regressed) = EXPERIMENT_PROVISIONING
  /\ status (self regressed) <> EXPERIMENT_READY
  /\ size (nodes (self regressed)) = 1
  /\ nodes (self regressed) <> ∅.
Proof.
  assert (Hst : status (self regressed) = EXPERIMENT_PROVISIONING)
    by (vm_compute; reflexivity).
  split; [exact reachable_regressed|].
  split; [exact Hst|]. split; [rewrite Hst; discriminate|].
  split; [exact regressed_registry|]. exact (sized_not_empty _ regressed_registry).
Qed.

(** C8, on a document with an entry without [client_id] and a well-formed
    entry, parsed over a registry that held another node. *)
Lemma parse_manifests_registry_witness :
  _manifests mixed_cache = Some [document [anonymous; node1]]
  /\ Forall Manifest.text_client_id
            (concat (map Manifest.node_entries [document [anonymous; node1]]))
  /\ is_Some (nodes mixed_cache !! "node-0")
  /\ nodes (parse_manifests mixed_cache)
     = Manifest.registry_of (Manifest.valid_nodes [document [anonymous; node1]])
  /\ (forall cid,
        is_Some (nodes (parse_manifests mixed_cache) !! cid)
        <-> exists n, (cid, n) ∈ Manifest.valid_nodes [document [anonymous; node1]]).
Proof.
  assert (Hms : _manifests mixed_cache = Some [document [anonymous; node1]])
    by reflexivity.
  assert (Hne : [document [anonymous; node1]] <> []) by discriminate.
  assert (Htext : Forall Manifest.text_client_id
                    (concat (map Manifest.node_entries
                                 [document [anonymous; node1]]))).
  { assert (Hl : concat (map Manifest.node_entries [document [anonymous; node1]])
                 = [anonymous; node1]) by (vm_compute; reflexivity).
    rewrite Hl.
    apply Forall_cons; split; [vm_compute; exact I|].
    apply Forall_cons; split; [vm_compute; exact I|]. apply Forall_nil_2. }
  pose proof (ExperimentClaims.parse_manifests_registry (CP := script) mixed_cache)
    as H.
  destruct H as (_ & H & _).
  destruct (H _ Hms Hne Htext) as (Hnodes & Hdom & _).
  split; [exact Hms|]. split; [exact Htext|].
  split; [vm_compute; eexists; reflexivity|].
  split; [exact Hnodes|exact Hdom].
Defined.

(** C8: with an empty list of cached manifests the registry is not
    reset: it is not the mapping of the valid entries of the list. *)
Lemma parse_manifests_registry_counterexample :
  _manifests emptied_cache = Some []
  /\ parse_manifests emptied_cache = emptied_cache
  /\ size (nodes (parse_manifests emptied_cache)) = 1
  /\ Manifest.registry_of (Manifest.valid_nodes []) = ∅
  /\ nodes (parse_manifests emptied_cache)
     <> Manifest.registry_of (Manifest.valid_nodes []).
Proof.
  assert (Hp : parse_manifests emptied_cache = emptied_cache) by reflexivity.
  assert (Hsize : size (nodes (parse_manifests emptied_cache)) = 1).
  { rewrite Hp. exact ready_once_registry. }
  split; [reflexivity|]. split; [exact Hp|]. split; [exact Hsize|].
  split; [reflexivity|]. exact (sized_not_empty _ Hsize).
Qed.

(** C10, on a status request that fails in transport: the state is
    Unknown, the registry and the cached manifests are kept. *)
Lemma get_status_frame_witness :
  get_experiment_status (project_name (self unreachable_plane))
                        (experiment_name (self unreachable_plane))
                        (plane unreachable_plane)
  = (RESPONSE_OTHER (-1), None, mkScript [] [] [] [])
  /\ reachable (self unreachable_plane)
  /\ status (self (Scripted._get_status unreachable_plane).2) = EXPERIMENT_UNKNOWN
  /\ nodes (self (Scripted._get_status unreachable_plane).2)
     = nodes (self unreachable_plane)
  /\ _manifests (self (Scripted._get_status unreachable_plane).2)
     = _manifests (self unreachable_plane)
  /\ nodes (self unreachable_plane) <> ∅.
Proof.
  assert (Hcall : get_experiment_status (project_name (self unreachable_plane))
                    (experiment_name (self unreachable_plane))
                    (plane unreachable_plane)
                  = (RESPONSE_OTHER (-1), None, mkScript [] [] [] []))
    by (vm_compute; reflexivity).
  assert (Hst : status (self (Experiment._get_status get_experiment_manifests
                                get_experiment_status decode_manifests
                                unreachable_plane).2) = EXPERIMENT_UNKNOWN)
    by (vm_compute; reflexivity).
  pose proof (ExperimentClaims.get_status_frame get_experiment_manifests
                get_experiment_status decode_manifests unreachable_plane _ _ _
                Hcall reachable_ready_once) as H.
  cbv zeta in H. destruct H as (Hunknown & _).
  destruct (Hunknown Hst) as [Hnodes Hman].
  split; [exact Hcall|]. split; [exact reachable_ready_once|].
  unfold Scripted._get_status.
  split; [exact Hst|]. split; [exact Hnodes|]. split; [exact Hman|].
  exact (sized_not_empty _ ready_once_registry).
Defined.

(** C10: a query that ends in Failed empties a registry that held a
    node, and one that ends in Ready drops the cached manifests; neither
    ends in Null. *)
Lemma get_status_frame_counterexample :
  (reachable (self hollow_again)
   /\ size (nodes (self hollow_again)) = 1
   /\ status (self (Scripted._get_status hollow_again).2) = EXPERIMENT_FAILED
   /\ nodes (self (Scripted._get_status hollow_again).2) = ∅)
  /\ (reachable (self lost_manifests)
      /\ is_Some (_manifests (self lost_manifests))
      /\ status (self (Scripted._get_status lost_manifests).2) = EXPERIMENT_READY
      /\ _manifests (self (Scripted._get_status lost_manifests).2) = None).
Proof.
  split.
  - split; [exact reachable_regressed|]. split; [exact regressed_registry|].
    split; vm_compute; reflexivity.
  - split; [exact reachable_regressed|].
    split; [vm_compute; eexists; reflexivity|].
    split; vm_compute; reflexivity.
Qed.

(** ** The session on scripted terminals *)

(** C4, on a terminal that answers end of stream and timeouts only. *)
Lemma open_transient_failures_witness :
  SSH.fails_transiently px_spawn px_expect session 4
    [SSH.Matched 5; SSH.Matched 6; SSH.Matched 5; SSH.Matched 6] []
  /\ SSH.attempts (SSH.trace (Scripted.open [SSH.Matched 5; SSH.Matched 6;
                                             SSH.Matched 5; SSH.Matched 6]).2) = 4
  /\ SSH.closes (SSH.trace (Scripted.open [SSH.Matched 5; SSH.Matched 6;
                                           SSH.Matched 5; SSH.Matched 6]).2) = 4
  /\ SSH.pauses (SSH.trace (Scripted.open [SSH.Matched 5; SSH.Matched 6;
                                           SSH.Matched 5; SSH.Matched 6]).2)
     = [2; 4; 8]
  /\ (Scripted.open [SSH.Matched 5; SSH.Matched 6; SSH.Matched 5; SSH.Matched 6]).1
     = Raise (ConnectionError
                "Could not connect via SSH to 10.0.0.1 after multiple retries").
Proof.
  assert (Hf : SSH.fails_transiently px_spawn px_expect
                 (SSH.self (at_terminal [SSH.Matched 5; SSH.Matched 6;
                                         SSH.Matched 5; SSH.Matched 6])) 4
                 (SSH.terminal (at_terminal [SSH.Matched 5; SSH.Matched 6;
                                             SSH.Matched 5; SSH.Matched 6])) []).
  { exists [SSH.Matched 5; SSH.Matched 6; SSH.Matched 5; SSH.Matched 6], 5,
      [SSH.Matched 6; SSH.Matched 5; SSH.Matched 6].
    split; [reflexivity|]. split; [reflexivity|]. split; [left; reflexivity|].
    exists [SSH.Matched 6; SSH.Matched 5; SSH.Matched 6], 6,
      [SSH.Matched 5; SSH.Matched 6].
    split; [reflexivity|]. split; [reflexivity|]. split; [right; reflexivity|].
    exists [SSH.Matched 5; SSH.Matched 6], 5, [SSH.Matched 6].
    split; [reflexivity|]. split; [reflexivity|]. split; [left; reflexivity|].
    exists [SSH.Matched 6], 6, [].
    split; [reflexivity|]. split; [reflexivity|]. split; [right; reflexivity|].
    reflexivity. }
  pose proof (SSHFacts.open_transient_failures px_spawn px_expect 4
                (at_terminal [SSH.Matched 5; SSH.Matched 6;
                              SSH.Matched 5; SSH.Matched 6]) [] Hf) as H.
  cbv zeta in H. destruct H as (_ & _ & _ & _ & Hraise).
  destruct Hraise as [t'' Hopen]; [vm_compute; lia|].
  split; [exact Hf|]. unfold Scripted.open. rewrite Hopen.
  repeat split; vm_compute; reflexivity.
Defined.

(** C4: one transient failure and then the prompt make two attempts, not
    one; and the error raised after four failures names the address but
    no count. *)
Lemma open_transient_failures_counterexample :
  (SSH.fails_transiently px_spawn px_expect session 1
     [SSH.Matched 5; SSH.Matched 0] [SSH.Matched 0]
   /\ (Scripted.open [SSH.Matched 5; SSH.Matched 0]).1 = Ok tt
   /\ SSH.attempts (SSH.trace (Scripted.open [SSH.Matched 5; SSH.Matched 0]).2) = 2
   /\ Nat.min 1 4 = 1)
  /\ (SSH.fails_transiently px_spawn px_expect session 4 [] []
      /\ (Scripted.open []).1
         = Raise (ConnectionError
                    "Could not connect via SSH to 10.0.0.1 after multiple retries")
      /\ PyStr.contains "4"
           "Could not connect via SSH to 10.0.0.1 after multiple retries" = false
      /\ PyStr.contains "four"
           "Could not connect via SSH to 10.0.0.1 after multiple retries" = false).
Proof.
  split.
  - split.
    { exists [SSH.Matched 5; SSH.Matched 0], 5, [SSH.Matched 0].
      split; [reflexivity|]. split; [reflexivity|]. split; [left; reflexivity|].
      reflexivity. }
    repeat split; vm_compute; reflexivity.
  - split.
    { do 4 (exists [], 6, []; split; [reflexivity|]; split; [reflexivity|];
            split; [right; reflexivity|]).
      reflexivity. }
    repeat split; vm_compute; reflexivity.
Qed.


(** C9, on an environment without [CERT]. *)
Lemma init_requires_key_witness :
  SSH.given ((∅ : gmap string string) !! "CERT") = false
  /\ (exists e, SSH.__init__ ∅ (fun _ => true) "10.0.0.1" (Some "alice")
                  SSH.DEFAULT_PROMPT = Raise e)
  /\ exists e, SSH.connect px_spawn px_expect ∅ (fun _ => true) "10.0.0.1"
                 (Some "alice") [SSH.Matched 0] = (Raise e, []).
Proof.
  assert (Hkey : SSH.given ((∅ : gmap string string) !! "CERT") = false)
    by reflexivity.
  destruct (SSHFacts.init_requires_key ∅ (fun _ => true) "10.0.0.1" (Some "alice")
              SSH.DEFAULT_PROMPT (or_introl Hkey)) as [Hinit Hconnect].
  split; [exact Hkey|]. split.
  - destruct Hinit as (e & He & _). exists e. exact He.
  - exact (Hconnect _ px_spawn px_expect [SSH.Matched 0]).
Defined.
End Scenarios.

Module ControllerFacts.
Import Manifest Experiment ExperimentFacts ManifestFacts Registry.

(** ** What every method keeps

    A property of the controller record that the four ways of writing
    to it keep is kept by every method. *)
Section Preserved.
Context {CP : Type}.
Variable start_experiment : string -> string -> string -> CP -> rcode * payload * CP.
Variable terminate_experiment : string -> string -> CP -> rcode * payload * CP.
Variable get_experiment_manifests : string -> string -> CP -> rcode * payload * CP.
Variable get_experiment_status : string -> string -> CP -> rcode * payload * CP.
Variable decode_manifests : string -> option (list pyval).

Variable P : PowderExperiment -> Prop.
Hypothesis P_status : forall v e, P e -> P (with_status v e).
Hypothesis P_manifests : forall v e, P e -> P (with_manifests v e).
Hypothesis P_cleared : forall e, P e -> P (cleared e).
Hypothesis P_parse : forall e, P e -> P (parse_manifests e).

Abbreviation load_manifests :=
  (load_manifests get_experiment_manifests decode_manifests).
Abbreviation _get_status :=
  (_get_status get_experiment_manifests get_experiment_status decode_manifests).
Abbreviation terminate := (terminate terminate_experiment).
Abbreviation reload_missing_nodes :=
  (reload_missing_nodes get_experiment_manifests decode_manifests).
Abbreviation polling_loop :=
  (polling_loop get_experiment_manifests get_experiment_status decode_manifests).
Abbreviation final_status_evaluation :=
  (final_status_evaluation get_experiment_manifests decode_manifests).
Abbreviation wait_for_ready :=
  (wait_for_ready get_experiment_manifests get_experiment_status decode_manifests).
Abbreviation start_then_wait :=
  (start_then_wait start_experiment get_experiment_manifests
                   get_experiment_status decode_manifests).
Abbreviation start_and_wait :=
  (start_and_wait start_experiment terminate_experiment get_experiment_manifests
                  get_experiment_status decode_manifests).

Lemma load_manifests_preserves (w : @world CP) :
  P (self w) -> P (self (load_manifests w).2).
Proof.
  intros HP.
  pose proof (load_manifests_run get_experiment_manifests decode_manifests w) as H.
  destruct (get_experiment_manifests _ _ _) as [[rval response] p'].
  rewrite H. clear H.
  destruct (decide _); cbn [snd self]; [by apply P_parse, P_manifests|].
  destruct response; cbn [snd self]; [by apply P_manifests|done].
Qed.

Lemma get_status_preserves (w : @world CP) :
  P (self w) -> P (self (_get_status w).2).
Proof.
  intros HP.
  pose proof (get_status_run get_experiment_manifests get_experiment_status
                decode_manifests w) as H.
  cbv zeta in H.
  destruct (get_experiment_status _ _ _) as [[rval response] p1].
  rewrite H. clear H.
  destruct (no_such_experiment _ _).
  { cbn [snd self]. case_decide; [done|by apply P_cleared]. }
  destruct (decide _); [|by apply P_status].
  destruct response as [d|]; [|done]. cbv zeta.
  destruct (_ && _); [|by apply P_status].
  match goal with
  | |- context [Experiment.load_manifests _ _ ?w1] =>
      pose proof (load_manifests_preserves w1 HP) as HP';
      destruct (load_manifests w1) as [r2 w2]
  end.
  cbn [snd self] in *. by apply P_status.
Qed.

Lemma terminate_preserves (w : @world CP) :
  P (self w) -> P (self (terminate w).2).
Proof.
  intros HP. pose proof (terminate_run terminate_experiment w) as H.
  cbv zeta in H.
  destruct (terminate_experiment _ _ _) as [[rval response] p'].
  rewrite H. case_decide; [by apply P_cleared|done].
Qed.

Lemma reload_preserves (w : @world CP) :
  P (self w) -> P (self (reload_missing_nodes w).2).
Proof.
  intros HP. rewrite reload_run. destruct (no_nodes (self w)); [|done].
  pose proof (load_manifests_preserves w HP) as HP'.
  destruct (load_manifests w) as [[[]|x] w2]; cbn [snd self] in *.
  - destruct (no_nodes (self w2)); [by apply P_status|done].
  - by apply P_status.
Qed.

Lemma polling_loop_preserves n : forall (w : @world CP),
  P (self w) -> P (self (polling_loop n w).2).
Proof.
  induction n as [|n IH]; intros w HP; rewrite polling_loop_run;
    case_bool_decide; try done.
  match goal with
  | |- context [Experiment._get_status _ _ _ ?w1] =>
      pose proof (get_status_preserves w1 HP) as HP';
      destruct (_get_status w1) as [[[]|x] w2]
  end; cbn [snd] in *; [by apply IH|done].
Qed.

Lemma final_preserves (w : @world CP) :
  P (self w) -> P (self (final_status_evaluation w).2).
Proof.
  intros HP. rewrite final_run.
  case_decide; [by apply reload_preserves|].
  case_decide; [done|]. by apply P_status.
Qed.

Lemma wait_for_ready_preserves (w : @world CP) :
  P (self w) -> P (self (wait_for_ready w).2).
Proof.
  intros HP. rewrite wait_for_ready_run.
  pose proof (polling_loop_preserves _poll_count_max w HP) as HP'.
  destruct (polling_loop _ w) as [[[]|x] w1]; cbn [snd] in *; [|done].
  by apply final_preserves.
Qed.

Lemma start_then_wait_preserves (w : @world CP) :
  P (self w) -> P (self (start_then_wait w).2).
Proof.
  intros HP. rewrite start_then_wait_run.
  case_bool_decide; [|by apply wait_for_ready_preserves].
  destruct (start_experiment _ _ _ _) as [[rval response] p2]. cbv zeta.
  case_decide; [|by apply P_status].
  match goal with
  | |- context [Experiment._get_status _ _ _ ?w3] =>
      pose proof (get_status_preserves w3 HP) as HP';
      destruct (_get_status w3) as [[[]|x] w4]
  end; cbn [snd] in *; [|done].
  case_decide; [done|by apply wait_for_ready_preserves].
Qed.

Lemma start_and_wait_preserves (w : @world CP) :
  P (self w) -> P (self (start_and_wait w).2).
Proof.
  intros HP. rewrite start_and_wait_run.
  pose proof (get_status_preserves w HP) as HP'.
  destruct (_get_status w) as [[[]|x] w0]; cbn [snd] in *; [|done].
  case_decide; [by apply reload_preserves|].
  case_decide; [|by apply start_then_wait_preserves].
  by apply start_then_wait_preserves, terminate_preserves.
Qed.

Lemma check_status_run (w : @world CP) :
  check_status get_experiment_manifests get_experiment_status decode_manifests w
  = match _get_status w with
    | (Ok _, w') => (Ok (status (self w')), w')
    | (Raise e, w') => (Raise e, w')
    end.
Proof.
  unfold check_status. rewrite bind_run.
  by destruct (_get_status w) as [[[]|x] w'].
Qed.

Lemma run_preserves op (w : @world CP) :
  P (self w) ->
  P (self (run start_experiment terminate_experiment get_experiment_manifests
               get_experiment_status decode_manifests op w).2).
Proof.
  intros HP. destruct op; cbn [run].
  - rewrite check_status_run. pose proof (get_status_preserves w HP) as HP'.
    by destruct (_get_status w) as [[[]|x] w'].
  - by apply start_and_wait_preserves.
  - by apply terminate_preserves.
Qed.
End Preserved.

Lemma reachable_preserved (P : PowderExperiment -> Prop) :
  (forall v e, P e -> P (with_status v e)) ->
  (forall v e, P e -> P (with_manifests v e)) ->
  (forall e, P e -> P (cleared e)) ->
  (forall e, P e -> P (parse_manifests e)) ->
  (forall name project profile e, __init__ name project profile = Ok e -> P e) ->
  forall e, reachable e -> P e.
Proof.
  intros H1 H2 H3 H4 Hinit e Hr.
  induction Hr as [name project profile e He|CP st tm mf gs dec op w Hr IH].
  - by eapply Hinit.
  - by apply run_preserves.
Qed.

(** *** The names *)

Lemma init_ok name project profile e :
  __init__ name project profile = Ok e <->
  String.length name <= MAX_NAME_LENGTH
  /\ e = mkExperiment name project profile EXPERIMENT_NOT_STARTED ∅ None.
Proof.
  unfold __init__.
  destruct (Nat.ltb_spec MAX_NAME_LENGTH (String.length name)) as [Hlt|Hle].
  - split; [done|]. intros [? _]. lia.
  - split; [intros [= <-]; done|]. by intros [_ ->].
Qed.

Lemma parse_manifests_names e :
  experiment_name (parse_manifests e) = experiment_name e
  /\ project_name (parse_manifests e) = project_name e
  /\ profile_name (parse_manifests e) = profile_name e.
Proof. unfold parse_manifests. by repeat case_match. Qed.

(** X1.  The experiment, project and profile names given to the
    constructor are never changed: after any public method, against any
    control plane, they are what they were.  The constructor accepts a
    name exactly when it has at most 16 characters, so the name of every
    reachable controller has at most 16. *)
Theorem names_are_fixed :
  (forall (CP : Type) start_experiment terminate_experiment
          get_experiment_manifests get_experiment_status decode_manifests
          op (w : @world CP),
      let e' := self (run start_experiment terminate_experiment
                          get_experiment_manifests get_experiment_status
                          decode_manifests op w).2 in
      experiment_name e' = experiment_name (self w)
      /\ project_name e' = project_name (self w)
      /\ profile_name e' = profile_name (self w))
  /\ (forall name project profile,
        (exists e, __init__ name project profile = Ok e)
        <-> String.length name <= MAX_NAME_LENGTH)
  /\ (forall e, reachable e -> String.length (experiment_name e) <= MAX_NAME_LENGTH).
Proof.
  split; [|split].
  - intros CP st tm mf gs dec op w. cbv zeta.
    apply (run_preserves st tm mf gs dec
             (fun e => experiment_name e = experiment_name (self w)
                       /\ project_name e = project_name (self w)
                       /\ profile_name e = profile_name (self w)));
      try done.
    intros e He. by destruct (parse_manifests_names e) as (-> & -> & ->).
  - intros name project profile. split.
    + intros [e He]. by apply init_ok in He as [? _].
    + intros Hle. eexists. apply init_ok. eauto.
  - apply (reachable_preserved
             (fun e => String.length (experiment_name e) <= MAX_NAME_LENGTH));
      try done.
    + intros e He. by destruct (parse_manifests_names e) as (-> & _).
    + intros name project profile e He. by apply init_ok in He as [? ->].
Qed.

(** *** The registry *)

Lemma well_formed_empty : well_formed ∅.
Proof. apply map_Forall_empty. Qed.

Lemma parse_node_entry_well_formed entry nodes nodes' :
  well_formed nodes -> parse_node_entry entry nodes = Ok nodes' ->
  well_formed nodes'.
Proof.
  intros Hwf. unfold parse_node_entry.
  destruct entry as [| | |e]; try (by (intros [= ?]; subst)).
  cbv zeta.
  destruct (truthy (py_get "@client_id" e)) eqn:Hcid; cbn [negb];
    [|by (intros [= ?]; subst)].
  match goal with
  | |- context [negb (truthy ?hd)] => generalize hd; intros host_dict
  end.
  destruct (truthy host_dict); cbn [negb]; [|by (intros [= ?]; subst)].
  destruct host_dict as [| | |h]; try done.
  destruct (truthy (py_get "@name" h)) eqn:Hname; cbn [negb orb];
    [|by (intros [= ?]; subst)].
  destruct (truthy (py_get "@ipv4" h)) eqn:Hip; cbn [negb];
    [|by (intros [= ?]; subst)].
  destruct (py_get "@client_id" e) as [|s| |]; try done.
  intros [= ?]; subst. apply map_Forall_insert_2; [|done].
  repeat split; try done. cbn in Hcid. by apply negb_true_iff in Hcid.
Qed.

Lemma parse_node_entries_well_formed entries : forall nodes,
  well_formed nodes -> well_formed (parse_node_entries entries nodes).2.
Proof.
  induction entries as [|entry entries IH]; intros nodes Hwf; [done|].
  cbn [parse_node_entries].
  destruct (parse_node_entry entry nodes) as [nodes'|x] eqn:Hentry; [|done].
  apply IH. by eapply parse_node_entry_well_formed.
Qed.

Lemma parse_manifest_well_formed manifest nodes :
  well_formed nodes -> well_formed (Manifest.parse_manifest nodes manifest).
Proof.
  intros Hwf. unfold Manifest.parse_manifest, parse_manifest_body.
  destruct manifest as [| | |m]; try done.
  destruct (truthy (py_get "rspec" m)); cbn [negb]; [|done].
  destruct (py_get "rspec" m) as [| | |r]; try done.
  destruct (truthy (py_get "node" r)); cbn [negb]; [|done].
  by apply parse_node_entries_well_formed.
Qed.

Lemma parse_all_well_formed manifests : forall nodes,
  well_formed nodes -> well_formed (Manifest.parse_all manifests nodes).
Proof.
  unfold Manifest.parse_all.
  induction manifests as [|m ms IH]; intros nodes Hwf; [done|].
  cbn [foldl]. by apply IH, parse_manifest_well_formed.
Qed.

(** X2.  In every reachable controller, every entry of the registry is
    filed under the client identifier of its node, the identifier is
    not empty, and the node has a non-empty address and hostname;
    [_parse_manifests] gives such a registry whatever the documents
    hold. *)
Theorem registry_well_formed (e : PowderExperiment) :
  reachable e ->
  well_formed (nodes e)
  /\ (forall cid n,
        nodes e !! cid = Some n ->
        client_id n = cid /\ cid <> ""
        /\ truthy (ip_address n) = true /\ truthy (hostname n) = true)
  /\ forall documents, well_formed (Manifest.parse_all documents ∅).
Proof.
  intros Hr.
  assert (Hwf : well_formed (nodes e)).
  { revert e Hr. apply (reachable_preserved (fun e => well_formed (nodes e))).
    - done.
    - done.
    - intros e _. apply well_formed_empty.
    - intros e Hwf. unfold parse_manifests.
      destruct (_manifests e) as [[|m ms]|]; try done.
      cbn [nodes with_nodes]. apply parse_all_well_formed, well_formed_empty.
    - intros name project profile e He. apply init_ok in He as [_ ->].
      apply well_formed_empty. }
  split; [done|]. split.
  - intros cid n Hn. destruct (Hwf cid n Hn) as (H1 & H2 & H3 & H4).
    repeat split; try done. intros ->. done.
  - intros documents. apply parse_all_well_formed, well_formed_empty.
Qed.
End ControllerFacts.

Module ControllerRequests.
Import Experiment ExperimentFacts ControllerFacts Requests.

Ltac budget :=
  change _poll_count_max with 90 in *;
  intros []; repeat case_bool_decide; try done; cbn; lia.

Ltac tally := repeat case_bool_decide; try done; lia.

Lemma within_refl b tr : within b tr tr.
Proof. intros m. lia. Qed.

Lemma within_trans b1 b2 tr1 tr2 tr3 :
  within b1 tr1 tr2 -> within b2 tr2 tr3 ->
  within (fun m => b1 m + b2 m) tr1 tr3.
Proof. intros H1 H2 m. specialize (H1 m). specialize (H2 m). lia. Qed.

Lemma within_weaken b b' tr tr' :
  (forall m, b m <= b' m) -> within b tr tr' -> within b' tr tr'.
Proof. intros Hb H m. specialize (H m). specialize (Hb m). lia. Qed.

Lemma within_sleep b tr tr' n : within b (tr ++ [Slept n]) tr' -> within b tr tr'.
Proof.
  intros H m. specialize (H m). rewrite calls_app in H. cbn in H. lia.
Qed.

Lemma calls_one m m' rv rs :
  calls m [Called m' rv rs] = if bool_decide (m' = m) then 1 else 0.
Proof. unfold calls. cbn. by case_bool_decide. Qed.

Lemma within_call m0 tr rv rs :
  within (fun m => if bool_decide (m0 = m) then 1 else 0) tr
         (tr ++ [Called m0 rv rs]).
Proof.
  intros m. rewrite calls_app, calls_one. case_bool_decide; lia.
Qed.

Section Requests.
Context {CP : Type}.
Variable start_experiment : string -> string -> string -> CP -> rcode * payload * CP.
Variable terminate_experiment : string -> string -> CP -> rcode * payload * CP.
Variable get_experiment_manifests : string -> string -> CP -> rcode * payload * CP.
Variable get_experiment_status : string -> string -> CP -> rcode * payload * CP.
Variable decode_manifests : string -> option (list pyval).

Abbreviation _get_manifests := (_get_manifests get_experiment_manifests decode_manifests).
Abbreviation load_manifests :=
  (load_manifests get_experiment_manifests decode_manifests).
Abbreviation _get_status :=
  (_get_status get_experiment_manifests get_experiment_status decode_manifests).
Abbreviation check_status :=
  (check_status get_experiment_manifests get_experiment_status decode_manifests).
Abbreviation terminate := (terminate terminate_experiment).
Abbreviation reload_missing_nodes :=
  (reload_missing_nodes get_experiment_manifests decode_manifests).
Abbreviation polling_loop :=
  (polling_loop get_experiment_manifests get_experiment_status decode_manifests).
Abbreviation final_status_evaluation :=
  (final_status_evaluation get_experiment_manifests decode_manifests).
Abbreviation wait_for_ready :=
  (wait_for_ready get_experiment_manifests get_experiment_status decode_manifests).
Abbreviation start_then_wait :=
  (start_then_wait start_experiment get_experiment_manifests
                   get_experiment_status decode_manifests).
Abbreviation start_and_wait :=
  (start_and_wait start_experiment terminate_experiment get_experiment_manifests
                  get_experiment_status decode_manifests).

(** *** One status request *)

Lemma get_status_result (w : @world CP) rval response p1 :
  get_experiment_status (project_name (self w)) (experiment_name (self w))
                        (plane w) = (rval, response, p1) ->
  (rval = RESPONSE_SUCCESS /\ response = None ->
   _get_status w
   = (Raise AttributeError,
      mkWorld (self w) p1 (trace w ++ [Called GetExperimentStatus rval response])))
  /\ (~ (rval = RESPONSE_SUCCESS /\ response = None) -> (_get_status w).1 = Ok tt).
Proof.
  intros Hcall.
  pose proof (get_status_run get_experiment_manifests get_experiment_status
                decode_manifests w) as H.
  cbv zeta in H. rewrite Hcall in H. rewrite H. clear H. split.
  - intros [-> ->]. done.
  - intros Hn. destruct (no_such_experiment _ _); [done|].
    destruct (decide _) as [->|]; [|done].
    destruct response as [d|]; [|by destruct Hn].
    cbv zeta. destruct (_ && _); [|done].
    by destruct (load_manifests _).
Qed.

Lemma get_status_within (w : @world CP) :
  within (queries 1 1) (trace w) (trace (_get_status w).2)
  /\ calls GetExperimentStatus (trace (_get_status w).2)
     = calls GetExperimentStatus (trace w) + 1.
Proof.
  pose proof (get_status_trace get_experiment_manifests get_experiment_status
                decode_manifests w) as H.
  destruct (get_experiment_status _ _ _) as [[rval response] p1].
  destruct H as (extra & -> & Hx).
  change (Called GetExperimentStatus rval response :: extra)
    with ([Called GetExperimentStatus rval response] ++ extra).
  split.
  - intros m. rewrite !calls_app, calls_one.
    destruct Hx as [->|(rv & rs & ->)]; [|rewrite calls_one];
      destruct m; repeat case_bool_decide; try done; cbn; lia.
  - rewrite !calls_app, calls_one.
    destruct Hx as [->|(rv & rs & ->)]; [|rewrite calls_one];
      repeat case_bool_decide; try done; cbn; lia.
Qed.

(** X3.  [check_status] sends exactly one status request, after it at
    most one manifest request, nothing else, and does not sleep.  It
    raises [AttributeError] exactly when the answer is a success
    without a payload, and the controller is then as it was; otherwise
    it returns the status it has stored. *)
Theorem check_status_requests (w : @world CP) rval response p1 :
  get_experiment_status (project_name (self w)) (experiment_name (self w))
                        (plane w) = (rval, response, p1) ->
  let r := (check_status w).1 in
  let w' := (check_status w).2 in
  (exists extra,
      trace w' = trace w ++ Called GetExperimentStatus rval response :: extra
      /\ (extra = [] \/ exists rv rs, extra = [Called GetExperimentManifests rv rs]))
  /\ calls GetExperimentStatus (trace w') = calls GetExperimentStatus (trace w) + 1
  /\ calls StartExperiment (trace w') = calls StartExperiment (trace w)
  /\ calls TerminateExperiment (trace w') = calls TerminateExperiment (trace w)
  /\ slept (trace w') = slept (trace w)
  /\ (rval = RESPONSE_SUCCESS /\ response = None ->
      r = Raise AttributeError /\ self w' = self w)
  /\ (~ (rval = RESPONSE_SUCCESS /\ response = None) -> r = Ok (status (self w'))).
Proof.
  intros Hcall. cbv zeta.
  assert (Hw : (check_status w).2 = (_get_status w).2).
  { rewrite check_status_run. by destruct (_get_status w) as [[[]|x] w']. }
  rewrite Hw.
  destruct (get_status_within w) as [Hq Hs].
  destruct (get_status_quiet get_experiment_manifests get_experiment_status
              decode_manifests w) as [_ Hsl].
  destruct (get_status_result w _ _ _ Hcall) as [Hraise Hok].
  pose proof (get_status_trace get_experiment_manifests get_experiment_status
                decode_manifests w) as Ht.
  rewrite Hcall in Ht.
  split; [exact Ht|]. split; [exact Hs|].
  split; [specialize (Hq StartExperiment); cbn [queries start_and_wait_budget] in Hq; tally|].
  split; [specialize (Hq TerminateExperiment); cbn [queries start_and_wait_budget] in Hq; tally|].
  split; [exact Hsl|]. split.
  - intros Hn. rewrite check_status_run, (Hraise Hn). done.
  - intros Hn. specialize (Hok Hn). rewrite check_status_run.
    destruct (_get_status w) as [[[]|x] w']; [done|discriminate Hok].
Qed.

(** *** The manifest request *)

Lemma get_manifests_run (w : @world CP) rval response p' :
  get_experiment_manifests (project_name (self w)) (experiment_name (self w))
                           (plane w) = (rval, response, p') ->
  let tr' := trace w ++ [Called GetExperimentManifests rval response] in
  _get_manifests w =
    if decide (rval = RESPONSE_SUCCESS) then
      (Ok tt, mkWorld (with_manifests (cached_manifests decode_manifests response)
                                      (self w)) p' tr')
    else
      match response with
      | None => (Raise AttributeError, mkWorld (self w) p' tr')
      | Some _ => (Ok tt, mkWorld (with_manifests None (self w)) p' tr')
      end.
Proof.
  intros Hcall. unfold Experiment._get_manifests. unfold_m. cbn [self plane trace].
  rewrite Hcall. destruct (decide _); [done|]. by destruct response.
Qed.

(** X4.  [_get_manifests] sends exactly one manifest request and never
    touches the status or the registry.  On success it caches what the
    output decodes to ([None] when there is no output or it does not
    decode); on any other result with a payload it drops the cache;
    on one without a payload it raises [AttributeError] and keeps the
    cache it had.  The chained [_parse_manifests] then gives the parse
    of the new cache when that holds a document, and leaves the
    registry it found in every other case. *)
Theorem get_manifests_effect (w : @world CP) rval response p' :
  get_experiment_manifests (project_name (self w)) (experiment_name (self w))
                           (plane w) = (rval, response, p') ->
  let r := (_get_manifests w).1 in
  let w' := (_get_manifests w).2 in
  trace w' = trace w ++ [Called GetExperimentManifests rval response]
  /\ plane w' = p'
  /\ status (self w') = status (self w)
  /\ nodes (self w') = nodes (self w)
  /\ (rval = RESPONSE_SUCCESS ->
      r = Ok tt
      /\ _manifests (self w') = cached_manifests decode_manifests response)
  /\ (rval <> RESPONSE_SUCCESS -> is_Some response ->
      r = Ok tt /\ _manifests (self w') = None)
  /\ (rval <> RESPONSE_SUCCESS -> response = None ->
      r = Raise AttributeError /\ self w' = self w)
  /\ trace (load_manifests w).2 = trace w'
  /\ _manifests (self (load_manifests w).2) = _manifests (self w')
  /\ nodes (self (load_manifests w).2)
     = match r, _manifests (self w') with
       | Ok _, Some (m :: ms) => Manifest.parse_all (m :: ms) ∅
       | _, _ => nodes (self w)
       end.
Proof.
  intros Hcall. cbv zeta.
  pose proof (get_manifests_run w _ _ _ Hcall) as Hrun. cbv zeta in Hrun.
  assert (Hload : load_manifests w
            = match _get_manifests w with
              | (Ok _, w1) => (Ok tt, mkWorld (parse_manifests (self w1))
                                              (plane w1) (trace w1))
              | (Raise e, w1) => (Raise e, w1)
              end).
  { unfold Experiment.load_manifests. rewrite bind_run.
    by destruct (_get_manifests w) as [[[]|x] w1]. }
  rewrite Hload, Hrun. clear Hload Hrun.
  destruct (decide (rval = RESPONSE_SUCCESS)) as [Hrv|Hrv].
  - cbn [fst snd self plane trace status nodes _manifests with_manifests].
    do 4 (split; [done|]). split; [done|]. split; [done|]. split; [done|].
    split; [done|]. split.
    + unfold parse_manifests. cbn [_manifests with_manifests].
      by destruct (cached_manifests decode_manifests response) as [[|m ms]|].
    + unfold parse_manifests. cbn [_manifests with_manifests].
      by destruct (cached_manifests decode_manifests response) as [[|m ms]|].
  - destruct response as [d|];
      cbn [fst snd self plane trace status nodes _manifests with_manifests].
    + do 4 (split; [done|]). split; [done|]. split; [done|].
      split; [done|]. done.
    + do 4 (split; [done|]). split; [done|].
      split; [by intros _ [? ?]|]. split; [done|]. done.
Qed.

(** *** The polling loop *)

(** The requests of the polling loop: within [k] of each kind, for some
    [k] up to the bound. *)
Lemma polling_loop_within (n : nat) (w : @world CP) :
  exists k,
    k <= n /\ within (queries k k) (trace w) (trace (polling_loop n w).2).
Proof.
  revert w. induction n as [|n IH]; intros w; rewrite polling_loop_run.
  - exists 0. case_bool_decide; cbn [snd]; (split; [lia|apply within_refl]).
  - case_bool_decide as Hin.
    2:{ exists 0. cbn [snd]. split; [lia|apply within_refl]. }
    match goal with
    | |- context [Experiment._get_status _ _ _ ?w1] =>
        pose proof (get_status_within w1) as [Hq _];
        destruct (_get_status w1) as [[[]|x] w2]
    end; cbn [snd trace] in Hq; apply within_sleep in Hq.
    + destruct (IH w2) as (k & Hk & Hqk).
      exists (S k). split; [lia|].
      eapply within_weaken; [|exact (within_trans _ _ _ _ _ Hq Hqk)].
      budget.
    + exists 1. cbn [snd]. split; [lia|exact Hq].
Qed.

(** X7.  The polling loop makes [k] polls for some [k] up to the bound
    it is given: each poll is one sleep of [POLL_INTERVAL_S] seconds
    followed by one status request, so the seconds slept and the status
    requests sent are counted by [k].  It does nothing in a state that
    is not a polling state, and when it ends normally before the bound
    it has left the polling states. *)
Theorem polling_loop_pacing (n : nat) (w : @world CP) :
  let w' := (polling_loop n w).2 in
  exists k,
    k <= n
    /\ polls (trace w') = polls (trace w) + k
    /\ slept (trace w') = slept (trace w) + k * POLL_INTERVAL_S
    /\ calls GetExperimentStatus (trace w')
       = calls GetExperimentStatus (trace w) + k
    /\ within (queries k k) (trace w) (trace w')
    /\ ((polling_loop n w).1 = Ok tt -> k < n ->
        status (self w') ∉ polling_states)
    /\ (status (self w) ∉ polling_states -> polling_loop n w = (Ok tt, w)).
Proof.
  cbv zeta. revert w. induction n as [|n IH]; intros w; rewrite polling_loop_run.
  - exists 0. case_bool_decide; cbn [fst snd];
      (split; [lia|]); (split; [lia|]); (split; [lia|]); (split; [lia|]);
      (split; [apply within_refl|]); (split; [intros; lia|done]).
  - case_bool_decide as Hin.
    2:{ exists 0. cbn [fst snd].
        (split; [lia|]); (split; [lia|]); (split; [lia|]); (split; [lia|]);
        (split; [apply within_refl|]); split; done. }
    match goal with
    | |- context [Experiment._get_status _ _ _ ?w1] =>
        pose proof (get_status_quiet get_experiment_manifests
                      get_experiment_status decode_manifests w1) as [Hp Hs];
        pose proof (get_status_within w1) as [Hq Hc];
        destruct (_get_status w1) as [[[]|x] w2]
    end; cbn [snd trace] in Hp, Hs, Hq, Hc;
      rewrite polls_app in Hp; rewrite slept_app in Hs;
      rewrite calls_app in Hc; apply within_sleep in Hq; cbn in Hp, Hs, Hc.
    + destruct (IH w2) as (k & Hk & Hpk & Hsk & Hck & Hqk & Hend & _).
      exists (S k). split; [lia|]. split; [lia|].
      split; [unfold POLL_INTERVAL_S in *; lia|]. split; [lia|].
      split.
      { eapply within_weaken; [|exact (within_trans _ _ _ _ _ Hq Hqk)].
        budget. }
      split; [|done]. intros Hok Hlt. apply Hend; [done|lia].
    + exists 1. cbn [fst snd]. split; [lia|]. split; [lia|].
      split; [unfold POLL_INTERVAL_S in *; lia|]. split; [lia|].
      split; [exact Hq|]. split; done.
Qed.

(** *** The requests of [start_and_wait] *)

Lemma load_manifests_within (w : @world CP) :
  within (queries 0 1) (trace w) (trace (load_manifests w).2).
Proof.
  destruct (load_manifests_trace get_experiment_manifests decode_manifests w)
    as (rv & rs & ->).
  eapply within_weaken; [|apply within_call]. budget.
Qed.

Lemma reload_within (w : @world CP) :
  within (queries 0 1) (trace w) (trace (reload_missing_nodes w).2).
Proof.
  rewrite reload_run. destruct (no_nodes _); [|apply within_refl].
  pose proof (load_manifests_within w) as H.
  by destruct (load_manifests w) as [r2 w2].
Qed.

Lemma final_within (w : @world CP) :
  within (queries 0 1) (trace w) (trace (final_status_evaluation w).2).
Proof.
  rewrite final_run. repeat case_decide; try apply within_refl.
  apply reload_within.
Qed.

Lemma terminate_within (w : @world CP) :
  within (fun m => if bool_decide (TerminateExperiment = m) then 1 else 0)
         (trace w) (trace (terminate w).2).
Proof.
  pose proof (terminate_run terminate_experiment w) as H. cbv zeta in H.
  destruct (terminate_experiment _ _ _) as [[rval response] p'].
  rewrite H. case_decide; apply within_call.
Qed.

Lemma wait_for_ready_within (w : @world CP) :
  within (queries _poll_count_max (1 + _poll_count_max))
         (trace w) (trace (wait_for_ready w).2).
Proof.
  rewrite wait_for_ready_run.
  destruct (polling_loop_within _poll_count_max w) as (k & Hk & Hq).
  destruct (polling_loop _ w) as [[[]|x] w1]; cbn [snd] in *.
  - eapply within_weaken; [|exact (within_trans _ _ _ _ _ Hq (final_within w1))].
    budget.
  - eapply within_weaken; [|exact Hq]. budget.
Qed.

Lemma start_then_wait_within (w : @world CP) :
  within (fun m => match m with
                   | StartExperiment => 1
                   | TerminateExperiment => 0
                   | GetExperimentStatus => 1 + _poll_count_max
                   | GetExperimentManifests => 2 + _poll_count_max
                   end) (trace w) (trace (start_then_wait w).2)
  /\ (status (self w) ∈ [EXPERIMENT_PROVISIONING; EXPERIMENT_PROVISIONED] ->
      calls StartExperiment (trace (start_then_wait w).2)
      = calls StartExperiment (trace w))
  /\ (status (self w) ∉ [EXPERIMENT_PROVISIONING; EXPERIMENT_PROVISIONED] ->
      calls StartExperiment (trace (start_then_wait w).2)
      = calls StartExperiment (trace w) + 1).
Proof.
  rewrite start_then_wait_run. case_bool_decide as Hst.
  2:{ pose proof (wait_for_ready_within w) as Hq.
      split; [|split].
      - eapply within_weaken; [|exact Hq]. budget.
      - intros _. specialize (Hq StartExperiment). cbn [queries start_and_wait_budget] in Hq. tally.
      - intros Hn. destruct (Hn Hst). }
  destruct (start_experiment _ _ _ _) as [[rval response] p2]. cbv zeta.
  pose proof (within_call StartExperiment (trace w) rval response) as Hcall.
  assert (Hgoal : forall tr',
            within (queries (1 + _poll_count_max) (2 + _poll_count_max))
                   (trace w ++ [Called StartExperiment rval response]) tr' ->
            within (fun m => match m with
                   | StartExperiment => 1
                   | TerminateExperiment => 0
                   | GetExperimentStatus => 1 + _poll_count_max
                   | GetExperimentManifests => 2 + _poll_count_max
                   end) (trace w) tr'
            /\ calls StartExperiment tr' = calls StartExperiment (trace w) + 1).
  { intros tr' Hq. split.
    - eapply within_weaken; [|exact (within_trans _ _ _ _ _ Hcall Hq)].
      budget.
    - specialize (Hq StartExperiment). rewrite calls_app, calls_one in Hq.
      cbn [queries start_and_wait_budget] in Hq. tally. }
  assert (Hdone : forall tr',
            within (queries (1 + _poll_count_max) (2 + _poll_count_max))
                   (trace w ++ [Called StartExperiment rval response]) tr' ->
            within (fun m => match m with
                   | StartExperiment => 1
                   | TerminateExperiment => 0
                   | GetExperimentStatus => 1 + _poll_count_max
                   | GetExperimentManifests => 2 + _poll_count_max
                   end) (trace w) tr'
            /\ (status (self w) ∈ [EXPERIMENT_PROVISIONING; EXPERIMENT_PROVISIONED] ->
                calls StartExperiment tr' = calls StartExperiment (trace w))
            /\ (status (self w) ∉ [EXPERIMENT_PROVISIONING; EXPERIMENT_PROVISIONED] ->
                calls StartExperiment tr' = calls StartExperiment (trace w) + 1)).
  { intros tr' Hq. destruct (Hgoal tr' Hq) as [H1 H2].
    split; [exact H1|]. split; [intros Hin; by destruct Hst|by intros _]. }
  case_decide.
  - match goal with
    | |- context [Experiment._get_status _ _ _ ?w3] =>
        pose proof (get_status_within w3) as [Hq _];
        destruct (_get_status w3) as [[[]|x] w4]
    end; cbn [snd trace] in Hq; apply within_sleep in Hq.
    + case_decide.
      * cbn [snd]. apply Hdone. eapply within_weaken; [|exact Hq].
        budget.
      * apply Hdone.
        eapply within_weaken;
          [|exact (within_trans _ _ _ _ _ Hq (wait_for_ready_within w4))].
        budget.
    + cbn [snd]. apply Hdone. eapply within_weaken; [|exact Hq].
      budget.
  - cbn [snd trace]. apply Hdone. intros m. lia.
Qed.

(** X6.  [start_and_wait] sends at most one start request, at most one
    terminate request, at most 92 status requests (the first check,
    one after the start, one per poll) and at most 93 manifest
    requests, and at least the status request of the first check.  It
    sends a terminate request only when the first check ends in
    Failed, and no start request when that check raises or ends in
    Ready, Provisioning or Provisioned; in every other case it sends
    exactly one start request. *)
Theorem start_and_wait_requests (w : @world CP) :
  let first := _get_status w in
  let tr := trace w in
  let tr' := trace (start_and_wait w).2 in
  within start_and_wait_budget tr tr'
  /\ calls StartExperiment tr' <= calls StartExperiment tr + 1
  /\ calls TerminateExperiment tr' <= calls TerminateExperiment tr + 1
  /\ calls GetExperimentStatus tr <  calls GetExperimentStatus tr'
  /\ calls GetExperimentStatus tr' <= calls GetExperimentStatus tr + 92
  /\ calls GetExperimentManifests tr' <= calls GetExperimentManifests tr + 93
  /\ (status (self first.2) <> EXPERIMENT_FAILED ->
      calls TerminateExperiment tr' = calls TerminateExperiment tr)
  /\ (first.1 = Ok tt -> status (self first.2) = EXPERIMENT_FAILED ->
      calls TerminateExperiment tr' = calls TerminateExperiment tr + 1)
  /\ (first.1 <> Ok tt
      \/ status (self first.2) ∈ [EXPERIMENT_READY; EXPERIMENT_PROVISIONING;
                                  EXPERIMENT_PROVISIONED] ->
      calls StartExperiment tr' = calls StartExperiment tr)
  /\ (first.1 = Ok tt ->
      status (self first.2) ∉ [EXPERIMENT_READY; EXPERIMENT_PROVISIONING;
                               EXPERIMENT_PROVISIONED] ->
      calls StartExperiment tr' = calls StartExperiment tr + 1).
Proof.
  cbv zeta.
  assert (Hmain :
    within start_and_wait_budget (trace w) (trace (start_and_wait w).2)
    /\ calls GetExperimentStatus (trace w)
       < calls GetExperimentStatus (trace (start_and_wait w).2)
    /\ (status (self (_get_status w).2) <> EXPERIMENT_FAILED ->
        calls TerminateExperiment (trace (start_and_wait w).2)
        = calls TerminateExperiment (trace w))
    /\ ((_get_status w).1 = Ok tt ->
        status (self (_get_status w).2) = EXPERIMENT_FAILED ->
        calls TerminateExperiment (trace (start_and_wait w).2)
        = calls TerminateExperiment (trace w) + 1)
    /\ ((_get_status w).1 <> Ok tt
        \/ status (self (_get_status w).2)
           ∈ [EXPERIMENT_READY; EXPERIMENT_PROVISIONING; EXPERIMENT_PROVISIONED] ->
        calls StartExperiment (trace (start_and_wait w).2)
        = calls StartExperiment (trace w))
    /\ ((_get_status w).1 = Ok tt ->
        status (self (_get_status w).2)
        ∉ [EXPERIMENT_READY; EXPERIMENT_PROVISIONING; EXPERIMENT_PROVISIONED] ->
        calls StartExperiment (trace (start_and_wait w).2)
        = calls StartExperiment (trace w) + 1)).
  { rewrite start_and_wait_run.
    destruct (get_status_within w) as [Hq Hc].
    destruct (_get_status w) as [[[]|x] w0]; cbn [fst snd] in *.
    2:{ split; [eapply within_weaken; [|exact Hq]; budget|].
        split; [lia|].
        split; [intros _; specialize (Hq TerminateExperiment); cbn [queries start_and_wait_budget] in Hq; tally|].
        split; [done|].
        split; [intros _; specialize (Hq StartExperiment); cbn [queries start_and_wait_budget] in Hq; tally|done]. }
    assert (Hin : forall st : Status,
              st ∈ [EXPERIMENT_READY; EXPERIMENT_PROVISIONING; EXPERIMENT_PROVISIONED]
              <-> st = EXPERIMENT_READY
                  \/ st ∈ [EXPERIMENT_PROVISIONING; EXPERIMENT_PROVISIONED]).
    { intros st. rewrite !elem_of_cons. tauto. }
    case_decide as Hr.
    - pose proof (reload_within w0) as Hq'. cbn [snd].
      pose proof (within_trans _ _ _ _ _ Hq Hq') as Hall.
      split; [eapply within_weaken; [|exact Hall]; budget|].
      split; [specialize (Hq' GetExperimentStatus); lia|].
      split; [intros _; specialize (Hall TerminateExperiment); cbn [queries start_and_wait_budget] in Hall; tally|].
      split; [intros _ Hf; congruence|].
      split; [intros _; specialize (Hall StartExperiment); cbn [queries start_and_wait_budget] in Hall; tally|].
      intros _ Hn. exfalso. apply Hn, Hin. by left.
    - case_decide as Hf.
      + pose proof (terminate_within w0) as Ht.
        pose proof (terminate_run terminate_experiment w0) as Hrun.
        cbv zeta in Hrun.
        assert (Hst : status (self (terminate w0).2)
                      ∉ [EXPERIMENT_PROVISIONING; EXPERIMENT_PROVISIONED]).
        { destruct (terminate_experiment _ _ _) as [[rval response] p'].
          rewrite Hrun. rewrite !elem_of_cons.
          case_decide; cbn [snd self status cleared with_status with_nodes
                            with_manifests]; [|rewrite Hf];
            intros [?|[?|Hx]]; try done; by apply elem_of_nil in Hx. }
        destruct (start_then_wait_within (terminate w0).2) as (Hs & _ & Hone).
        specialize (Hone Hst).
        pose proof (within_trans _ _ _ _ _ Hq
                      (within_trans _ _ _ _ _ Ht Hs)) as Hall.
        split; [eapply within_weaken; [|exact Hall]; budget|].
        split; [specialize (Ht GetExperimentStatus);
                specialize (Hs GetExperimentStatus); lia|].
        split; [done|].
        split.
        { intros _ _.
          assert (calls TerminateExperiment (trace (terminate w0).2)
                  = calls TerminateExperiment (trace w0) + 1).
          { destruct (terminate_experiment _ _ _) as [[rval response] p'].
            rewrite Hrun. case_decide; cbn [snd trace];
              rewrite calls_app, calls_one; by rewrite bool_decide_eq_true_2. }
          specialize (Hq TerminateExperiment). cbn [queries start_and_wait_budget] in Hq.
          specialize (Hs TerminateExperiment). cbn [queries start_and_wait_budget] in Hs. tally. }
        split.
        { intros [?|Hx]; [done|]. rewrite Hf in Hx. rewrite !elem_of_cons in Hx.
          destruct Hx as [?|[?|[?|Hx]]]; try done. by apply elem_of_nil in Hx. }
        intros _ _. specialize (Hq StartExperiment). cbn [queries start_and_wait_budget] in Hq.
        specialize (Ht StartExperiment). cbn [queries start_and_wait_budget] in Ht. tally.
      + destruct (start_then_wait_within w0) as (Hs & Hzero & Hone).
        pose proof (within_trans _ _ _ _ _ Hq Hs) as Hall.
        split; [eapply within_weaken; [|exact Hall]; budget|].
        split; [specialize (Hs GetExperimentStatus); lia|].
        split; [intros _; specialize (Hall TerminateExperiment); cbn [queries start_and_wait_budget] in Hall; tally|].
        split; [done|].
        split.
        { intros [?|Hx]; [done|]. apply Hin in Hx as [?|Hx]; [done|].
          specialize (Hzero Hx). specialize (Hq StartExperiment). cbn [queries start_and_wait_budget] in Hq. tally. }
        intros _ Hn.
        assert (Hn' : status (self w0)
                      ∉ [EXPERIMENT_PROVISIONING; EXPERIMENT_PROVISIONED]).
        { intros Hx. apply Hn, Hin. by right. }
        specialize (Hone Hn'). specialize (Hq StartExperiment). cbn [queries start_and_wait_budget] in Hq. tally. }
  destruct Hmain as (Hw & Hlt & H1 & H2 & H3 & H4).
  split; [exact Hw|].
  split; [specialize (Hw StartExperiment); cbn [queries start_and_wait_budget] in Hw; tally|].
  split; [specialize (Hw TerminateExperiment); cbn [queries start_and_wait_budget] in Hw; tally|].
  split; [exact Hlt|].
  split; [specialize (Hw GetExperimentStatus); cbn [queries start_and_wait_budget] in Hw;
          change _poll_count_max with 90 in Hw; lia|].
  split; [specialize (Hw GetExperimentManifests); cbn [queries start_and_wait_budget] in Hw;
          change _poll_count_max with 90 in Hw; lia|].
  done.
Qed.

(** What [terminate] leaves is not a polling state when the state it
    found was Failed, and it adds one request and no pause. *)
Lemma terminate_after_failed (w0 : @world CP) :
  status (self w0) = EXPERIMENT_FAILED ->
  (status (self (terminate w0).2)
     ∉ [EXPERIMENT_PROVISIONING; EXPERIMENT_PROVISIONED])
  /\ exists rv rs,
       trace (terminate w0).2 = trace w0 ++ [Called TerminateExperiment rv rs].
Proof.
  intros Hf. pose proof (terminate_run terminate_experiment w0) as H.
  cbv zeta in H.
  destruct (terminate_experiment _ _ _) as [[rval response] p'].
  rewrite H. case_decide; cbn [snd self trace status cleared with_status
                               with_nodes with_manifests].
  - split; [|eauto]. rewrite !elem_of_cons.
    intros [?|[?|Hx]]; try done. by apply elem_of_nil in Hx.
  - split; [|eauto]. rewrite Hf, !elem_of_cons.
    intros [?|[?|Hx]]; try done. by apply elem_of_nil in Hx.
Qed.

(** X5.  Three ways in which [start_and_wait] ends without a poll.
    When the first check finds the experiment Ready with a node in the
    registry, it returns Ready after that check.  A start request is
    sent from the state the first check leaves when that is
    NotStarted, Null or Unknown, and from the state [terminate] leaves
    (one terminate request after the check) when it is Failed.  When
    that start request is refused, [start_and_wait] returns Failed at
    once: nothing is slept and no further request is sent.  When it
    is accepted and the status read five seconds later is Failed,
    [start_and_wait] returns Failed without a single poll, having
    slept those five seconds only. *)
Theorem start_and_wait_shortcuts (w : @world CP) (w0 : @world CP) :
  _get_status w = (Ok tt, w0) ->
  (status (self w0) = EXPERIMENT_READY -> no_nodes (self w0) = false ->
   start_and_wait w = (Ok EXPERIMENT_READY, w0))
  /\ (status (self w0) = EXPERIMENT_FAILED ->
      exists rv rs,
        trace (terminate w0).2 = trace w0 ++ [Called TerminateExperiment rv rs])
  /\ (forall w1 rval response p2,
        (status (self w0) ∈ [EXPERIMENT_NOT_STARTED; EXPERIMENT_NULL;
                             EXPERIMENT_UNKNOWN] /\ w1 = w0)
        \/ (status (self w0) = EXPERIMENT_FAILED /\ w1 = (terminate w0).2) ->
        start_experiment (experiment_name (self w1)) (project_name (self w1))
                         (profile_name (self w1)) (plane w1)
        = (rval, response, p2) ->
        let tr2 := trace w1 ++ [Called StartExperiment rval response] in
        (rval <> RESPONSE_SUCCESS ->
         start_and_wait w
         = (Ok EXPERIMENT_FAILED,
            mkWorld (with_status EXPERIMENT_FAILED (self w1)) p2 tr2))
        /\ (rval = RESPONSE_SUCCESS ->
            forall w4,
              _get_status (mkWorld (self w1) p2 (tr2 ++ [Slept 5])) = (Ok tt, w4) ->
              status (self w4) = EXPERIMENT_FAILED ->
              start_and_wait w = (Ok EXPERIMENT_FAILED, w4)
              /\ polls (trace w4) = polls (trace w)
              /\ slept (trace w4) = slept (trace w) + 5)).
Proof.
  intros Hfirst. split; [|split].
  - intros Hr Hn. rewrite start_and_wait_run, Hfirst.
    case_decide; [|done]. rewrite reload_run, Hn. cbn [snd]. by rewrite Hr.
  - intros Hf. by destruct (terminate_after_failed w0 Hf) as [_ ?].
  - intros w1 rval response p2 Hfrom Hstart. cbv zeta.
    assert (Hrun : start_and_wait w = start_then_wait w1
                   /\ (status (self w1)
                       ∉ [EXPERIMENT_PROVISIONING; EXPERIMENT_PROVISIONED])
                   /\ quiet (trace w0) (trace w1)).
    { destruct Hfrom as [[Hin ->]|[Hf ->]].
      - assert (Hnot : status (self w0) <> EXPERIMENT_READY
                       /\ status (self w0) <> EXPERIMENT_FAILED
                       /\ status (self w0)
                          ∉ [EXPERIMENT_PROVISIONING; EXPERIMENT_PROVISIONED]).
        { rewrite !elem_of_cons in Hin. rewrite !elem_of_cons.
          destruct Hin as [->|[->|[->|Hx]]]; [..|by apply elem_of_nil in Hx];
            (split; [done|]); (split; [done|]);
            intros [?|[?|Hx]]; try done; by apply elem_of_nil in Hx. }
        destruct Hnot as (Hr & Hf & Hp).
        split; [|split; [done|apply quiet_refl]].
        rewrite start_and_wait_run, Hfirst. by repeat case_decide.
      - destruct (terminate_after_failed w0 Hf) as [Hp _].
        split; [|split; [done|apply terminate_quiet]].
        rewrite start_and_wait_run, Hfirst.
        case_decide; [congruence|]. by case_decide. }
    destruct Hrun as (Hrun & Hp & [Hq1 Hq2]).
    rewrite Hrun, start_then_wait_run.
    rewrite bool_decide_eq_true_2 by done. rewrite Hstart. cbv zeta.
    split.
    + intros Hrv. by case_decide.
    + intros Hrv w4 Hsecond Hfailed. case_decide; [|done].
      rewrite Hsecond. case_decide; [|done]. split; [done|].
      destruct (get_status_quiet get_experiment_manifests get_experiment_status
                  decode_manifests w) as [Hp1 Hs1].
      destruct (get_status_quiet get_experiment_manifests get_experiment_status
                  decode_manifests
                  (mkWorld (self w1) p2
                     ((trace w1 ++ [Called StartExperiment rval response])
                        ++ [Slept 5]))) as [Hp2 Hs2].
      rewrite Hfirst in Hp1, Hs1. rewrite Hsecond in Hp2, Hs2.
      cbn [snd trace] in *.
      rewrite !polls_app in Hp2. rewrite !slept_app in Hs2. cbn in Hp2, Hs2.
      lia.
Qed.
End Requests.
End ControllerRequests.

Module SessionFacts.
Import SSH Shell SSHFacts.

Lemma attempts_app tr1 tr2 : attempts (tr1 ++ tr2) = attempts tr1 + attempts tr2.
Proof. unfold attempts. by rewrite List.filter_app, length_app. Qed.

Lemma closes_app tr1 tr2 : closes (tr1 ++ tr2) = closes tr1 + closes tr2.
Proof. unfold closes. by rewrite List.filter_app, length_app. Qed.

Lemma pauses_app tr1 tr2 : pauses (tr1 ++ tr2) = pauses tr1 ++ pauses tr2.
Proof. unfold pauses. apply omap_app. Qed.

Lemma sent_app tr1 tr2 : sent (tr1 ++ tr2) = sent tr1 ++ sent tr2.
Proof. unfold sent. apply omap_app. Qed.

Lemma waits_app tr1 tr2 : waits (tr1 ++ tr2) = waits tr1 ++ waits tr2.
Proof. unfold waits. apply omap_app. Qed.

(** The pauses of a run of failed attempts do not depend on the session. *)
Lemma pauses_failed_attempts s s' k : forall n,
  pauses (failed_attempts s n k) = pauses (failed_attempts s' n k).
Proof.
  induction k as [|k IH]; intros n; cbn [failed_attempts]; [done|].
  rewrite !pauses_app, (IH (n + 1)). by destruct (Nat.ltb _ _).
Qed.

Lemma pauses_failed_attempts_S s n k :
  pauses (failed_attempts s n (S k))
  = (if Nat.ltb (n + 1) max_retries then [2 ^ (n + 1)] else [])
    ++ pauses (failed_attempts s (n + 1) k).
Proof.
  cbn [failed_attempts]. rewrite !pauses_app. by destruct (Nat.ltb _ _).
Qed.

Section Facts.
Context {PX : Type}.
Variable px_spawn : string -> PX -> bool * PX.
Variable px_expect : list pattern -> nat -> PX -> expect_outcome * PX.

Abbreviation attempt := (attempt px_spawn px_expect).
Abbreviation open_loop := (open_loop px_spawn px_expect).
Abbreviation open := (open px_spawn px_expect).
(** One turn of the loop: the [try] block and its [except] clause. *)
Abbreviation turn :=
  (try_except attempt pexpect_exception
              (fun _ => close_if_open;; mret FellThrough)).
(** The lines [open] may send: the answer to the host key question,
    and the passphrase when there is one. *)
Abbreviation allowed s :=
  (fun l : string =>
     l = "yes" \/ (given (password s) = true /\ l = default "" (password s))).

Ltac crunch :=
  repeat first
    [ progress (unfold_ssh;
                cbn [self terminal trace fst snd pexpect_exception ssh with_ssh
                     closed prompt ip_address username password cert_path])
    | match goal with
      | |- context [px_expect ?p ?n ?t] =>
          let He := fresh "He" in
          destruct (px_expect p n t) as [[?|] ?] eqn:He
      | |- context [if given ?x then _ else _] =>
          let Hg := fresh "Hg" in destruct (given x) eqn:Hg
      | |- context [match ?i with O => _ | S _ => _ end] => is_var i; destruct i
      | |- context [match ssh (self ?w) with _ => _ end] =>
          let Hc := fresh "Hc" in
          destruct (ssh (self w)) as [[[]]|] eqn:Hc
      end ].

Lemma turn_effect (w : @world PX) :
  let r := (turn w).1 in
  let w' := (turn w).2 in
  exists tr,
    trace w' = trace w ++ tr
    /\ attempts tr = 1
    /\ closes tr <= 1
    /\ pauses tr = []
    /\ Forall (allowed (self w)) (sent tr)
    /\ Forall (fun pn => pn.2 = 25 \/ pn.2 = 15) (waits tr)
    /\ self w' = with_ssh (ssh (self w')) (self w)
    /\ (r = Ok Returned -> ssh (self w') = Some (mkChild false))
    /\ (r = Ok FellThrough -> answers_in_range px_expect ->
        is_open (self w') = false)
    /\ (forall e, r = Raise e ->
          ((exists msg, e = ValueError msg)
           \/ exists msg, e = ConnectionRefusedError msg)).
Proof.
  cbv zeta. unfold SSH.attempt. unfold_ssh. cbn [self terminal trace].
  destruct (px_spawn _ _) as [[] t1] eqn:Hs;
    cbn [self terminal trace fst snd pexpect_exception].
  - change (expected_patterns (with_ssh (Some (mkChild false)) (self w)))
      with (expected_patterns (self w)).
    crunch;
      (eexists; split; [rewrite <- ?app_assoc; reflexivity|]);
      cbn [app attempts closes pauses sent waits List.filter omap list_omap
           is_spawn is_close length fst snd];
      (split; [reflexivity|]); (split; [lia|]); (split; [reflexivity|]);
      (split; [repeat constructor; by auto|]);
      (split; [repeat constructor; by auto|]);
      (split; [by destruct (self w)|]);
      (split; [done|]);
      (split; [|intros e [= <-]; eauto]);
      try done;
      intros _ Hrange;
      repeat match goal with
             | H : px_expect _ _ _ = (Matched _, _) |- _ =>
                 apply Hrange in H; cbn in H
             end; lia.
  - crunch;
      (eexists; split; [rewrite <- ?app_assoc; reflexivity|]);
      cbn [app attempts closes pauses sent waits List.filter omap list_omap
           is_spawn is_close length fst snd];
      (split; [reflexivity|]); (split; [lia|]); (split; [reflexivity|]);
      (split; [constructor|]); (split; [constructor|]);
      (split; [destruct (self w); cbn in *; by subst|]);
      (split; [done|]); (split; [|done]);
      intros _ _; unfold is_open; cbn [ssh with_ssh closed negb];
      by rewrite ?Hc.
Qed.

Lemma open_loop_turn n rc (w : @world PX) :
  open_loop (S n) rc w =
    match turn w with
    | (Ok Returned, w1) => (Ok tt, w1)
    | (Ok FellThrough, w1) =>
        open_loop n (rc + 1)
          (mkWorld (self w1) (terminal w1)
             (trace w1 ++ if Nat.ltb (rc + 1) max_retries
                          then [Slept (2 ^ (rc + 1))] else []))
    | (Raise e, w1) => (Raise e, w1)
    end.
Proof.
  cbn [SSH.open_loop]. unfold mbind at 1, M_bind at 1, bind at 1.
  destruct (turn w) as [[[]|e] w1]; [done| |done].
  unfold mbind, M_bind, bind. destruct (Nat.ltb (rc + 1) max_retries).
  - unfold sleep, emit. reflexivity.
  - unfold mret, M_ret, ret. rewrite app_nil_r. by destruct w1.
Qed.

Lemma open_loop_effect n : forall rc (w : @world PX),
  let r := (open_loop n rc w).1 in
  let w' := (open_loop n rc w).2 in
  exists tr,
    trace w' = trace w ++ tr
    /\ attempts tr <= n
    /\ (0 < n -> 1 <= attempts tr)
    /\ closes tr <= attempts tr
    /\ pauses tr `prefix_of` pauses (failed_attempts (self w) rc n)
    /\ Forall (allowed (self w)) (sent tr)
    /\ Forall (fun pn => pn.2 = 25 \/ pn.2 = 15) (waits tr)
    /\ self w' = with_ssh (ssh (self w')) (self w)
    /\ (r = Ok tt -> ssh (self w') = Some (mkChild false) /\ 1 <= attempts tr)
    /\ (forall e, r = Raise e ->
          (exists msg, e = ValueError msg)
          \/ (exists msg, e = ConnectionRefusedError msg)
          \/ (e = ConnectionError ("Could not connect via SSH to "
                                   +:+ ip_address (self w)
                                   +:+ " after multiple retries")
              /\ attempts tr = n
              /\ pauses tr = pauses (failed_attempts (self w) rc n)
              /\ (answers_in_range px_expect -> 0 < n ->
                  is_open (self w') = false))).
Proof.
  induction n as [|n IH]; intros rc w; cbv zeta.
  - cbn [SSH.open_loop]. unfold_ssh. cbn [fst snd].
    exists []. rewrite app_nil_r. cbn.
    split; [done|]. split; [lia|]. split; [lia|]. split; [lia|]. split; [done|].
    split; [constructor|]. split; [constructor|].
    split; [by destruct (self w)|]. split; [done|].
    intros e [= <-]. right; right. repeat split; try done. intros _ ?. lia.
  - rewrite open_loop_turn.
    destruct (turn_effect w) as (tr1 & Ht1 & Ha1 & Hc1 & Hp1 & Hs1 & Hw1 & Hf1
                                 & Hret & Hfell & Hraise).
    cbv zeta in *.
    destruct (turn w) as [[[]|e] w1]; cbn [fst snd] in *.
    + exists tr1. rewrite Hp1.
      split; [done|]. split; [lia|]. split; [lia|]. split; [lia|].
      split; [apply prefix_nil|]. split; [done|]. split; [done|].
      split; [done|]. split; [|done]. intros _. split; [by apply Hret|lia].
    + set (pause := if Nat.ltb (rc + 1) max_retries
                    then [Slept (2 ^ (rc + 1))] else []).
      set (w2 := mkWorld (self w1) (terminal w1) (trace w1 ++ pause)).
      destruct (IH (rc + 1) w2) as (tr2 & Ht2 & Ha2 & _ & Hc2 & Hp2 & Hs2 & Hw2 & Hf2
                                    & Hok & Hbad).
      cbv zeta in *.
      assert (Hpause : attempts pause = 0 /\ closes pause = 0
                       /\ sent pause = [] /\ waits pause = []
                       /\ pauses pause
                          = if Nat.ltb (rc + 1) max_retries then [2 ^ (rc + 1)]
                            else []).
      { unfold pause. by destruct (Nat.ltb _ _). }
      destruct Hpause as (Hpa & Hpc & Hps & Hpw & Hpp).
      assert (Hsame : forall l, allowed (self w1) l <-> allowed (self w) l).
      { intros l. rewrite Hf1. by destruct (self w). }
      exists (tr1 ++ pause ++ tr2).
      split.
      { rewrite Ht2. unfold w2. cbn [trace]. rewrite Ht1.
        by rewrite <- !app_assoc. }
      rewrite !attempts_app, !closes_app, !pauses_app, !sent_app, !waits_app.
      rewrite Hpa, Hpc, Hps, Hpw, Hpp, Hp1, Ha1.
      cbn [app]. rewrite pauses_failed_attempts_S.
      rewrite (pauses_failed_attempts (self w) (self w2)).
      split; [lia|]. split; [lia|]. split; [lia|].
      split; [by apply prefix_app|].
      split.
      { apply Forall_app. split; [done|].
        eapply Forall_impl; [exact Hs2|]. intros l Hl. by apply Hsame. }
      split; [by apply Forall_app|].
      split.
      { rewrite Hf2. unfold w2. cbn [self]. rewrite Hf1. by destruct (self w). }
      split.
      { intros Hr. destruct (Hok Hr) as [? ?]. split; [done|lia]. }
      intros e He. destruct (Hbad e He) as [?|[?|(-> & Hn & Hpe & Hclean)]];
        [by left|by right; left|].
      right; right. unfold w2 in *. cbn [self] in *.
      split; [by rewrite Hf1; destruct (self w)|].
      split; [lia|]. split; [by rewrite Hpe|].
      intros Hrange _. destruct n as [|n].
      * cbn [SSH.open_loop] in *. unfold_ssh. cbn [fst snd self] in *.
        by apply Hfell.
      * apply Hclean; [done|lia].
    + exists tr1. rewrite Hp1.
      split; [done|]. split; [lia|]. split; [lia|]. split; [lia|].
      split; [apply prefix_nil|]. split; [done|]. split; [done|].
      split; [done|]. split; [done|].
      intros e' [= <-]. destruct (Hraise e eq_refl) as [?|?]; [by left|by right; left].
Qed.

Lemma sum_list_prefix (l1 l2 : list nat) :
  l1 `prefix_of` l2 -> sum_list l1 <= sum_list l2.
Proof.
  intros [k ->]. induction l1 as [|x l1 IH]; cbn; lia.
Qed.


(** X9.  Whatever the terminal answers, [open] starts at least one and
    at most four processes and never closes more than it started; the
    pauses it makes are the first ones of 2, 4 and 8 seconds, 14
    seconds at most in all; every wait has a timeout of 25 or 15
    seconds; and the only lines it sends are the answer to the host
    key question and the passphrase, the latter only when one is
    configured. *)
Theorem open_resources (w : @world PX) :
  exists tr,
    trace (open w).2 = trace w ++ tr
    /\ 1 <= attempts tr <= 4
    /\ closes tr <= attempts tr
    /\ pauses tr `prefix_of` [2; 4; 8]
    /\ paused tr <= 14
    /\ Forall (fun pn => pn.2 = 25 \/ pn.2 = 15) (waits tr)
    /\ Forall (fun l => l = "yes"
                        \/ (given (password (self w)) = true
                            /\ password (self w) = Some l)) (sent tr)
    /\ (given (password (self w)) = false -> Forall (fun l => l = "yes") (sent tr)).
Proof.
  unfold SSH.open.
  destruct (open_loop_effect max_retries 0 w)
    as (tr & Ht & Ha & Ha1 & Hc & Hp & Hs & Hw & _).
  cbv zeta in *. exists tr.
  assert (Hpre : pauses tr `prefix_of` [2; 4; 8]) by exact Hp.
  split; [done|]. split; [unfold max_retries in *; lia|]. split; [done|].
  split; [done|]. split.
  { unfold paused. apply sum_list_prefix in Hpre. cbn in Hpre. lia. }
  split; [done|]. split.
  - eapply Forall_impl; [exact Hs|]. intros l [->|[Hg ->]]; [by left|right].
    split; [done|]. by destruct (password (self w)).
  - intros Hg. eapply Forall_impl; [exact Hs|].
    intros l [->|[Hg' _]]; [done|congruence].
Qed.

(** X11.  On a terminal whose waits answer with an index of the list
    they are given, when [open] gives up with its [ConnectionError] it
    has started four processes, paused 2, 4 and 8 seconds between
    them, and leaves no child open: the handle is absent or closed. *)
Theorem open_exhausted (w : @world PX) (msg : string) :
  answers_in_range px_expect ->
  (open w).1 = Raise (ConnectionError msg) ->
  msg = "Could not connect via SSH to " +:+ ip_address (self w)
        +:+ " after multiple retries"
  /\ is_open (self (open w).2) = false
  /\ exists tr,
       trace (open w).2 = trace w ++ tr
       /\ attempts tr = 4
       /\ pauses tr = [2; 4; 8].
Proof.
  unfold SSH.open. intros Hrange Hr.
  destruct (open_loop_effect max_retries 0 w)
    as (tr & Ht & _ & _ & _ & _ & _ & _ & _ & _ & Hbad).
  cbv zeta in *.
  destruct (Hbad _ Hr) as [[? ?]|[[? ?]|(Hmsg & Ha & Hp & Hclean)]]; try done.
  injection Hmsg as ->. split; [done|].
  split; [apply Hclean; [done|unfold max_retries; lia]|].
  exists tr. split; [done|]. split; [done|]. exact Hp.
Qed.

(** *** The attempts that end with an answer *)

Lemma after_failures_facts j s :
  (forall v, with_ssh v (after_failures j s) = with_ssh v s)
  /\ ssh_command (after_failures j s) = ssh_command s
  /\ expected_patterns (after_failures j s) = expected_patterns s
  /\ prompt (after_failures j s) = prompt s
  /\ password (after_failures j s) = password s.
Proof. by destruct j. Qed.

(** After [j] transient failures [open] goes on with the next attempt. *)
Lemma open_resume j (w : @world PX) t' :
  j < max_retries ->
  fails_transiently px_spawn px_expect (self w) j (terminal w) t' ->
  open w = open_loop (S (max_retries - S j)) j
             (mkWorld (after_failures j (self w)) t'
                      (trace w ++ failed_attempts (self w) 0 j)).
Proof.
  intros Hj Hf. unfold SSH.open.
  replace max_retries with (j + S (max_retries - S j)) at 1 by lia.
  rewrite (open_loop_failures px_spawn px_expect j w _ 0 t' Hf). reflexivity.
Qed.

(** An attempt that returns, or raises an exception that is not one
    of [pexpect], ends the loop. *)
Lemma open_loop_settles n rc (w w1 : @world PX) :
  (attempt w = (Ok Returned, w1) -> open_loop (S n) rc w = (Ok tt, w1))
  /\ (forall e, attempt w = (Raise e, w1) -> pexpect_exception e = false ->
      open_loop (S n) rc w = (Raise e, w1)).
Proof.
  split.
  - intros Ha. rewrite open_loop_turn. unfold try_except. by rewrite Ha.
  - intros e Ha He. rewrite open_loop_turn. unfold try_except.
    by rewrite Ha, He.
Qed.

Ltac follow Hs He :=
  unfold SSH.attempt; unfold_ssh; cbn [self terminal trace];
  rewrite Hs; cbn [self terminal trace];
  change (expected_patterns (with_ssh (Some (mkChild false)) (self ?w)))
    with (expected_patterns (self w));
  rewrite He;
  repeat (unfold_ssh;
          cbn [self terminal trace ssh with_ssh closed prompt password]).

(** The child started by an attempt, and the events of its first wait. *)
Abbreviation started w := (with_ssh (Some (mkChild false)) (self w)).
Abbreviation stopped w := (with_ssh (Some (mkChild true)) (self w)).
Abbreviation asked w :=
  (trace w ++ [Spawned (ssh_command (self w));
               Expected (expected_patterns (self w)) 25]).

Lemma attempt_prompt (w : @world PX) t1 t2 :
  px_spawn (ssh_command (self w)) (terminal w) = (true, t1) ->
  px_expect (expected_patterns (self w)) 25 t1 = (Matched 0, t2) ->
  attempt w = (Ok Returned, mkWorld (started w) t2 (asked w)).
Proof. intros Hs He. follow Hs He. by rewrite <- !app_assoc. Qed.

Lemma attempt_passphrase (w : @world PX) t1 t2 :
  px_spawn (ssh_command (self w)) (terminal w) = (true, t1) ->
  px_expect (expected_patterns (self w)) 25 t1 = (Matched 2, t2) ->
  (given (password (self w)) = false ->
   attempt w
   = (Raise (ValueError "Encrypted SSH key requires KEYPWORD environment variable."),
      mkWorld (stopped w) t2 (asked w ++ [Closed])))
  /\ (given (password (self w)) = true ->
      forall i t3,
        px_expect [Regex (prompt (self w)); Regex "[Pp]ermission denied"] 15 t2
        = (Matched i, t3) ->
        let answered :=
          asked w ++ [SentLine (default "" (password (self w)));
                      Expected [Regex (prompt (self w));
                                Regex "[Pp]ermission denied"] 15] in
        (i = 0 -> attempt w = (Ok Returned, mkWorld (started w) t3 answered))
        /\ (i <> 0 ->
            attempt w
            = (Raise (ValueError
                        "Incorrect SSH key passphrase or other permission issue."),
               mkWorld (stopped w) t3 (answered ++ [Closed])))).
Proof.
  intros Hs He. split.
  - intros Hg. follow Hs He. rewrite Hg.
    repeat (unfold_ssh; cbn [self terminal trace ssh with_ssh]).
    by rewrite <- !app_assoc.
  - intros Hg i t3 He2. cbv zeta. split.
    + intros ->. follow Hs He. rewrite Hg.
      repeat (unfold_ssh; cbn [self terminal trace ssh with_ssh prompt]).
      rewrite He2. repeat (unfold_ssh; cbn [self terminal trace]).
      by rewrite <- !app_assoc.
    + intros Hi. follow Hs He. rewrite Hg.
      repeat (unfold_ssh; cbn [self terminal trace ssh with_ssh prompt]).
      rewrite He2. destruct i as [|i]; [done|].
      repeat (unfold_ssh; cbn [self terminal trace ssh with_ssh]).
      by rewrite <- !app_assoc.
Qed.

Lemma attempt_host_key_accepted (w : @world PX) t1 t2 :
  px_spawn (ssh_command (self w)) (terminal w) = (true, t1) ->
  px_expect (expected_patterns (self w)) 25 t1 = (Matched 4, t2) ->
  forall k t3,
    px_expect (expected_patterns (self w)) 15 t2 = (Matched k, t3) ->
    let confirmed :=
      asked w ++ [SentLine "yes"; Expected (expected_patterns (self w)) 15] in
    (k = 0 -> attempt w = (Ok Returned, mkWorld (started w) t3 confirmed))
    /\ (k = 2 -> given (password (self w)) = false ->
        attempt w
        = (Raise (ValueError
                    "Encrypted key requires KEYPWORD after host key confirmation."),
           mkWorld (started w) t3 confirmed))
    /\ (k = 2 -> given (password (self w)) = true ->
        forall l t4,
          px_expect [Regex (prompt (self w)); Regex "[Pp]ermission denied"] 15 t3
          = (Matched l, t4) ->
          let answered :=
            confirmed ++ [SentLine (default "" (password (self w)));
                          Expected [Regex (prompt (self w));
                                    Regex "[Pp]ermission denied"] 15] in
          (l = 0 -> attempt w = (Ok Returned, mkWorld (started w) t4 answered))
          /\ (l <> 0 ->
              attempt w
              = (Raise (ValueError
                          "Passphrase authentication failed after host key confirmation."),
                 mkWorld (started w) t4 answered))).
Proof.
  intros Hs He k t3 Hk. cbv zeta. split; [|split].
  - intros ->. follow Hs He. rewrite Hk.
    repeat (unfold_ssh; cbn [self terminal trace]). by rewrite <- !app_assoc.
  - intros -> Hg. follow Hs He. rewrite Hk.
    repeat (unfold_ssh; cbn [self terminal trace ssh with_ssh password]).
    rewrite Hg. repeat (unfold_ssh; cbn [self terminal trace]).
    by rewrite <- !app_assoc.
  - intros -> Hg l t4 Hl. split.
    + intros ->. follow Hs He. rewrite Hk.
      repeat (unfold_ssh; cbn [self terminal trace ssh with_ssh password prompt]).
      rewrite Hg.
      repeat (unfold_ssh; cbn [self terminal trace ssh with_ssh password prompt]).
      rewrite Hl. repeat (unfold_ssh; cbn [self terminal trace]).
      by rewrite <- !app_assoc.
    + intros Hne. follow Hs He. rewrite Hk.
      repeat (unfold_ssh; cbn [self terminal trace ssh with_ssh password prompt]).
      rewrite Hg.
      repeat (unfold_ssh; cbn [self terminal trace ssh with_ssh password prompt]).
      rewrite Hl. destruct l as [|l]; [done|].
      repeat (unfold_ssh; cbn [self terminal trace]).
      by rewrite <- !app_assoc.
Qed.

(** A wait after the passphrase that raises (end of stream and
    timeout are not among its patterns) makes the attempt a failed
    one: the [except] clause closes the child. *)
Lemma turn_passphrase_lost (w : @world PX) t1 t2 t3 :
  px_spawn (ssh_command (self w)) (terminal w) = (true, t1) ->
  px_expect (expected_patterns (self w)) 25 t1 = (Matched 2, t2) ->
  given (password (self w)) = true ->
  px_expect [Regex (prompt (self w)); Regex "[Pp]ermission denied"] 15 t2
  = (Failed, t3) ->
  turn w
  = (Ok FellThrough,
     mkWorld (stopped w) t3
       ((asked w ++ [SentLine (default "" (password (self w)));
                     Expected [Regex (prompt (self w));
                               Regex "[Pp]ermission denied"] 15])
          ++ [Closed])).
Proof.
  intros Hs He Hg He2. unfold try_except. follow Hs He. rewrite Hg.
  repeat (unfold_ssh; cbn [self terminal trace ssh with_ssh prompt]).
  rewrite He2.
  repeat (unfold_ssh;
          cbn [self terminal trace ssh with_ssh closed pexpect_exception]).
  by rewrite <- !app_assoc.
Qed.

Lemma turn_host_key_passphrase_lost (w : @world PX) t1 t2 t3 t4 :
  px_spawn (ssh_command (self w)) (terminal w) = (true, t1) ->
  px_expect (expected_patterns (self w)) 25 t1 = (Matched 4, t2) ->
  px_expect (expected_patterns (self w)) 15 t2 = (Matched 2, t3) ->
  given (password (self w)) = true ->
  px_expect [Regex (prompt (self w)); Regex "[Pp]ermission denied"] 15 t3
  = (Failed, t4) ->
  turn w
  = (Ok FellThrough,
     mkWorld (stopped w) t4
       (((asked w ++ [SentLine "yes"; Expected (expected_patterns (self w)) 15])
           ++ [SentLine (default "" (password (self w)));
               Expected [Regex (prompt (self w));
                         Regex "[Pp]ermission denied"] 15])
          ++ [Closed])).
Proof.
  intros Hs He Hk Hg Hl. unfold try_except. follow Hs He. rewrite Hk.
  repeat (unfold_ssh; cbn [self terminal trace ssh with_ssh password prompt]).
  rewrite Hg.
  repeat (unfold_ssh; cbn [self terminal trace ssh with_ssh password prompt]).
  rewrite Hl.
  repeat (unfold_ssh;
          cbn [self terminal trace ssh with_ssh closed pexpect_exception]).
  by rewrite <- !app_assoc.
Qed.

Ltac settle H :=
  repeat match goal with W := _ |- _ => subst W end;
  cbn [self terminal trace] in H;
  match goal with
  | Hf : forall v, with_ssh v (after_failures _ _) = with_ssh v _,
    Hc : ssh_command (after_failures _ _) = _,
    Hp : expected_patterns (after_failures _ _) = _,
    Hq : prompt (after_failures _ _) = _,
    Hw : password (after_failures _ _) = _ |- _ =>
      rewrite ?Hf, ?Hc, ?Hp, ?Hq, ?Hw in H
  end.

(** X10.  The ways in which an attempt of [open] (after [j] < 4
    transient failures) succeeds.  The prompt at the first wait ends
    [open] at once, nothing sent.  A passphrase prompt, when a
    passphrase is configured, is answered with it, and the prompt
    after it ends [open].  A host key question is answered with
    'yes'; the prompt after it ends [open], and so does a passphrase
    prompt answered with the configured passphrase and followed by the
    prompt.  In each case the child is left open and nothing is slept
    or spawned after the attempt. *)
Theorem open_succeeds (j : nat) (w : @world PX) (t' t1 t2 : PX) (i : nat) :
  j < max_retries ->
  fails_transiently px_spawn px_expect (self w) j (terminal w) t' ->
  px_spawn (ssh_command (self w)) t' = (true, t1) ->
  px_expect (expected_patterns (self w)) 25 t1 = (Matched i, t2) ->
  let s := self w in
  let child := with_ssh (Some (mkChild false)) s in
  let first := (trace w ++ failed_attempts s 0 j)
               ++ [Spawned (ssh_command s); Expected (expected_patterns s) 25] in
  let secret := [SentLine (default "" (password s));
                 Expected [Regex (prompt s); Regex "[Pp]ermission denied"] 15] in
  let confirm := [SentLine "yes"; Expected (expected_patterns s) 15] in
  (i = 0 -> open w = (Ok tt, mkWorld child t2 first))
  /\ (i = 2 -> given (password s) = true ->
      forall t3,
        px_expect [Regex (prompt s); Regex "[Pp]ermission denied"] 15 t2
        = (Matched 0, t3) ->
        open w = (Ok tt, mkWorld child t3 (first ++ secret)))
  /\ (i = 4 ->
      forall k t3,
        px_expect (expected_patterns s) 15 t2 = (Matched k, t3) ->
        (k = 0 -> open w = (Ok tt, mkWorld child t3 (first ++ confirm)))
        /\ (k = 2 -> given (password s) = true ->
            forall t4,
              px_expect [Regex (prompt s); Regex "[Pp]ermission denied"] 15 t3
              = (Matched 0, t4) ->
              open w = (Ok tt, mkWorld child t4 ((first ++ confirm) ++ secret)))).
Proof.
  intros Hj Hf Hs He. cbv zeta.
  rewrite (open_resume j w t' Hj Hf).
  set (W := mkWorld (after_failures j (self w)) t'
                    (trace w ++ failed_attempts (self w) 0 j)).
  destruct (after_failures_facts j (self w)) as (Hself & Hcmd & Hpat & Hprompt & Hpw).
  assert (Hs' : px_spawn (ssh_command (self W)) (terminal W) = (true, t1)).
  { cbn [self terminal W]. by rewrite Hcmd. }
  assert (He' : px_expect (expected_patterns (self W)) 25 t1 = (Matched i, t2)).
  { cbn [self W]. by rewrite Hpat. }
  split; [|split].
  - intros ->. pose proof (attempt_prompt W t1 t2 Hs' He') as H. settle H.
    by apply open_loop_settles.
  - intros -> Hg t3 He2.
    destruct (attempt_passphrase W t1 t2 Hs' He') as [_ H].
    cbn [self W] in H. rewrite Hpw, Hprompt in H.
    destruct (H Hg 0 t3 He2) as [H0 _]. specialize (H0 eq_refl). settle H0.
    by apply open_loop_settles.
  - intros -> k t3 Hk.
    assert (Hk' : px_expect (expected_patterns (self W)) 15 t2 = (Matched k, t3)).
    { cbn [self W]. by rewrite Hpat. }
    destruct (attempt_host_key_accepted W t1 t2 Hs' He' k t3 Hk') as (H0 & _ & H2).
    split.
    + intros ->. specialize (H0 eq_refl). settle H0. by apply open_loop_settles.
    + intros -> Hg t4 Hl. cbn [self W] in H2. rewrite Hpw, Hprompt in H2.
      destruct (H2 eq_refl Hg 0 t4 Hl) as [H _]. specialize (H eq_refl).
      settle H. by apply open_loop_settles.
Qed.

(** X12.  The passphrase errors of [open] (on an attempt after [j] < 4
    transient failures).  A passphrase prompt without a configured
    passphrase raises a [ValueError] at once, nothing sent.  When the
    configured passphrase has been sent and the wait for the prompt
    or 'Permission denied' matches something else than the prompt,
    a [ValueError] is raised.  In both cases the child is closed
    first.  The same two errors after the host key was accepted raise
    a [ValueError] too, but leave the child open.  None of these is
    retried.  When the wait after the passphrase raises instead (end
    of stream and timeout are not among its patterns), no
    [ValueError] is raised: the attempt is a failed one, the child is
    closed, and [open] goes on as after a transient failure, with the
    pause and the attempts that are left. *)
Theorem open_passphrase_errors (j : nat) (w : @world PX) (t' t1 t2 : PX) (i : nat) :
  j < max_retries ->
  fails_transiently px_spawn px_expect (self w) j (terminal w) t' ->
  px_spawn (ssh_command (self w)) t' = (true, t1) ->
  px_expect (expected_patterns (self w)) 25 t1 = (Matched i, t2) ->
  let s := self w in
  let child := with_ssh (Some (mkChild false)) s in
  let closed_child := with_ssh (Some (mkChild true)) s in
  let first := (trace w ++ failed_attempts s 0 j)
               ++ [Spawned (ssh_command s); Expected (expected_patterns s) 25] in
  let secret := [SentLine (default "" (password s));
                 Expected [Regex (prompt s); Regex "[Pp]ermission denied"] 15] in
  let confirm := [SentLine "yes"; Expected (expected_patterns s) 15] in
  let pause := if Nat.ltb (j + 1) max_retries then [Slept (2 ^ (j + 1))] else [] in
  (i = 2 -> given (password s) = false ->
   open w
   = (Raise (ValueError "Encrypted SSH key requires KEYPWORD environment variable."),
      mkWorld closed_child t2 (first ++ [Closed])))
  /\ (i = 2 -> given (password s) = true ->
      forall l t3,
        px_expect [Regex (prompt s); Regex "[Pp]ermission denied"] 15 t2
        = (Matched l, t3) ->
        l <> 0 ->
        open w
        = (Raise (ValueError "Incorrect SSH key passphrase or other permission issue."),
           mkWorld closed_child t3 ((first ++ secret) ++ [Closed])))
  /\ (i = 4 ->
      forall t3,
        px_expect (expected_patterns s) 15 t2 = (Matched 2, t3) ->
        (given (password s) = false ->
         open w
         = (Raise (ValueError
                     "Encrypted key requires KEYPWORD after host key confirmation."),
            mkWorld child t3 (first ++ confirm)))
        /\ (given (password s) = true ->
            forall l t4,
              px_expect [Regex (prompt s); Regex "[Pp]ermission denied"] 15 t3
              = (Matched l, t4) ->
              l <> 0 ->
              open w
              = (Raise (ValueError
                          "Passphrase authentication failed after host key confirmation."),
                 mkWorld child t4 ((first ++ confirm) ++ secret))))
  /\ (i = 2 -> given (password s) = true ->
      forall t3,
        px_expect [Regex (prompt s); Regex "[Pp]ermission denied"] 15 t2
        = (Failed, t3) ->
        open w
        = open_loop (max_retries - S j) (j + 1)
            (mkWorld closed_child t3
               (((first ++ secret) ++ [Closed]) ++ pause)))
  /\ (i = 4 -> given (password s) = true ->
      forall t3 t4,
        px_expect (expected_patterns s) 15 t2 = (Matched 2, t3) ->
        px_expect [Regex (prompt s); Regex "[Pp]ermission denied"] 15 t3
        = (Failed, t4) ->
        open w
        = open_loop (max_retries - S j) (j + 1)
            (mkWorld closed_child t4
               ((((first ++ confirm) ++ secret) ++ [Closed]) ++ pause))).
Proof.
  intros Hj Hf Hs He. cbv zeta.
  rewrite (open_resume j w t' Hj Hf).
  set (W := mkWorld (after_failures j (self w)) t'
                    (trace w ++ failed_attempts (self w) 0 j)).
  destruct (after_failures_facts j (self w)) as (Hself & Hcmd & Hpat & Hprompt & Hpw).
  assert (Hs' : px_spawn (ssh_command (self W)) (terminal W) = (true, t1)).
  { cbn [self terminal W]. by rewrite Hcmd. }
  assert (He' : px_expect (expected_patterns (self W)) 25 t1 = (Matched i, t2)).
  { cbn [self W]. by rewrite Hpat. }
  split; [|split; [|split; [|split]]].
  - intros -> Hg. destruct (attempt_passphrase W t1 t2 Hs' He') as [H _].
    cbn [self W] in H. rewrite Hpw in H. specialize (H Hg). settle H.
    by apply open_loop_settles.
  - intros -> Hg l t3 He2 Hl.
    destruct (attempt_passphrase W t1 t2 Hs' He') as [_ H].
    cbn [self W] in H. rewrite Hpw, Hprompt in H.
    destruct (H Hg l t3 He2) as [_ H1]. specialize (H1 Hl). settle H1.
    by apply open_loop_settles.
  - intros -> t3 Hk.
    assert (Hk' : px_expect (expected_patterns (self W)) 15 t2 = (Matched 2, t3)).
    { cbn [self W]. by rewrite Hpat. }
    destruct (attempt_host_key_accepted W t1 t2 Hs' He' 2 t3 Hk') as (_ & H1 & H2).
    cbn [self W] in H1, H2. rewrite Hpw in H1, H2. rewrite Hprompt in H2.
    split.
    + intros Hg. specialize (H1 eq_refl Hg). settle H1.
      by apply open_loop_settles.
    + intros Hg l t4 Hl Hne. destruct (H2 eq_refl Hg l t4 Hl) as [_ H].
      specialize (H Hne). settle H. by apply open_loop_settles.
  - intros -> Hg t3 He2.
    assert (Hg' : given (password (self W)) = true).
    { cbn [self W]. by rewrite Hpw. }
    assert (He2' : px_expect [Regex (prompt (self W));
                              Regex "[Pp]ermission denied"] 15 t2 = (Failed, t3)).
    { cbn [self W]. by rewrite Hprompt. }
    pose proof (turn_passphrase_lost W t1 t2 t3 Hs' He' Hg' He2') as H.
    settle H. rewrite open_loop_turn, H. reflexivity.
  - intros -> Hg t3 t4 Hk Hl.
    assert (Hg' : given (password (self W)) = true).
    { cbn [self W]. by rewrite Hpw. }
    assert (Hk' : px_expect (expected_patterns (self W)) 15 t2 = (Matched 2, t3)).
    { cbn [self W]. by rewrite Hpat. }
    assert (Hl' : px_expect [Regex (prompt (self W));
                             Regex "[Pp]ermission denied"] 15 t3 = (Failed, t4)).
    { cbn [self W]. by rewrite Hprompt. }
    pose proof (turn_host_key_passphrase_lost W t1 t2 t3 t4 Hs' He' Hk' Hg' Hl')
      as H.
    settle H. rewrite open_loop_turn, H. reflexivity.
Qed.
End Facts.
End SessionFacts.

Module ShellFacts.
Import PyStr SSH Shell SSHFacts SessionFacts.

(** ** Trimmed text *)

Lemma lstrip_solid s : lstrip s = "" \/ starts_solid (lstrip s) = true.
Proof.
  induction s as [|c s IH]; [by left|]. cbn [lstrip].
  destruct (is_space c) eqn:Hc; [done|]. right. cbn. by rewrite Hc.
Qed.

Lemma rstrip_ends s : rstrip s = "" \/ ends_solid (rstrip s) = true.
Proof.
  induction s as [|c s IH]; [by left|]. cbn [rstrip].
  destruct (is_space c) eqn:Hc; cbn [andb].
  - destruct (rstrip s) as [|c' r] eqn:Hr; cbn [is_empty]; [by left|].
    right. destruct IH as [?|IH]; [done|]. exact IH.
  - right. destruct (rstrip s) as [|c' r] eqn:Hr.
    + cbn. by rewrite Hc.
    + destruct IH as [?|IH]; [done|]. exact IH.
Qed.

Lemma rstrip_starts s :
  starts_solid s = true -> exists c r, rstrip s = String c r /\ is_space c = false.
Proof.
  destruct s as [|c s]; [done|]. cbn. intros Hc%negb_true_iff.
  rewrite Hc. cbn. eauto.
Qed.

Lemma rstrip_idem s : rstrip (rstrip s) = rstrip s.
Proof.
  induction s as [|c s IH]; [done|]. cbn [rstrip].
  destruct (is_space c && is_empty (rstrip s)) eqn:Hb; [done|].
  cbn [rstrip]. by rewrite IH, Hb.
Qed.

Lemma lstrip_of_solid s : s = "" \/ starts_solid s = true -> lstrip s = s.
Proof.
  intros [->|Hs]; [done|]. destruct s as [|c s]; [done|].
  cbn in *. apply negb_true_iff in Hs. by rewrite Hs.
Qed.

(** [s.strip()] is empty or has a character that is not a space at
    either end, and trimming it again changes nothing. *)
Lemma strip_trimmed s :
  (strip s = "" \/ (starts_solid (strip s) = true /\ ends_solid (strip s) = true))
  /\ strip (strip s) = strip s.
Proof.
  unfold strip.
  assert (Hshape : rstrip (lstrip s) = ""
                   \/ (starts_solid (rstrip (lstrip s)) = true
                       /\ ends_solid (rstrip (lstrip s)) = true)).
  { destruct (lstrip_solid s) as [->|Hl]; [by left|].
    destruct (rstrip_starts _ Hl) as (c & r & Hr & Hc).
    right. split.
    - rewrite Hr. cbn. by rewrite Hc.
    - destruct (rstrip_ends (lstrip s)) as [He|He]; [congruence|done]. }
  split; [exact Hshape|].
  rewrite lstrip_of_solid; [apply rstrip_idem|].
  destruct Hshape as [?|[? _]]; auto.
Qed.

Section Facts.
Context {PX : Type}.
Variable px_spawn : string -> PX -> bool * PX.
Variable px_expect : list pattern -> nat -> PX -> expect_outcome * PX.
Variable px_before : PX -> string.
Variable px_wait : list pattern -> nat -> PX -> wait_outcome * PX.

Abbreviation command := (command px_expect px_before).
Abbreviation close := (close px_wait).

(** X13.  [command] on a session whose child is absent or closed
    raises [ConnectionError] and does nothing.  On an open session it
    sends the command line once and waits once, with the timeout it is
    given, for the expected line (the prompt of the session when none
    is given), end of stream or a timeout; it leaves the session
    object as it is and does not close the child.  When the wait
    answers with an index of its list, the first gives back the text
    read before the match, trimmed (empty, or without a space at
    either end), the second raises [ConnectionAbortedError] and the
    third [TimeoutError]; [None] is never returned. *)
Theorem command_effect (commandline : string) (expectedline : option string)
    (timeout : nat) (w : @world PX) :
  let r := (command commandline expectedline timeout w).1 in
  let w' := (command commandline expectedline timeout w).2 in
  let patterns := [Regex (default (prompt (self w)) expectedline); EOF; TIMEOUT] in
  self w' = self w
  /\ (is_open (self w) = false ->
      r = Throws (Exn (ConnectionError "SSH connection is not open.")) /\ w' = w)
  /\ (is_open (self w) = true ->
      trace w' = trace w ++ [SentLine commandline; Expected patterns timeout]
      /\ terminal w' = (px_expect patterns timeout (terminal w)).2
      /\ (forall i, (px_expect patterns timeout (terminal w)).1 = Matched i ->
          i < length patterns ->
          (i = 0 /\ r = Returns (Some (strip (px_before (terminal w'))))
           \/ i = 1 /\ (exists msg, r = Throws (ConnectionAbortedError msg))
           \/ i = 2 /\ (exists msg, r = Throws (TimeoutError msg)))
          /\ r <> Returns None)
      /\ ((px_expect patterns timeout (terminal w)).1 = Failed ->
          r = Throws (Exn ExceptionPexpect))
      /\ (forall out, r = Returns (Some out) ->
          out = strip (px_before (terminal w'))
          /\ strip out = out
          /\ (out = "" \/ (starts_solid out = true /\ ends_solid out = true)))).
Proof.
  cbv zeta. unfold Shell.command.
  destruct (is_open (self w)) eqn:Hopen; cbn [negb].
  2:{ cbn [fst snd]. by repeat split. }
  unfold_ssh. cbn [self terminal trace].
  destruct (px_expect _ _ _) as [[i|] t'] eqn:He; cbn [fst snd self terminal trace].
  - split; [done|]. split; [done|].
    intros _. split; [by rewrite <- app_assoc|]. split; [done|]. split.
    + intros i' [= <-] Hi. cbn in Hi.
      destruct i as [|[|[|i]]]; [| | |lia].
      * split; [by left|done].
      * split; [right; left; eauto|done].
      * split; [right; right; eauto|done].
    + split; [done|]. intros out Hout.
      assert (out = strip (px_before t')) as ->.
      { by destruct i as [|[|[|i]]]; simplify_eq. }
      destruct (strip_trimmed (px_before t')) as [Hshape Hidem].
      split; [done|]. split; [done|]. exact Hshape.
  - split; [done|]. split; [done|].
    intros _. split; [by rewrite <- app_assoc|]. split; [done|].
    split; [done|]. split; [done|]. done.
Qed.

(** What a call of [command] that returns has done. *)
Lemma command_returns (commandline : string) (expectedline : option string)
    (timeout : nat) (w w' : @world PX) (o : option string) :
  command commandline expectedline timeout w = (Returns o, w') ->
  is_open (self w) = true
  /\ self w' = self w
  /\ trace w'
     = trace w ++ [SentLine commandline;
                   Expected [Regex (default (prompt (self w)) expectedline);
                             EOF; TIMEOUT] timeout]
  /\ forall out, o = Some out -> strip out = out.
Proof.
  unfold Shell.command.
  destruct (is_open (self w)) eqn:Hopen; cbn [negb]; [|done].
  unfold_ssh. cbn [self terminal trace].
  destruct (px_expect _ _ _) as [[i|] t'] eqn:He; [|done].
  intros [= Ho <-]. cbn [self trace]. split; [done|]. split; [done|].
  split; [by rewrite <- app_assoc|]. intros out ->.
  assert (out = strip (px_before t')) as ->.
  { by destruct i as [|[|[|i]]]; simplify_eq. }
  apply strip_trimmed.
Qed.

Lemma command_self (commandline : string) (expectedline : option string)
    (timeout : nat) (w : @world PX) :
  self (command commandline expectedline timeout w).2 = self w.
Proof.
  unfold Shell.command.
  destruct (is_open (self w)) eqn:Hopen; cbn [negb]; [|done].
  unfold_ssh. cbn [self terminal trace].
  by destruct (px_expect _ _ _) as [[i|] t'].
Qed.

(** [close] in one equation. *)
Lemma close_run (wait_s : nat) (w : @world PX) :
  close wait_s w =
    if is_open (self w) then
      let t' := (px_wait [EOF; TIMEOUT] wait_s (terminal w)).2 in
      let tr := trace w ++ [SentLine "exit"; Expected [EOF; TIMEOUT] wait_s] in
      let closed_child :=
        mkWorld (with_ssh (Some (mkChild true)) (self w)) t' (tr ++ [Closed]) in
      match (px_wait [EOF; TIMEOUT] wait_s (terminal w)).1 with
      | Pexpect _ => (Ok true, closed_child)
      | Another e =>
          if pexpect_or_os_error e then (Ok true, closed_child)
          else (Raise e, mkWorld (self w) t' tr)
      end
    else (Ok true, w).
Proof.
  unfold Shell.close, Shell.wait, is_open, close_unless_closed, set_closed.
  unfold_ssh. cbn [self terminal trace].
  destruct (ssh (self w)) as [[[]]|] eqn:Hc; cbn [negb closed]; try done.
  destruct (px_wait _ _ _) as [[[i|]|e] t']; cbn [fst snd];
    [| |destruct (pexpect_or_os_error e) eqn:Hcaught];
    repeat (unfold_ssh;
            cbn [self terminal trace ssh with_ssh closed pexpect_or_os_error
                 fst snd];
            rewrite ?Hc, ?Hcaught);
    rewrite <- ?app_assoc; try done.
  all: by destruct (self w).
Qed.

(** How [close] ends: it returns [True] and no child is open, or the
    wait of an open session ended in an exception that the [except]
    clause does not take, and the child is still open. *)
Lemma close_cases (wait_s : nat) (w : @world PX) :
  ((close wait_s w).1 = Ok true
   /\ is_open (self (close wait_s w).2) = false)
  \/ (exists e,
        (close wait_s w).1 = Raise e
        /\ pexpect_or_os_error e = false
        /\ is_open (self w) = true
        /\ (px_wait [EOF; TIMEOUT] wait_s (terminal w)).1 = Another e
        /\ (close wait_s w).2
           = mkWorld (self w) (px_wait [EOF; TIMEOUT] wait_s (terminal w)).2
               (trace w ++ [SentLine "exit"; Expected [EOF; TIMEOUT] wait_s])).
Proof.
  rewrite close_run. cbv zeta.
  destruct (is_open (self w)) eqn:Hopen; [|by left].
  destruct (px_wait _ _ _) as [[o|e] t']; cbn [fst snd]; [by left|].
  destruct (pexpect_or_os_error e) eqn:Hcaught; [by left|].
  right. by exists e.
Qed.

(** X14.  [close] returns [True], or it raises an exception of its
    wait that is neither an exception of [pexpect] nor an [OSError]
    (the [UnicodeDecodeError] of output that does not decode is one).
    On a session whose child is absent or closed it does nothing and
    returns [True].  On an open one it sends 'exit' and waits once
    for end of stream or a timeout: when the wait matches, or raises
    an exception that the [except] clause takes, the child is
    force-closed and [True] is returned; any other exception of the
    wait leaves [close] with nothing closed, the child still open.
    After a return no child is open and closing again does nothing;
    nothing of the session but the child handle ever changes. *)
Theorem close_effect (wait_s : nat) (w : @world PX) :
  let r := (close wait_s w).1 in
  let w' := (close wait_s w).2 in
  let o := (px_wait [EOF; TIMEOUT] wait_s (terminal w)).1 in
  let asked := trace w ++ [SentLine "exit"; Expected [EOF; TIMEOUT] wait_s] in
  (r = Ok true \/ exists e, r = Raise e /\ pexpect_or_os_error e = false)
  /\ self w' = with_ssh (ssh (self w')) (self w)
  /\ (is_open (self w) = false -> r = Ok true /\ w' = w)
  /\ (is_open (self w) = true ->
      terminal w' = (px_wait [EOF; TIMEOUT] wait_s (terminal w)).2
      /\ ((forall e, o = Another e -> pexpect_or_os_error e = true) ->
          r = Ok true
          /\ ssh (self w') = Some (mkChild true)
          /\ trace w' = asked ++ [Closed])
      /\ (forall e, o = Another e -> pexpect_or_os_error e = false ->
          r = Raise e /\ self w' = self w /\ trace w' = asked))
  /\ (r = Ok true ->
      is_open (self w') = false
      /\ forall wait_s', close wait_s' w' = (Ok true, w'))
  /\ (forall e, r = Raise e ->
      is_open (self w) = true /\ o = Another e /\ is_open (self w') = true).
Proof.
  cbv zeta. rewrite close_run. cbv zeta.
  destruct (is_open (self w)) eqn:Hopen; cbn [fst snd self trace].
  2:{ split; [by left|]. split; [by destruct (self w)|]. split; [done|].
      split; [done|]. split; [|done]. intros _. split; [done|].
      intros wait_s'. by rewrite close_run, Hopen. }
  destruct (px_wait _ _ _) as [[o|e] t'] eqn:Hwait; cbn [fst snd].
  - split; [by left|]. split; [done|]. split; [done|]. split.
    { intros _. split; [done|]. split; [done|]. by intros e [=]. }
    split; [|done]. intros _. split; [done|].
    intros wait_s'. by rewrite close_run.
  - destruct (pexpect_or_os_error e) eqn:Hcaught.
    + split; [by left|]. split; [done|]. split; [done|]. split.
      { intros _. split; [done|]. split; [done|].
        intros e' [= <-] He'. congruence. }
      split; [|done]. intros _. split; [done|].
      intros wait_s'. by rewrite close_run.
    + split; [right; by exists e|]. split; [by destruct (self w)|].
      split; [done|]. split.
      { intros _. split; [done|]. split.
        - intros Hall. specialize (Hall e eq_refl). congruence.
        - by intros e' [= <-] _. }
      split; [done|]. by intros e' [= <-].
Qed.

(** X19.  A session that [__init__] has built has no child yet: its
    key path is the value of [CERT], which is not empty and names an
    existing file, its passphrase is the value of [KEYPWORD], and its
    user name is the one given when that is not empty and the value
    of [USER] otherwise, an empty one included.  Before [open],
    [command] raises [ConnectionError] and [close] returns [True],
    and neither does anything on the terminal. *)
Theorem unopened_session (environ : gmap string string)
    (path_exists : string -> bool) (ip : string) (user : option string)
    (prompt0 : string) (s : SSHConnection) :
  __init__ environ path_exists ip user prompt0 = Ok s ->
  ssh s = None
  /\ prompt s = prompt0
  /\ ip_address s = ip
  /\ Some (username s) = (if given user then user else environ !! "USER")
  /\ password s = environ !! "KEYPWORD"
  /\ environ !! "CERT" = Some (cert_path s)
  /\ cert_path s <> ""
  /\ path_exists (cert_path s) = true
  /\ forall (t : PX) (tr : list event),
       (forall commandline expectedline timeout,
          command commandline expectedline timeout (mkWorld s t tr)
          = (Throws (Exn (ConnectionError "SSH connection is not open.")),
             mkWorld s t tr))
       /\ (forall wait_s, close wait_s (mkWorld s t tr) = (Ok true, mkWorld s t tr)).
Proof.
  unfold __init__.
  destruct (if given user then user else environ !! "USER") as [u|] eqn:Hu;
    [|done].
  destruct (environ !! "CERT") as [c|] eqn:Hc;
    cbn [given negb default from_option id]; [|done].
  destruct (is_empty c) eqn:Hempty; cbn [negb]; [done|].
  destruct (path_exists c) eqn:Hp; cbn [negb]; [|done].
  intros [= <-]. cbn [ssh prompt ip_address username password cert_path].
  do 6 (split; [done|]). split; [by intros ->|]. split; [done|].
  intros t tr. split.
  - intros commandline expectedline timeout. reflexivity.
  - intros wait_s. by rewrite close_run.
Qed.
End Facts.

Section Copies.
Context {PX : Type}.
Variable px_run : string -> list (string * string) -> nat -> PX -> run_outcome * PX.

Abbreviation _run_scp := (_run_scp px_run).
Abbreviation copy_to := (copy_to px_run).
Abbreviation copy_from := (copy_from px_run).

Lemma run_scp_effect (s : SSHConnection) (scp_command : string) (st : @station PX) :
  exists ok,
    _run_scp s scp_command st
    = (Ok ok, mkStation (px_run scp_command (scp_events s) 180 (machine st)).2
                        (ran st ++ [mkRun scp_command (scp_events s) 180]))
    /\ (ok = true <->
        exists output,
          (px_run scp_command (scp_events s) 180 (machine st)).1
          = Exited output (Some 0%Z)).
Proof.
  unfold Shell._run_scp. cbv zeta.
  destruct (px_run _ _ _ _) as [[output status| |] m']; cbn [fst snd].
  - destruct (decide (status = Some 0%Z)) as [->|Hne].
    + exists true. split; [done|]. split; [eauto|done].
    + exists false. split; [done|]. split; [done|].
      intros [output' [= _ ?]]. done.
  - exists false. split; [done|]. split; [done|]. by intros [? ?].
  - exists false. split; [done|]. split; [done|]. by intros [? ?].
Qed.

(** X15.  [copy_to] raises [FileNotFoundError] when the local file
    does not exist, and then runs nothing.  Otherwise [copy_to], and
    [copy_from] always, run one [scp] command with a timeout of 180
    seconds and never raise: they return [True] exactly when the
    command ends with exit status 0, and [False] on any other status,
    on a timeout and on any other exception.  The answers prepared for
    the prompts of [scp] hold the passphrase and a line end, and there
    are none when no passphrase is configured. *)
Theorem copy_results (path_exists : string -> bool) (s : SSHConnection)
    (local_path remote_path : string) (st : @station PX) :
  (path_exists local_path = false ->
   copy_to path_exists s local_path remote_path st
   = (Raise (FileNotFoundError ("Local file '" +:+ local_path +:+ "' not found.")),
      st))
  /\ (path_exists local_path = true ->
      let command := scp_to_command s local_path remote_path in
      exists ok,
        copy_to path_exists s local_path remote_path st
        = (Ok ok, mkStation (px_run command (scp_events s) 180 (machine st)).2
                            (ran st ++ [mkRun command (scp_events s) 180]))
        /\ (ok = true <->
            exists output,
              (px_run command (scp_events s) 180 (machine st)).1
              = Exited output (Some 0%Z)))
  /\ (let command := scp_from_command s remote_path local_path in
      exists ok,
        copy_from s remote_path local_path st
        = (Ok ok, mkStation (px_run command (scp_events s) 180 (machine st)).2
                            (ran st ++ [mkRun command (scp_events s) 180]))
        /\ (ok = true <->
            exists output,
              (px_run command (scp_events s) 180 (machine st)).1
              = Exited output (Some 0%Z)))
  /\ (given (password s) = false -> scp_events s = [])
  /\ Forall (fun ev => Some ev.2 = (fun p => p +:+ newline) <$> password s)
            (scp_events s).
Proof.
  split; [|split; [|split; [|split]]].
  - intros Hp. unfold Shell.copy_to. by rewrite Hp.
  - intros Hp. cbv zeta. unfold Shell.copy_to. rewrite Hp. cbn [negb].
    apply run_scp_effect.
  - cbv zeta. unfold Shell.copy_from. apply run_scp_effect.
  - intros Hg. unfold scp_events. by rewrite Hg.
  - unfold scp_events. destruct (given (password s)) eqn:Hg; [|constructor].
    destruct (password s) as [p|]; [|done].
    repeat constructor.
Qed.
End Copies.
End ShellFacts.

Module ScriptFacts.
Import PyStr SSH Shell InitNode SSHFacts ShellFacts.

Lemma is_empty_spec s : is_empty s = true <-> s = "".
Proof. by destruct s. Qed.

Section Facts.
Context {PX : Type}.
Variable px_spawn : string -> PX -> bool * PX.
Variable px_expect : list pattern -> nat -> PX -> expect_outcome * PX.
Variable px_before : PX -> string.
Variable px_wait : list pattern -> nat -> PX -> wait_outcome * PX.
Variable px_exitstatus : PX -> option Z.

Abbreviation open := (SSH.open px_spawn px_expect).
Abbreviation command := (Shell.command px_expect px_before).
Abbreviation close := (Shell.close px_wait).
Abbreviation check_hostname_body :=
  (InitNode.check_hostname_body px_spawn px_expect px_before).
Abbreviation check_hostname :=
  (InitNode.check_hostname px_spawn px_expect px_before px_wait).
Abbreviation initialize_node_body :=
  (InitNode.initialize_node_body px_spawn px_expect px_before px_exitstatus).
Abbreviation initialize_node :=
  (InitNode.initialize_node px_spawn px_expect px_before px_wait px_exitstatus).
(** The wait of [close] raises, in no state of the terminal, an
    exception that its [except] clause does not take. *)
Abbreviation close_is_safe :=
  (forall (t : PX) (e : exn),
     (px_wait [EOF; TIMEOUT] 1 t).1 = Another e -> pexpect_or_os_error e = true).

(** The [finally] clause: the code goes on when [close] returns, and
    then no child is open; the exception of [close] takes its place
    when [close] raises, and then the child is open. *)
Lemma finally_close_run (code : Z) (w : @world PX) :
  (finally_close px_wait code w = (Ok code, (close 1 w).2)
   /\ (close 1 w).1 = Ok true
   /\ is_open (self (close 1 w).2) = false)
  \/ (exists e,
        finally_close px_wait code w = (Raise e, (close 1 w).2)
        /\ (close 1 w).1 = Raise e
        /\ pexpect_or_os_error e = false
        /\ is_open (self w) = true
        /\ (px_wait [EOF; TIMEOUT] 1 (terminal w)).1 = Another e
        /\ self (close 1 w).2 = self w
        /\ trace (close 1 w).2
           = trace w ++ [SentLine "exit"; Expected [EOF; TIMEOUT] 1]).
Proof.
  unfold finally_close.
  destruct (close_cases px_wait 1 w) as [[Hr Hc]|(e & Hr & He & Ho & Hw & Heq)].
  - left. destruct (close 1 w) as [r w']. cbn [fst snd] in *. by subst.
  - right. exists e. rewrite Heq in *. cbn [self trace].
    destruct (close 1 w) as [r w']. cbn [fst snd] in *. by subst.
Qed.

Lemma check_hostname_body_code (w : @world PX) :
  let code := (check_hostname_body w).1 in
  (code = EXIT_SUCCESS \/ code = EXIT_SSH_ERROR)
  /\ (code = EXIT_SUCCESS <->
      exists w1 out w2,
        open w = (Ok tt, w1)
        /\ command "hostname -f" None 30 w1 = (Returns (Some out), w2)
        /\ out <> ""
        /\ (check_hostname_body w).2 = w2).
Proof.
  cbv zeta. unfold InitNode.check_hostname_body.
  destruct (open w) as [[[]|e] w1] eqn:Hopen; cbn [fst].
  2:{ split; [by right|]. split; [done|]. by intros (? & ? & ? & ? & _). }
  destruct (command "hostname -f" None 30 w1) as [[[out|]|e] w2] eqn:Hcmd;
    cbn [fst].
  - destruct (command_returns _ _ _ _ _ _ _ _ Hcmd) as (_ & _ & _ & Hout).
    rewrite (Hout out eq_refl).
    destruct (is_empty out) eqn:Hempty; cbn [fst snd].
    + split; [by right|]. split; [done|].
      intros (w1' & out' & w2' & [= <-] & Hc & Hne & _).
      rewrite Hcmd in Hc. simplify_eq. by apply is_empty_spec in Hempty.
    + split; [by left|]. split; [|done]. intros _.
      exists w1, out, w2. split; [done|]. split; [done|].
      split; [|done]. intros ->. done.
  - split; [by right|]. split; [done|].
    intros (w1' & out' & w2' & [= <-] & Hc & _). by rewrite Hcmd in Hc.
  - split; [by right|]. split; [done|].
    intros (w1' & out' & w2' & [= <-] & Hc & _). by rewrite Hcmd in Hc.
Qed.

(** X16.  [check_hostname] returns [EXIT_SUCCESS] or [EXIT_SSH_ERROR],
    or it raises the exception with which the [close] of its
    [finally] clause ends: one of the wait of [close] that is neither
    an exception of [pexpect] nor an [OSError].  So it never raises
    on a terminal where that wait raises no such exception.  It
    returns [EXIT_SUCCESS] exactly when the session could be built,
    [open] returned, the command 'hostname -f' gave back a text that
    is not empty, and [close] returned.  When the session could not
    be built it returns [EXIT_SSH_ERROR] and nothing is done on the
    terminal; otherwise no child is left open when it returns, and
    the child is left open when it raises. *)
Theorem check_hostname_exit (environ : gmap string string)
    (path_exists : string -> bool) (ip : string) (username : option string)
    (t : PX) :
  let r := (check_hostname environ path_exists ip username t).1 in
  let final := (check_hostname environ path_exists ip username t).2 in
  (r = Ok EXIT_SUCCESS \/ r = Ok EXIT_SSH_ERROR
   \/ exists e, r = Raise e /\ pexpect_or_os_error e = false)
  /\ (close_is_safe -> r = Ok EXIT_SUCCESS \/ r = Ok EXIT_SSH_ERROR)
  /\ (final = None <->
      exists e, __init__ environ path_exists ip username DEFAULT_PROMPT = Raise e)
  /\ (final = None -> r = Ok EXIT_SSH_ERROR)
  /\ (forall w', final = Some w' ->
        ((exists code, r = Ok code) -> is_open (self w') = false)
        /\ ((exists e, r = Raise e) -> is_open (self w') = true))
  /\ (r = Ok EXIT_SUCCESS <->
      exists s w1 out w2,
        __init__ environ path_exists ip username DEFAULT_PROMPT = Ok s
        /\ open (mkWorld s t []) = (Ok tt, w1)
        /\ command "hostname -f" None 30 w1 = (Returns (Some out), w2)
        /\ out <> ""
        /\ (close 1 w2).1 = Ok true)
  /\ (forall e, r = Raise e <->
      exists s,
        __init__ environ path_exists ip username DEFAULT_PROMPT = Ok s
        /\ (close 1 (check_hostname_body (mkWorld s t [])).2).1 = Raise e).
Proof.
  cbv zeta. unfold InitNode.check_hostname.
  destruct (__init__ environ path_exists ip username DEFAULT_PROMPT)
    as [s|e] eqn:Hinit; cbn [fst snd].
  2:{ split; [by right; left|]. split; [by right|]. split; [split; eauto|].
      split; [done|]. split; [done|]. split.
      - split; [done|]. by intros (? & ? & ? & ? & ? & _).
      - intros e'. split; [done|]. by intros (? & ? & _). }
  destruct (check_hostname_body_code (mkWorld s t [])) as [Hcode Hiff].
  destruct (check_hostname_body (mkWorld s t [])) as [code w] eqn:Hbody.
  cbn [fst snd] in Hcode, Hiff.
  destruct (finally_close_run code w)
    as [(-> & Hr & Hclosed)|(e & -> & Hr & He & Ho & Hw & Hs & Htr)];
    cbn [fst snd].
  - split; [destruct Hcode as [->| ->]; auto|].
    split; [destruct Hcode as [->| ->]; auto|].
    split; [split; [done|by intros [? ?]]|].
    split; [done|].
    split.
    { intros w' [= <-]. split; [done|]. by intros [? ?]. }
    split.
    + split.
      * intros [= Hc]. apply Hiff in Hc as (w1 & out & w2 & ? & ? & ? & ->).
        by exists s, w1, out, w2.
      * intros (s' & w1 & out & w2 & [= <-] & Hop & Hc & Hne & _).
        f_equal. apply Hiff. exists w1, out, w2.
        split; [done|]. split; [done|]. split; [done|].
        unfold InitNode.check_hostname_body in Hbody.
        rewrite Hop, Hc in Hbody.
        destruct (is_empty (strip out)); by simplify_eq.
    + intros e. split; [done|].
      intros (s' & [= <-] & Hraise). rewrite Hbody in Hraise.
        cbn [snd] in Hraise. congruence.
  - split; [right; right; by exists e|].
    split; [intros Hsafe; specialize (Hsafe _ _ Hw); congruence|].
    split; [split; [done|by intros [? ?]]|].
    split; [done|].
    split.
    { intros w' [= <-]. split; [by intros [? ?]|]. intros _. by rewrite Hs. }
    split.
    + split; [done|].
      intros (s' & w1 & out & w2 & [= <-] & Hop & Hc & Hne & Hcl).
      assert (w = w2) as ->.
      { unfold InitNode.check_hostname_body in Hbody.
        rewrite Hop, Hc in Hbody.
        destruct (is_empty (strip out)); by simplify_eq. }
      congruence.
    + intros e'. split.
      * intros [= <-]. exists s. split; [done|]. by rewrite Hbody.
      * intros (s' & [= <-] & Hraise). rewrite Hbody in Hraise.
        cbn [snd] in Hraise. congruence.
Qed.

Lemma initialize_node_body_code (profile_name : string) (w : @world PX) :
  let code := (initialize_node_body profile_name w).1 in
  (code = EXIT_SUCCESS \/ code = EXIT_SSH_ERROR \/ code = EXIT_CMD_ERROR)
  /\ (code = EXIT_SUCCESS <->
      exists w1 o1 w2 o2 w3,
        open w = (Ok tt, w1)
        /\ command (check_cmd profile_name) None 30 w1 = (Returns o1, w2)
        /\ px_exitstatus (terminal w2) = Some 0%Z
        /\ command (startup_cmd profile_name) None 60 w2 = (Returns o2, w3)
        /\ px_exitstatus (terminal w3) = Some 0%Z
        /\ (initialize_node_body profile_name w).2 = w3).
Proof.
  cbv zeta. unfold InitNode.initialize_node_body.
  destruct (open w) as [[[]|e] w1] eqn:Hopen; cbn [fst].
  2:{ split; [by right; left|]. split; [done|].
      by intros (? & ? & ? & ? & ? & ? & _). }
  destruct (command (check_cmd profile_name) None 30 w1) as [[o1|e] w2] eqn:Hc1;
    cbn [fst].
  2:{ split; [by right; left|]. split; [done|].
      intros (? & ? & ? & ? & ? & [= <-] & Hc & _). by rewrite Hc1 in Hc. }
  destruct (decide (px_exitstatus (terminal w2) <> Some 0%Z)) as [Hs1|Hs1];
    cbn [fst].
  { split; [by right; right|]. split; [done|].
    intros (? & ? & ? & ? & ? & [= <-] & Hc & Hs & _).
    rewrite Hc1 in Hc. by simplify_eq. }
  apply dec_stable in Hs1.
  destruct (command (startup_cmd profile_name) None 60 w2) as [[o2|e] w3] eqn:Hc2;
    cbn [fst].
  2:{ split; [by right; left|]. split; [done|].
      intros (? & ? & ? & ? & ? & [= <-] & Hc & _ & Hc' & _).
      rewrite Hc1 in Hc. simplify_eq. by rewrite Hc2 in Hc'. }
  destruct (decide (px_exitstatus (terminal w3) <> Some 0%Z)) as [Hs2|Hs2];
    cbn [fst snd].
  { split; [by right; right|]. split; [done|].
    intros (? & ? & ? & ? & ? & [= <-] & Hc & _ & Hc' & Hs & _).
    rewrite Hc1 in Hc. simplify_eq. rewrite Hc2 in Hc'. by simplify_eq. }
  apply dec_stable in Hs2.
  split; [by left|]. split; [|done]. intros _.
  by exists w1, o1, w2, o2, w3.
Qed.

(** X17.  [initialize_node] returns [EXIT_SUCCESS], [EXIT_SSH_ERROR]
    or [EXIT_CMD_ERROR], never [EXIT_ARG_ERROR], or it raises the
    exception with which the [close] of its [finally] clause ends
    (one of the wait of [close] that is neither an exception of
    [pexpect] nor an [OSError]); it never raises on a terminal where
    that wait raises no such exception.  It returns [EXIT_SUCCESS]
    exactly when the session could be built, [open] returned, the
    test for the startup script returned with the exit status of the
    child reading 0, the startup command, given 60 seconds, returned
    with the status reading 0 again, and [close] returned.  Whenever
    a session was built, no child is left open when it returns, and
    the child is left open when it raises. *)
Theorem initialize_node_exit (environ : gmap string string)
    (path_exists : string -> bool) (ip profile_name : string)
    (username : option string) (t : PX) :
  let r := (initialize_node environ path_exists ip profile_name username t).1 in
  let final := (initialize_node environ path_exists ip profile_name username t).2 in
  (r = Ok EXIT_SUCCESS \/ r = Ok EXIT_SSH_ERROR \/ r = Ok EXIT_CMD_ERROR
   \/ exists e, r = Raise e /\ pexpect_or_os_error e = false)
  /\ (close_is_safe ->
      r = Ok EXIT_SUCCESS \/ r = Ok EXIT_SSH_ERROR \/ r = Ok EXIT_CMD_ERROR)
  /\ (final = None <->
      exists e, __init__ environ path_exists ip username DEFAULT_PROMPT = Raise e)
  /\ (final = None -> r = Ok EXIT_SSH_ERROR)
  /\ (forall w', final = Some w' ->
        ((exists code, r = Ok code) -> is_open (self w') = false)
        /\ ((exists e, r = Raise e) -> is_open (self w') = true))
  /\ (r = Ok EXIT_SUCCESS <->
      exists s w1 o1 w2 o2 w3,
        __init__ environ path_exists ip username DEFAULT_PROMPT = Ok s
        /\ open (mkWorld s t []) = (Ok tt, w1)
        /\ command (check_cmd profile_name) None 30 w1 = (Returns o1, w2)
        /\ px_exitstatus (terminal w2) = Some 0%Z
        /\ command (startup_cmd profile_name) None 60 w2 = (Returns o2, w3)
        /\ px_exitstatus (terminal w3) = Some 0%Z
        /\ (close 1 w3).1 = Ok true)
  /\ (forall e, r = Raise e <->
      exists s,
        __init__ environ path_exists ip username DEFAULT_PROMPT = Ok s
        /\ (close 1 (initialize_node_body profile_name (mkWorld s t [])).2).1
           = Raise e).
Proof.
  cbv zeta. unfold InitNode.initialize_node.
  destruct (__init__ environ path_exists ip username DEFAULT_PROMPT)
    as [s|e] eqn:Hinit; cbn [fst snd].
  2:{ split; [by right; left|]. split; [by right; left|].
      split; [split; eauto|].
      split; [done|]. split; [done|]. split.
      - split; [done|]. by intros (? & ? & ? & ? & ? & ? & ? & _).
      - intros e'. split; [done|]. by intros (? & ? & _). }
  destruct (initialize_node_body_code profile_name (mkWorld s t []))
    as [Hcode Hiff].
  destruct (initialize_node_body profile_name (mkWorld s t [])) as [code w]
    eqn:Hb.
  cbn [fst snd] in Hcode, Hiff.
  destruct (finally_close_run code w)
    as [(-> & Hr & Hclosed)|(e & -> & Hr & He & Ho & Hw & Hs & Htr)];
    cbn [fst snd].
  - split; [destruct Hcode as [->|[->| ->]]; auto|].
    split; [destruct Hcode as [->|[->| ->]]; auto|].
    split; [split; [done|by intros [? ?]]|].
    split; [done|].
    split.
    { intros w' [= <-]. split; [done|]. by intros [? ?]. }
    split.
    + split.
      * intros [= Hc].
        apply Hiff in Hc as (w1 & o1 & w2 & o2 & w3 & ? & ? & ? & ? & ? & ->).
        by exists s, w1, o1, w2, o2, w3.
      * intros (s' & w1 & o1 & w2 & o2 & w3 & [= <-] & Hop & Hc1 & Hs1 & Hc2
                & Hs2 & _).
        f_equal. apply Hiff. exists w1, o1, w2, o2, w3.
        do 5 (split; [done|]).
        unfold InitNode.initialize_node_body in Hb.
        rewrite Hop, Hc1, Hc2 in Hb.
        repeat case_decide; by simplify_eq.
    + intros e. split; [done|].
      intros (s' & [= <-] & Hraise). rewrite Hb in Hraise.
        cbn [snd] in Hraise. congruence.
  - split; [right; right; right; by exists e|].
    split; [intros Hsafe; specialize (Hsafe _ _ Hw); congruence|].
    split; [split; [done|by intros [? ?]]|].
    split; [done|].
    split.
    { intros w' [= <-]. split; [by intros [? ?]|]. intros _. by rewrite Hs. }
    split.
    + split; [done|].
      intros (s' & w1 & o1 & w2 & o2 & w3 & [= <-] & Hop & Hc1 & Hs1 & Hc2
              & Hs2 & Hcl).
      assert (w = w3) as ->.
      { unfold InitNode.initialize_node_body in Hb.
        rewrite Hop, Hc1, Hc2 in Hb.
        repeat case_decide; by simplify_eq. }
      congruence.
    + intros e'. split.
      * intros [= <-]. exists s. split; [done|]. by rewrite Hb.
      * intros (s' & [= <-] & Hraise). rewrite Hb in Hraise.
        cbn [snd] in Hraise. congruence.
Qed.

(** X18.  When the test for the startup script has returned and the
    exit status of the child does not read 0 (it reads [None] while
    the child runs), [initialize_node] never sends the startup
    command: after the test command it sends 'exit' and waits once,
    a second, for the end of the stream.  When [close] returns, the
    child has been force-closed and the result is [EXIT_CMD_ERROR];
    when the wait of [close] raises an exception that is neither one
    of [pexpect] nor an [OSError], that exception is raised, nothing
    more is done and the child is still open. *)
Theorem initialize_node_stops (environ : gmap string string)
    (path_exists : string -> bool) (ip profile_name : string)
    (username : option string) (t : PX) (s : SSHConnection)
    (w1 w2 : @world PX) (o1 : option string) :
  __init__ environ path_exists ip username DEFAULT_PROMPT = Ok s ->
  open (mkWorld s t []) = (Ok tt, w1) ->
  command (check_cmd profile_name) None 30 w1 = (Returns o1, w2) ->
  px_exitstatus (terminal w2) <> Some 0%Z ->
  let r := (initialize_node environ path_exists ip profile_name username t).1 in
  let final := (initialize_node environ path_exists ip profile_name username t).2 in
  let o := (px_wait [EOF; TIMEOUT] 1 (terminal w2)).1 in
  exists w' tail,
    final = Some w'
    /\ trace w'
       = trace w1 ++ [SentLine (check_cmd profile_name);
                      Expected [Regex (prompt (self w1)); EOF; TIMEOUT] 30;
                      SentLine "exit"; Expected [EOF; TIMEOUT] 1] ++ tail
    /\ ((r = Ok EXIT_CMD_ERROR /\ tail = [Closed] /\ is_open (self w') = false)
        \/ (exists e, r = Raise e /\ o = Another e
                      /\ pexpect_or_os_error e = false
                      /\ tail = [] /\ is_open (self w') = true))
    /\ ((forall e, o = Another e -> pexpect_or_os_error e = true) ->
        r = Ok EXIT_CMD_ERROR).
Proof.
  intros Hinit Hopen Hcmd Hstatus. cbv zeta.
  unfold InitNode.initialize_node, InitNode.initialize_node_body.
  rewrite Hinit, Hopen, Hcmd.
  destruct (decide (px_exitstatus (terminal w2) <> Some 0%Z)); [|done].
  destruct (command_returns _ _ _ _ _ _ _ _ Hcmd) as (Ho & Hself & Htr & _).
  assert (His : is_open (self w2) = true) by (by rewrite Hself).
  unfold finally_close. rewrite close_run, His. cbv zeta.
  destruct (px_wait [EOF; TIMEOUT] 1 (terminal w2)) as [[o|e] t'] eqn:Hwait;
    cbn [fst snd]; [|destruct (pexpect_or_os_error e) eqn:Hcaught];
    cbn [fst snd].
  - eexists _, [Closed]. split; [done|]. cbn [trace self default].
    rewrite Htr. cbn [default]. split; [by rewrite <- !app_assoc|].
    split; [by left|done].
  - eexists _, [Closed]. split; [done|]. cbn [trace self default].
    rewrite Htr. cbn [default]. split; [by rewrite <- !app_assoc|].
    split; [by left|done].
  - eexists _, []. split; [done|]. cbn [trace self default].
    rewrite Htr. cbn [default]. split; [by rewrite <- !app_assoc|].
    split.
    + right. exists e. by rewrite His.
    + intros Hall. specialize (Hall e eq_refl). congruence.
Qed.
End Facts.
End ScriptFacts.

Module FurtherScenarios.
Import Experiment.

Lemma pair_of_fst {A B : Type} (p : A * B) (a : A) : p.1 = a -> p = (a, p.2).
Proof. destruct p as [a' b]. cbn. by intros ->. Qed.

Lemma scripted_answers_in_range : Shell.answers_in_range ScriptedShell.px_expect.
Proof.
  intros patterns timeout t i t'. unfold ScriptedShell.px_expect.
  destruct (ScriptedShell.answers t) as [|k rest]; [done|].
  destruct (decide (k < length patterns)) as [Hk|Hk]; [|done].
  by intros [= <- _].
Qed.

(** ** The controller *)

(** X2, on the controller that saw the experiment ready with one
    node. *)
Lemma registry_well_formed_witness :
  reachable (self Scripted.ready_once)
  /\ Registry.well_formed (nodes (self Scripted.ready_once))
  /\ size (nodes (self Scripted.ready_once)) = 1.
Proof.
  split; [exact Scenarios.reachable_ready_once|].
  split; [|exact Scenarios.ready_once_registry].
  exact (proj1 (ControllerFacts.registry_well_formed _
                  Scenarios.reachable_ready_once)).
Defined.

(** X3, on the status line of section 4.2. *)
Lemma check_status_requests_witness :
  Scripted.get_experiment_status "proj" "exp" (plane Scripted.uuid_line)
  = (RESPONSE_SUCCESS, Scripted.output "Status: provisioning, UUID: abc",
     Scripted.mkScript [] [] [] [])
  /\ calls GetExperimentStatus (trace (Scripted.check_status Scripted.uuid_line).2)
     = calls GetExperimentStatus (trace Scripted.uuid_line) + 1
  /\ calls StartExperiment (trace (Scripted.check_status Scripted.uuid_line).2)
     = calls StartExperiment (trace Scripted.uuid_line).
Proof.
  assert (H : Scripted.get_experiment_status
                (project_name (self Scripted.uuid_line))
                (experiment_name (self Scripted.uuid_line))
                (plane Scripted.uuid_line)
              = (RESPONSE_SUCCESS,
                 Scripted.output "Status: provisioning, UUID: abc",
                 Scripted.mkScript [] [] [] [])) by reflexivity.
  split; [exact H|].
  pose proof (ControllerRequests.check_status_requests
                Scripted.get_experiment_manifests Scripted.get_experiment_status
                Scripted.decode_manifests Scripted.uuid_line _ _ _ H) as R.
  cbv zeta in R. destruct R as (_ & Hs & Hst & _).
  split; [exact Hs|exact Hst].
Defined.

(** X4, on a manifest request that is answered with a document without
    nodes. *)
Lemma get_manifests_effect_witness :
  Scripted.get_experiment_manifests "proj" "exp" (plane Scripted.hollow_ready)
  = (RESPONSE_SUCCESS, Scripted.output "hollow",
     Scripted.mkScript [] [] [] [Scripted.success "Status: ready"])
  /\ trace (_get_manifests Scripted.get_experiment_manifests
                           Scripted.decode_manifests Scripted.hollow_ready).2
     = trace Scripted.hollow_ready
       ++ [Called GetExperimentManifests RESPONSE_SUCCESS (Scripted.output "hollow")]
  /\ (_get_manifests Scripted.get_experiment_manifests
                     Scripted.decode_manifests Scripted.hollow_ready).1 = Ok tt.
Proof.
  assert (H : Scripted.get_experiment_manifests
                (project_name (self Scripted.hollow_ready))
                (experiment_name (self Scripted.hollow_ready))
                (plane Scripted.hollow_ready)
              = (RESPONSE_SUCCESS, Scripted.output "hollow",
                 Scripted.mkScript [] [] [] [Scripted.success "Status: ready"]))
    by reflexivity.
  split; [exact H|].
  pose proof (ControllerRequests.get_manifests_effect
                Scripted.get_experiment_manifests Scripted.decode_manifests
                Scripted.hollow_ready _ _ _ H) as R.
  cbv zeta in R. destruct R as (Htr & _ & _ & _ & Hok & _).
  split; [exact Htr|]. exact (proj1 (Hok eq_refl)).
Defined.

(** X5, on an experiment that is ready with one node at the first
    check, and on one that is reported failed and whose control plane
    then refuses the terminate and the start request. *)
Lemma start_and_wait_shortcuts_witness :
  (Scripted._get_status
     (Scripted.world_of Scripted.fresh
        (Scripted.mkScript [] [] [Scripted.success "one"]
                           [Scripted.success "Status: ready"]))
   = (Ok tt, Scripted.ready_once)
   /\ Scripted.start_and_wait
        (Scripted.world_of Scripted.fresh
           (Scripted.mkScript [] [] [Scripted.success "one"]
                              [Scripted.success "Status: ready"]))
      = (Ok EXPERIMENT_READY, Scripted.ready_once))
  /\ ((Scripted._get_status Scripted.padded_failed).1 = Ok tt
      /\ status (self (Scripted._get_status Scripted.padded_failed).2)
         = EXPERIMENT_FAILED
      /\ (Scripted.start_and_wait Scripted.padded_failed).1 = Ok EXPERIMENT_FAILED
      /\ calls TerminateExperiment
           (trace (Scripted.start_and_wait Scripted.padded_failed).2) = 1
      /\ calls StartExperiment
           (trace (Scripted.start_and_wait Scripted.padded_failed).2) = 1
      /\ calls GetExperimentStatus
           (trace (Scripted.start_and_wait Scripted.padded_failed).2) = 1
      /\ slept (trace (Scripted.start_and_wait Scripted.padded_failed).2) = 0).
Proof.
  split.
  - assert (H : Experiment._get_status Scripted.get_experiment_manifests
                  Scripted.get_experiment_status Scripted.decode_manifests
                  (Scripted.world_of Scripted.fresh
                     (Scripted.mkScript [] [] [Scripted.success "one"]
                                        [Scripted.success "Status: ready"]))
                = (Ok tt, Scripted.ready_once)) by (vm_compute; reflexivity).
    assert (Hst : status (self Scripted.ready_once) = EXPERIMENT_READY)
      by (vm_compute; reflexivity).
    assert (Hn : no_nodes (self Scripted.ready_once) = false)
      by (vm_compute; reflexivity).
    split; [exact H|].
    exact (proj1 (ControllerRequests.start_and_wait_shortcuts
                    Scripted.start_experiment Scripted.terminate_experiment
                    Scripted.get_experiment_manifests
                    Scripted.get_experiment_status Scripted.decode_manifests
                    _ _ H) Hst Hn).
  - assert (H1 : (Experiment._get_status Scripted.get_experiment_manifests
                    Scripted.get_experiment_status Scripted.decode_manifests
                    Scripted.padded_failed).1 = Ok tt)
      by (vm_compute; reflexivity).
    assert (Hst : status (self (Experiment._get_status
                                  Scripted.get_experiment_manifests
                                  Scripted.get_experiment_status
                                  Scripted.decode_manifests
                                  Scripted.padded_failed).2)
                  = EXPERIMENT_FAILED) by (vm_compute; reflexivity).
    pose proof (pair_of_fst _ _ H1) as H.
    assert (Hstart :
      Scripted.start_experiment
        (experiment_name (self (Experiment.terminate Scripted.terminate_experiment
           (Experiment._get_status Scripted.get_experiment_manifests
              Scripted.get_experiment_status Scripted.decode_manifests
              Scripted.padded_failed).2).2))
        (project_name (self (Experiment.terminate Scripted.terminate_experiment
           (Experiment._get_status Scripted.get_experiment_manifests
              Scripted.get_experiment_status Scripted.decode_manifests
              Scripted.padded_failed).2).2))
        (profile_name (self (Experiment.terminate Scripted.terminate_experiment
           (Experiment._get_status Scripted.get_experiment_manifests
              Scripted.get_experiment_status Scripted.decode_manifests
              Scripted.padded_failed).2).2))
        (plane (Experiment.terminate Scripted.terminate_experiment
           (Experiment._get_status Scripted.get_experiment_manifests
              Scripted.get_experiment_status Scripted.decode_manifests
              Scripted.padded_failed).2).2)
      = (RESPONSE_OTHER (-1), None, Scripted.mkScript [] [] [] []))
      by (vm_compute; reflexivity).
    pose proof (ControllerRequests.start_and_wait_shortcuts
                  Scripted.start_experiment Scripted.terminate_experiment
                  Scripted.get_experiment_manifests
                  Scripted.get_experiment_status Scripted.decode_manifests
                  _ _ H) as R.
    destruct R as (_ & _ & R).
    specialize (R _ _ _ _ (or_intror (conj Hst eq_refl)) Hstart).
    cbv zeta in R. destruct R as [R _].
    assert (Hrv : RESPONSE_OTHER (-1) <> RESPONSE_SUCCESS) by discriminate.
    specialize (R Hrv).
    split; [exact H1|]. split; [exact Hst|].
    unfold Scripted.start_and_wait. rewrite R.
    split; [reflexivity|].
    split; [vm_compute; reflexivity|].
    split; [vm_compute; reflexivity|].
    split; vm_compute; reflexivity.
Defined.

(** ** The session *)

(** X10, on a node whose host key is asked for and accepted. *)
Lemma open_succeeds_witness :
  Scripted.open [SSH.Matched 4; SSH.Matched 0]
  = (Ok tt,
     SSH.mkWorld (SSH.with_ssh (Some (SSH.mkChild false)) Scripted.session) []
       [SSH.Spawned (SSH.ssh_command Scripted.session);
        SSH.Expected (SSH.expected_patterns Scripted.session) 25;
        SSH.SentLine "yes";
        SSH.Expected (SSH.expected_patterns Scripted.session) 15]).
Proof.
  assert (Hj : 0 < SSH.max_retries) by (unfold SSH.max_retries; lia).
  pose proof (SessionFacts.open_succeeds Scripted.px_spawn Scripted.px_expect 0
                (Scripted.at_terminal [SSH.Matched 4; SSH.Matched 0])
                [SSH.Matched 4; SSH.Matched 0] [SSH.Matched 4; SSH.Matched 0]
                [SSH.Matched 0] 4 Hj eq_refl eq_refl eq_refl) as R.
  cbv zeta in R. destruct R as (_ & _ & R).
  exact (proj1 (R eq_refl 0 [] eq_refl) eq_refl).
Defined.

(** X11, on a node that never answers. *)
Lemma open_exhausted_witness :
  Shell.answers_in_range ScriptedShell.px_expect
  /\ (ScriptedShell.open ScriptedShell.silent).1
     = Raise (ConnectionError
                "Could not connect via SSH to 10.0.0.1 after multiple retries")
  /\ Shell.is_open (SSH.self (ScriptedShell.open ScriptedShell.silent).2) = false.
Proof.
  assert (H : (SSH.open ScriptedShell.px_spawn ScriptedShell.px_expect
                 (ScriptedShell.at_console ScriptedShell.silent)).1
              = Raise (ConnectionError
                         "Could not connect via SSH to 10.0.0.1 after multiple retries"))
    by (vm_compute; reflexivity).
  split; [exact scripted_answers_in_range|]. split; [exact H|].
  exact (proj1 (proj2 (SessionFacts.open_exhausted ScriptedShell.px_spawn
                         ScriptedShell.px_expect _ _
                         scripted_answers_in_range H))).
Defined.

(** X12, on a key that asks for a passphrase when none is configured,
    and on a passphrase after which the stream ends, the prompt coming
    at the next attempt. *)
Lemma open_passphrase_errors_witness :
  Scripted.open [SSH.Matched 2]
  = (Raise (ValueError "Encrypted SSH key requires KEYPWORD environment variable."),
     SSH.mkWorld (SSH.with_ssh (Some (SSH.mkChild true)) Scripted.session) []
       [SSH.Spawned (SSH.ssh_command Scripted.session);
        SSH.Expected (SSH.expected_patterns Scripted.session) 25;
        SSH.Closed])
  /\ (SSH.open Scripted.px_spawn Scripted.px_expect
        (SSH.mkWorld ScriptedShell.keyed
                     [SSH.Matched 2; SSH.Failed; SSH.Matched 0] [])).1 = Ok tt
  /\ SSH.attempts
       (SSH.trace (SSH.open Scripted.px_spawn Scripted.px_expect
                     (SSH.mkWorld ScriptedShell.keyed
                                  [SSH.Matched 2; SSH.Failed; SSH.Matched 0] [])).2)
     = 2.
Proof.
  assert (Hj : 0 < SSH.max_retries) by (unfold SSH.max_retries; lia).
  split.
  - pose proof (SessionFacts.open_passphrase_errors Scripted.px_spawn
                  Scripted.px_expect 0 (Scripted.at_terminal [SSH.Matched 2])
                  [SSH.Matched 2] [SSH.Matched 2] [] 2 Hj eq_refl eq_refl eq_refl)
      as R.
    cbv zeta in R. destruct R as (R & _).
    exact (R eq_refl eq_refl).
  - pose proof (SessionFacts.open_passphrase_errors Scripted.px_spawn
                  Scripted.px_expect 0
                  (SSH.mkWorld ScriptedShell.keyed
                               [SSH.Matched 2; SSH.Failed; SSH.Matched 0] [])
                  [SSH.Matched 2; SSH.Failed; SSH.Matched 0]
                  [SSH.Matched 2; SSH.Failed; SSH.Matched 0]
                  [SSH.Failed; SSH.Matched 0] 2 Hj eq_refl eq_refl eq_refl)
      as R.
    cbv zeta in R. destruct R as (_ & _ & _ & R & _).
    specialize (R eq_refl eq_refl [SSH.Matched 0] eq_refl).
    rewrite R. split; vm_compute; reflexivity.
Defined.

(** X19, in an environment with a key and a user. *)
Lemma unopened_session_witness :
  SSH.__init__ ScriptedShell.environ ScriptedShell.path_exists "10.0.0.1" None
               SSH.DEFAULT_PROMPT
  = Ok ScriptedShell.session
  /\ Shell.close ScriptedShell.px_wait 1
       (ScriptedShell.at_console ScriptedShell.running)
     = (Ok true, ScriptedShell.at_console ScriptedShell.running).
Proof.
  assert (Hinit : SSH.__init__ ScriptedShell.environ ScriptedShell.path_exists
                    "10.0.0.1" None SSH.DEFAULT_PROMPT
                  = Ok ScriptedShell.session) by (vm_compute; reflexivity).
  split; [exact Hinit|].
  pose proof (ShellFacts.unopened_session ScriptedShell.px_expect
                ScriptedShell.px_before ScriptedShell.px_wait _ _ _ _ _ _ Hinit)
    as R.
  destruct R as (_ & _ & _ & _ & _ & _ & _ & _ & R).
  exact (proj2 (R ScriptedShell.running []) 1).
Defined.

(** ** The script *)

(** X18, on a node that shows its prompt while the child, still
    running, has no exit status; and the same node when its output
    does not decode at the wait of [close]. *)
Lemma initialize_node_stops_witness :
  ScriptedShell.px_exitstatus ScriptedShell.running = None
  /\ (ScriptedShell.initialize_node "demo" ScriptedShell.running).1
     = Ok InitNode.EXIT_CMD_ERROR
  /\ (ScriptedShell.initialize_node_garbled "demo" ScriptedShell.running).1
     = Raise (ValueError "'utf-8' codec can't decode byte 0xff").
Proof.
  split; [reflexivity|].
  assert (Hinit : SSH.__init__ ScriptedShell.environ ScriptedShell.path_exists
                    "10.0.0.1" None SSH.DEFAULT_PROMPT
                  = Ok ScriptedShell.session) by (vm_compute; reflexivity).
  assert (Ho : (SSH.open ScriptedShell.px_spawn ScriptedShell.px_expect
                  (SSH.mkWorld ScriptedShell.session ScriptedShell.running [])).1
               = Ok tt) by (vm_compute; reflexivity).
  pose proof (pair_of_fst _ _ Ho) as Hopen.
  assert (Hc : (Shell.command ScriptedShell.px_expect ScriptedShell.px_before
                  (InitNode.check_cmd "demo") None 30
                  (SSH.open ScriptedShell.px_spawn ScriptedShell.px_expect
                     (SSH.mkWorld ScriptedShell.session ScriptedShell.running
                                  [])).2).1
               = Shell.Returns (Some "")) by (vm_compute; reflexivity).
  pose proof (pair_of_fst _ _ Hc) as Hcmd.
  assert (Hnone : ScriptedShell.px_exitstatus
                 (SSH.terminal
                    (Shell.command ScriptedShell.px_expect ScriptedShell.px_before
                       (InitNode.check_cmd "demo") None 30
                       (SSH.open ScriptedShell.px_spawn ScriptedShell.px_expect
                          (SSH.mkWorld ScriptedShell.session
                                       ScriptedShell.running [])).2).2)
               = None) by (vm_compute; reflexivity).
  assert (Hs : ScriptedShell.px_exitstatus
                 (SSH.terminal
                    (Shell.command ScriptedShell.px_expect ScriptedShell.px_before
                       (InitNode.check_cmd "demo") None 30
                       (SSH.open ScriptedShell.px_spawn ScriptedShell.px_expect
                          (SSH.mkWorld ScriptedShell.session
                                       ScriptedShell.running [])).2).2)
               <> Some 0%Z).
  { rewrite Hnone. discriminate. }
  split.
  - destruct (ScriptFacts.initialize_node_stops ScriptedShell.px_spawn
                ScriptedShell.px_expect ScriptedShell.px_before
                ScriptedShell.px_wait
                ScriptedShell.px_exitstatus ScriptedShell.environ
                ScriptedShell.path_exists "10.0.0.1" "demo" None
                ScriptedShell.running _ _ _ _ Hinit Hopen Hcmd Hs)
      as (w' & tail & _ & _ & _ & Hsafe).
    unfold ScriptedShell.initialize_node. apply Hsafe.
    intros e He. exfalso. revert He.
    unfold ScriptedShell.px_wait.
    destruct (ScriptedShell.px_expect _ _ _) as [o c']. cbn [fst].
    discriminate.
  - destruct (ScriptFacts.initialize_node_stops ScriptedShell.px_spawn
                ScriptedShell.px_expect ScriptedShell.px_before
                ScriptedShell.px_wait_garbled
                ScriptedShell.px_exitstatus ScriptedShell.environ
                ScriptedShell.path_exists "10.0.0.1" "demo" None
                ScriptedShell.running _ _ _ _ Hinit Hopen Hcmd Hs)
      as (w' & tail & _ & _ & [(Hr & _)|(e & Hr & He & _)] & _).
    + exfalso. revert Hr.
      assert (Hraise :
        (InitNode.initialize_node ScriptedShell.px_spawn ScriptedShell.px_expect
           ScriptedShell.px_before ScriptedShell.px_wait_garbled
           ScriptedShell.px_exitstatus ScriptedShell.environ
           ScriptedShell.path_exists "10.0.0.1" "demo" None
           ScriptedShell.running).1
        = Raise (ValueError "'utf-8' codec can't decode byte 0xff"))
        by (vm_compute; reflexivity).
      rewrite Hraise. discriminate.
    + unfold ScriptedShell.initialize_node_garbled. rewrite Hr.
      unfold ScriptedShell.px_wait_garbled in He. cbn [fst] in He.
      injection He as <-. reflexivity.
Defined.
End FurtherScenarios.
